(** * Verification of the JIRA agent workflow core

    A shallow embedding of the Python services

    - [src/services/code_generator.py]      (class [CodeGeneratorService]),
    - [src/services/jira_agent_workflow.py] (class [JiraAgentWorkflowService]),
    - [src/services/jira_agent_service.py]  (class [JiraAgentService]),
    - [src/models/schemas.py]               (the pydantic records),

    followed by the properties of the session state machine, of the parsing
    of generated text into files and of the feedback loop.

    Conventions of the embedding.
    - A Python [str] is a [string]; a character is a code point below 256.
    - A Python [int] is a [Z].
    - [Dict[str, CodeGenerationSession]] is a [gmap string CodeGenerationSession].
      The Python code holds a session object and the dictionary entry as one
      aliased object: every field write is therefore a write into the map.
    - A call that may raise returns an [outcome]; [Raises] stands for an
      exception of class [Exception], the ones [except Exception] catches;
      [try/except] is a match.
    - A [datetime] value is a number of microseconds in [Z], within the range
      of [datetime]. An operation that calls [datetime.now()] several times
      is given a [clock]: [clock k] is what its call number [k] returns.
    - A finite [float] is the rational number it stands for; an operation on
      floats is the exact operation followed by rounding to the nearest
      double, a tie going to the even one ([PyFloat.round]).
    - The operations of one service run one after the other. *)

From Stdlib Require Import ZArith Ascii String List Lia Bool.
From Stdlib Require Import QArith Qround Qpower Lqa.
From stdpp Require Import base strings gmap list pretty.

Local Open Scope Z_scope.

(** ** Exceptions *)

Inductive outcome (A : Type) : Type :=
| Returns (a : A)
| Raises (exc_type : string) (msg : string).
Arguments Returns {A} a.
Arguments Raises {A} exc_type msg.

#[global] Instance outcome_ret : MRet outcome := fun A a => Returns a.

#[global] Instance outcome_bind : MBind outcome := fun A B f x =>
  match x with
  | Returns a => f a
  | Raises t m => Raises t m
  end.

(** ** Python string operations *)

Module PyStr.

Definition nl : ascii := ascii_of_nat 10.
Definition NL : string := String nl EmptyString.

Definition code (c : ascii) : nat := nat_of_ascii c.

(** [str.isspace] on one code point (the table of CPython's
    [Py_UNICODE_ISSPACE], below 256); also the class [\s] of [re]. *)
Definition isspace (c : ascii) : bool :=
  let n := code c in
  ((9 <=? n) && (n <=? 13) || (28 <=? n) && (n <=? 32)
   || (n =? 133) || (n =? 160))%nat.

(** [str.lower] on one code point below 256. *)
Definition lower_char (c : ascii) : ascii :=
  let n := code c in
  if ((65 <=? n) && (n <=? 90)
      || (192 <=? n) && (n <=? 222) && negb (n =? 215))%nat
  then ascii_of_nat (n + 32) else c.

Fixpoint lower (s : string) : string :=
  match s with
  | EmptyString => EmptyString
  | String c s' => String (lower_char c) (lower s')
  end.

Fixpoint lstrip (s : string) : string :=
  match s with
  | EmptyString => EmptyString
  | String c s' => if isspace c then lstrip s' else s
  end.

Fixpoint rstrip (s : string) : string :=
  match s with
  | EmptyString => EmptyString
  | String c s' =>
      match rstrip s' with
      | EmptyString => if isspace c then EmptyString else String c EmptyString
      | r => String c r
      end
  end.

Definition strip (s : string) : string := rstrip (lstrip s).

Fixpoint startswith (p s : string) : bool :=
  match p, s with
  | EmptyString, _ => true
  | String a p', String b s' => if Ascii.eqb a b then startswith p' s' else false
  | String _ _, EmptyString => false
  end.

Fixpoint rev_acc (s acc : string) : string :=
  match s with
  | EmptyString => acc
  | String c s' => rev_acc s' (String c acc)
  end.

Definition rev (s : string) : string := rev_acc s EmptyString.

Definition endswith (p s : string) : bool := startswith (rev p) (rev s).

(** [sub in s] *)
Fixpoint contains (sub s : string) : bool :=
  if startswith sub s then true
  else match s with
       | EmptyString => false
       | String _ s' => contains sub s'
       end.

(** [s.split(sep)] for a one-character separator: never the empty list. *)
Fixpoint split (sep : ascii) (s : string) : list string :=
  match s with
  | EmptyString => [EmptyString]
  | String c s' =>
      if Ascii.eqb c sep then EmptyString :: split sep s'
      else match split sep s' with
           | [] => [String c EmptyString]
           | w :: ws => String c w :: ws
           end
  end.

(** [sep.join(parts)] *)
Fixpoint join (sep : string) (parts : list string) : string :=
  match parts with
  | [] => EmptyString
  | [w] => w
  | w :: ws => w +:+ sep +:+ join sep ws
  end.

(** [s[:n]] and [s[n:]] for [n >= 0] *)
Fixpoint take (n : nat) (s : string) : string :=
  match n, s with
  | S n', String c s' => String c (take n' s')
  | _, _ => EmptyString
  end.

Fixpoint drop (n : nat) (s : string) : string :=
  match n, s with
  | S n', String _ s' => drop n' s'
  | _, _ => s
  end.

Definition slice (i j : nat) (s : string) : string := take (j - i) (drop i s).

(** [len(s.split("\n"))] *)
Definition line_count (s : string) : Z := Z.of_nat (length (split nl s)).

(** The number of newline characters of a text. *)
Fixpoint count_nl (s : string) : nat :=
  match s with
  | EmptyString => O
  | String c s' => if Ascii.eqb c nl then S (count_nl s') else count_nl s'
  end.

(** [str(n)] for an [int] *)
Definition of_int (n : Z) : string := pretty n.

(** [d.get(k, default)] for a dictionary written as a literal *)
Fixpoint dict_get (d : list (string * string)) (k default : string) : string :=
  match d with
  | [] => default
  | (k', v) :: d' => if String.eqb k' k then v else dict_get d' k default
  end.

End PyStr.

(** ** A backtracking matcher for the fragment of [re] the patterns use

    Quantifiers range over one-character classes only, which is all the two
    patterns of [code_generator.py] need; the matcher is then structural. A
    continuation receives the offset reached, the rest of the subject and the
    groups closed so far, and its failure makes the matcher try the next
    alternative, in the order of a backtracking engine: the left branch of
    [|] first, the longest repetition first for a greedy quantifier and the
    shortest first for a lazy one. *)

Module Re.

Inductive regex : Type :=
| Eps                              (* the empty pattern *)
| Chr (p : ascii -> bool)          (* one character of a class *)
| Seq (r1 r2 : regex)              (* r1 r2 *)
| Alt (r1 r2 : regex)              (* r1|r2 *)
| StarG (p : ascii -> bool)        (* [p]*  *)
| StarL (p : ascii -> bool)        (* [p]*? *)
| Grp (i : nat) (r : regex)        (* capturing group number i *)
| Ahead (r : regex)                (* (?=r) *)
| Eos.                             (* $ without re.MULTILINE *)

Definition Opt (r : regex) : regex := Alt r Eps.          (* (?:r)? *)
Definition PlusG (p : ascii -> bool) : regex := Seq (Chr p) (StarG p).

(** A literal character, under [re.IGNORECASE] when [ci] is set. *)
Definition is_char (ci : bool) (x c : ascii) : bool :=
  if ci then Ascii.eqb (PyStr.lower_char c) (PyStr.lower_char x)
  else Ascii.eqb c x.

Fixpoint lit (ci : bool) (w : string) : regex :=
  match w with
  | EmptyString => Eps
  | String x w' => Seq (Chr (is_char ci x)) (lit ci w')
  end.

Fixpoint alts (ci : bool) (w : string) (ws : list string) : regex :=
  match ws with
  | [] => lit ci w
  | w' :: ws' => Alt (lit ci w) (alts ci w' ws')
  end.

Fixpoint seqs (rs : list regex) : regex :=
  match rs with
  | [] => Eps
  | [r] => r
  | r :: rs' => Seq r (seqs rs')
  end.

Definition any (_ : ascii) : bool := true.                 (* . with DOTALL *)
Definition not_nl (c : ascii) : bool := negb (Ascii.eqb c PyStr.nl).

(** group number, start offset, end offset; the latest closed first *)
Definition caps : Type := list (nat * (nat * nat)).

Section Matcher.
Context {A : Type}.

Fixpoint starG (p : ascii -> bool) (pos : nat) (s : string)
    (k : nat -> string -> option A) : option A :=
  match s with
  | String c s' =>
      if p c then
        match starG p (S pos) s' k with
        | Some a => Some a
        | None => k pos s
        end
      else k pos s
  | EmptyString => k pos s
  end.

Fixpoint starL (p : ascii -> bool) (pos : nat) (s : string)
    (k : nat -> string -> option A) : option A :=
  match k pos s with
  | Some a => Some a
  | None =>
      match s with
      | String c s' => if p c then starL p (S pos) s' k else None
      | EmptyString => None
      end
  end.
End Matcher.

Definition at_end (s : string) : bool :=
  match s with
  | EmptyString => true
  | String c EmptyString => Ascii.eqb c PyStr.nl
  | _ => false
  end.

Fixpoint mt (A : Type) (r : regex) (pos : nat) (s : string) (cs : caps)
    (k : nat -> string -> caps -> option A) : option A :=
  match r with
  | Eps => k pos s cs
  | Chr p =>
      match s with
      | String c s' => if p c then k (S pos) s' cs else None
      | EmptyString => None
      end
  | Seq r1 r2 =>
      mt A r1 pos s cs (fun pos' s' cs' => mt A r2 pos' s' cs' k)
  | Alt r1 r2 =>
      match mt A r1 pos s cs k with
      | Some a => Some a
      | None => mt A r2 pos s cs k
      end
  | StarG p => starG p pos s (fun pos' s' => k pos' s' cs)
  | StarL p => starL p pos s (fun pos' s' => k pos' s' cs)
  | Grp i r1 =>
      mt A r1 pos s cs (fun pos' s' cs' => k pos' s' ((i, (pos, pos')) :: cs'))
  | Ahead r1 =>
      match mt unit r1 pos s cs (fun _ _ _ => Some tt) with
      | Some _ => k pos s cs
      | None => None
      end
  | Eos => if at_end s then k pos s cs else None
  end.

(** A lower bound on the number of characters a pattern consumes. *)
Fixpoint min_len (r : regex) : nat :=
  match r with
  | Chr _ => 1
  | Seq r1 r2 => min_len r1 + min_len r2
  | Alt r1 r2 => Nat.min (min_len r1) (min_len r2)
  | Grp _ r1 => min_len r1
  | Eps | StarG _ | StarL _ | Ahead _ | Eos => 0
  end.

(** A match found at the head of [m_subject]: its length and its groups. *)
Record re_match : Type := {
  m_subject : string;
  m_len : nat;
  m_caps : caps
}.

Definition match_here (r : regex) (s : string) : option re_match :=
  mt re_match r 0%nat s []
     (fun pos _ cs => Some {| m_subject := s; m_len := pos; m_caps := cs |}).

Fixpoint span_of (i : nat) (cs : caps) : option (nat * nat) :=
  match cs with
  | [] => None
  | (j, sp) :: cs' => if Nat.eqb i j then Some sp else span_of i cs'
  end.

(** [m.group(i)]; [None] when the group took no part in the match. *)
Definition group (i : nat) (m : re_match) : option string :=
  match span_of i (m_caps m) with
  | Some (a, b) => Some (PyStr.slice a b (m_subject m))
  | None => None
  end.

(** [re.finditer]: leftmost matches that do not overlap. [skip] counts the
    characters of the previous match that are still to be passed. Both
    patterns below match at least one character. *)
Fixpoint finditer (r : regex) (skip : nat) (s : string) : list re_match :=
  match skip with
  | S n =>
      match s with
      | String _ s' => finditer r n s'
      | EmptyString => []
      end
  | O =>
      match match_here r s with
      | Some m =>
          m :: match s with
               | String _ s' => finditer r (m_len m - 1) s'
               | EmptyString => []
               end
      | None =>
          match s with
          | String _ s' => finditer r 0 s'
          | EmptyString => []
          end
      end
  end.

End Re.

(** ** The records of [schemas.py] *)

Inductive WorkflowState : Type :=
| FETCHING_TICKET
| ANALYZING_REQUIREMENTS
| GENERATING_CODE
| AWAITING_APPROVAL
| INCORPORATING_FEEDBACK
| COMPLETED
| FAILED.

Inductive ApprovalStatus : Type :=
| PENDING
| APPROVED
| REJECTED.

#[global] Instance WorkflowState_eq_dec : EqDecision WorkflowState.
Proof. solve_decision. Defined.

#[global] Instance ApprovalStatus_eq_dec : EqDecision ApprovalStatus.
Proof. solve_decision. Defined.

Record GenerationOptions : Type := {
  generate_tests : bool;
  code_style : string;
  framework : string;
  test_framework : string;
  include_documentation : bool;
  max_file_size : Z;
  architecture_pattern : option string;
  database_type : option string;
  api_style : option string
}.

Record GeneratedFile : Type := {
  path : string;
  content : string;
  file_type : string;
  language : string;
  description : string;
  size_lines : Z
}.

Record LLMResponse : Type := {
  llm_content : string;
  tokens_used : Z;
  model_used : string
}.

(** ** [pathlib]: the suffix of a POSIX path *)

Module PyPath.

Fixpoint rfind (c : ascii) (s : string) : option nat :=
  match s with
  | EmptyString => None
  | String x s' =>
      match rfind c s' with
      | Some i => Some (S i)
      | None => if Ascii.eqb x c then Some O else None
      end
  end.

Definition is_part (w : string) : bool :=
  negb (String.eqb w EmptyString || String.eqb w ".").

(** [PurePosixPath(p).name]: the last component, empty and [.] components
    dropped. *)
Definition name (p : string) : string :=
  List.last (List.filter is_part (PyStr.split "/" p)) EmptyString.

(** [PurePosixPath(p).suffix] *)
Definition suffix (p : string) : string :=
  let n := name p in
  match rfind "." n with
  | Some i =>
      if ((0 <? i) && (i <? String.length n - 1))%nat then PyStr.drop i n
      else EmptyString
  | None => EmptyString
  end.

End PyPath.

(** ** [CodeGeneratorService]: parsing generated text into files *)

Module CodeGenerator.
Import PyStr Re.

Definition fence : string := "```".

Definition spaces : regex := StarG isspace.

(** [(?:typescript|javascript|python|java|csharp)] *)
Definition fence_language (ci : bool) : regex :=
  alts ci "typescript" ["javascript"; "python"; "java"; "csharp"].

(** Three backquotes, an optional language, optional white space. *)
Definition fence_open (ci : bool) : regex :=
  seqs [lit ci fence; Opt (fence_language ci); spaces].

(** The three markers [//], [#] and [<!--], each followed by optional
    white space, [filepath:] and optional white space. *)
Definition filepath_marker (ci : bool) : regex :=
  let tail := seqs [spaces; lit ci "filepath:"; spaces] in
  Alt (Seq (lit ci "//") tail)
      (Alt (Seq (lit ci "#") tail) (Seq (lit ci "<!--") tail)).

(** [(ts|js|py|java|cs|tsx|jsx|vue|html|css|scss|json|yaml|yml|md)] *)
Definition extension (ci : bool) : regex :=
  alts ci "ts" ["js"; "py"; "java"; "cs"; "tsx"; "jsx"; "vue"; "html";
                "css"; "scss"; "json"; "yaml"; "yml"; "md"].

(** [file_pattern] of [_parse_generated_content], compiled with
    [re.DOTALL | re.IGNORECASE]. *)
Definition file_pattern : regex :=
  let ci := true in
  seqs [Opt (fence_open ci);
        Opt (filepath_marker ci);
        Grp 1 (seqs [PlusG not_nl; lit ci "."; Grp 2 (extension ci)]);
        spaces;
        lit ci NL;
        Grp 3 (StarL any);
        Ahead (Alt (Seq (Opt (fence_open ci)) (filepath_marker ci)) Eos)].

Definition _get_language_from_extension (extension : string) : string :=
  dict_get [(".ts", "typescript"); (".tsx", "typescript");
            (".js", "javascript"); (".jsx", "javascript");
            (".py", "python"); (".java", "java"); (".cs", "csharp");
            (".css", "css"); (".scss", "scss"); (".html", "html");
            (".json", "json"); (".yaml", "yaml"); (".yml", "yaml");
            (".md", "markdown")] extension "text".

Definition _get_file_type (file_path content : string) : string :=
  let path_lower := lower file_path in
  if contains "test" path_lower || contains "spec" path_lower then "test"
  else if endswith ".md" path_lower then "documentation"
  else if endswith ".json" path_lower || endswith ".yaml" path_lower
          || endswith ".yml" path_lower then "config"
  else "source".

Fixpoint first_definition (lines : list string) : option string :=
  match lines with
  | [] => None
  | line :: rest =>
      if contains "class " line
      then Some "Source file containing class definitions"
      else if contains "function " line || contains "def " line
      then Some "Source file containing function definitions"
      else first_definition rest
  end.

Definition _generate_file_description (file_path content file_type : string)
    : string :=
  if String.eqb file_type "test" then "Test file for " +:+ file_path
  else if String.eqb file_type "documentation"
  then "Documentation file: " +:+ file_path
  else if String.eqb file_type "config"
  then "Configuration file: " +:+ file_path
  else
    match first_definition (firstn 10 (split nl content)) with
    | Some d => d
    | None => "Source code file: " +:+ file_path
    end.

Definition _get_default_extension (language : string) : string :=
  dict_get [("typescript", "ts"); ("javascript", "js"); ("python", "py");
            ("java", "java"); ("csharp", "cs")] language "txt".

(** The block "Remove code block markers if present". [lines[0]] is safe:
    [split] never returns the empty list. [lines[-1]] is evaluated after
    the first line may have been removed. *)
Definition remove_code_block_markers (file_content : string) : outcome string :=
  if startswith fence file_content then
    let lines := split nl file_content in
    let lines :=
      match lines with
      | l0 :: rest => if startswith fence l0 then rest else lines
      | [] => lines
      end in
    match List.last (List.map Some lines) None with
    | None => Raises "IndexError" "list index out of range"
    | Some l =>
        let lines :=
          if String.eqb (strip l) fence then removelast lines else lines in
        Returns (join NL lines)
    end
  else Returns file_content.

(** [m.group(i).strip()] *)
Definition group_strip (i : nat) (m : re_match) : outcome string :=
  match group i m with
  | Some g => Returns (strip g)
  | None => Raises "AttributeError" "'NoneType' object has no attribute 'strip'"
  end.

(** The body of the loop over the matches. *)
Definition file_of_match (m : re_match) : outcome GeneratedFile :=
  file_path ← group_strip 1 m;
  file_content ← group_strip 3 m;
  file_content ← remove_code_block_markers file_content;
  let file_extension := lower (PyPath.suffix file_path) in
  let language := _get_language_from_extension file_extension in
  let file_type := _get_file_type file_path file_content in
  let description :=
    _generate_file_description file_path file_content file_type in
  Returns {| path := file_path;
             content := file_content;
             file_type := file_type;
             language := language;
             description := description;
             size_lines := line_count file_content |}.

(** The file built when no file block was found. *)
Definition whole_content_file (content : string) (options : GenerationOptions)
    : GeneratedFile :=
  {| path := "generated_code." +:+ _get_default_extension (code_style options);
     content := content;
     file_type := "source";
     language := code_style options;
     description := "Generated " +:+ code_style options +:+ " code for "
                      +:+ framework options;
     size_lines := line_count content |}.

Definition _parse_generated_content (content : string)
    (options : GenerationOptions) : outcome (list GeneratedFile) :=
  let matches := finditer file_pattern 0 content in
  files ← mapM file_of_match matches;
  match files with
  | [] => Returns [whole_content_file content options]
  | _ => Returns files
  end.

(** *** The parser of [generate_code_from_requirements]

    [_parse_generated_code]; [_parse_generated_code_new] and its helpers
    are the same text under another name. *)

(** Three backquotes, optionally [filename:], white space, group 1 (the
    rest of the line) and a newline; then group 2, lazily, up to the next
    three backquotes. Compiled with [re.DOTALL]. *)
Definition block_pattern : regex :=
  seqs [lit false fence;
        Opt (seqs [lit false "filename:"; spaces; Grp 1 (PlusG not_nl);
                   lit false NL]);
        Grp 2 (StarL any);
        lit false fence].

(** [re.findall] with two groups: a group that took no part gives the empty
    string. *)
Definition findall2 (r : regex) (s : string) : list (string * string) :=
  List.map (fun m => (default EmptyString (group 1 m),
                      default EmptyString (group 2 m)))
           (finditer r 0 s).

Definition _get_file_extension (code_style : string) : string :=
  dict_get [("javascript", ".js"); ("typescript", ".ts"); ("python", ".py");
            ("java", ".java"); ("csharp", ".cs"); ("cpp", ".cpp");
            ("go", ".go"); ("rust", ".rs"); ("php", ".php"); ("ruby", ".rb")]
           (lower code_style) ".txt".

Definition _determine_file_type (filename content : string) : string :=
  let filename_lower := lower filename in
  if contains "test" filename_lower || contains "spec" filename_lower
     || contains "__tests__" filename_lower then "test"
  else if contains "config" filename_lower
          || contains "settings" filename_lower
          || contains "env" filename_lower then "config"
  else if endswith ".md" filename_lower || endswith ".txt" filename_lower
          || endswith ".rst" filename_lower then "documentation"
  else if contains "package.json" filename_lower
          || contains "requirements.txt" filename_lower then "dependency"
  else "source".

Definition _determine_language (filename default_style : string) : string :=
  let ext := lower (PyPath.suffix filename) in
  dict_get [(".js", "javascript"); (".ts", "typescript"); (".py", "python");
            (".java", "java"); (".cs", "csharp"); (".cpp", "cpp");
            (".c", "c"); (".go", "go"); (".rs", "rust"); (".php", "php");
            (".rb", "ruby"); (".json", "json"); (".yaml", "yaml");
            (".yml", "yaml"); (".md", "markdown")] ext default_style.

(** The loop [for i, (filename, content) in enumerate(matches)]. *)
Fixpoint files_of_blocks (i : nat) (matches : list (string * string))
    (options : GenerationOptions) : list GeneratedFile :=
  match matches with
  | [] => []
  | (filename, content) :: rest =>
      let filename :=
        if String.eqb filename EmptyString then
          "generated_file_" +:+ of_int (Z.of_nat i + 1)
            +:+ _get_file_extension (code_style options)
        else filename in
      let filename := strip filename in
      let content := strip content in
      let this :=
        if String.eqb content EmptyString then []
        else
          let file_type := _determine_file_type filename content in
          let language := _determine_language filename (code_style options) in
          [{| path := filename;
              content := content;
              file_type := file_type;
              language := language;
              description := "Generated " +:+ file_type +:+ " file";
              size_lines := line_count content |}] in
      this ++ files_of_blocks (S i) rest options
  end.

(** No statement of the [try] block can raise, so the [except] branch,
    which returns the empty list, is never taken. *)
Definition _parse_generated_code (response : string)
    (options : GenerationOptions) : list GeneratedFile :=
  let matches := findall2 block_pattern response in
  let files := files_of_blocks 0 matches options in
  match files with
  | [] =>
      if String.eqb (strip response) EmptyString then []
      else
        [{| path := "main" +:+ _get_file_extension (code_style options);
            content := strip response;
            file_type := "source";
            language := code_style options;
            description := "Main generated file";
            size_lines := line_count response |}]
  | _ => files
  end.

End CodeGenerator.

(** ** The records of the JIRA agent ([schemas.py], second part) *)

Inductive IssueType : Type := TASK | STORY | BUG | EPIC | SUBTASK.
Inductive Priority : Type := LOWEST | LOW | MEDIUM | HIGH | HIGHEST.
Inductive Status : Type := TODO | IN_PROGRESS | IN_REVIEW | DONE | CLOSED.

Record JiraCredentials : Type := {
  server_url : string;
  username : string;
  api_token : string;
  project_key : option string
}.

Record JiraTicketData : Type := {
  tk_key : string;
  tk_summary : string;
  tk_description : option string;
  tk_issue_type : IssueType;
  tk_priority : Priority;
  tk_status : Status;
  tk_assignee : option string;
  tk_reporter : option string;
  tk_labels : list string;
  tk_components : list string
}.

(** [schemas.py] defines the class [JiraTicketAnalysis] twice. The second
    definition, with the four fields [ticket_key], [requirements],
    [technical_specs] and [acceptance_criteria], is the one the name is bound
    to once the module is loaded: [jira_service.py] builds its instances,
    and pydantic ignores the keywords that are not fields. The first
    definition, which the second shadows, declares the four further fields
    of [FirstAnalysisFields]; the fields [ticket_analysis] of
    [CodeGenerationSession] and of [JiraAgentResponse], declared before the
    second definition, are declared with it.

    An analysis object is an instance of one of the two classes:
    [first_class_fields] holds the further fields of an instance of the first
    class, and is [None] for an instance of the class in force. *)
Record FirstAnalysisFields : Type := {
  complexity_score : Z;
  estimated_files : Z;
  suggested_technologies : list string;
  dependencies : list string
}.

Record JiraTicketAnalysis : Type := {
  an_ticket_key : string;
  requirements : list string;
  technical_specs : list string;
  acceptance_criteria : list string;
  first_class_fields : option FirstAnalysisFields
}.

(** [schemas.py] defines [UserFeedback] twice as well. The field [feedback]
    of [ApprovalRequest] is declared with the first definition, which is
    the one below; the second serves the workflow as an annotation only. *)
Record UserFeedback : Type := {
  feedback_text : string;
  specific_issues : list string;
  improvement_requests : list string;
  approval_status : ApprovalStatus;
  priority_changes : list string
}.

Record UserContext : Type := {
  user_id : string;
  uc_timestamp : Z;
  uc_session_id : option string
}.

(** [GenerationResult] without [test_results] and [metadata], which the
    workflow never reads. *)
Record GenerationResult : Type := {
  success : bool;
  generated_files : list GeneratedFile;
  gr_processing_time_ms : Z;
  llm_tokens_used : Z;
  error_message : option string;
  gr_warnings : list string
}.

Record CodeGenerationSession : Type := {
  session_id : string;
  ticket_key : string;
  current_state : WorkflowState;
  iteration_count : Z;
  max_iterations : Z;
  original_ticket : option JiraTicketData;
  ticket_analysis : option JiraTicketAnalysis;
  generated_code : list GeneratedFile;
  user_feedback_history : list UserFeedback;
  created_at : Z;
  updated_at : Z;
  total_tokens_used : Z;
  error_messages : list string
}.

(** [session_config] is [Optional[Dict[str, Any]]]; the one key read is
    [max_iterations], whose value is taken to be an [int]. *)
Record JiraAgentRequest : Type := {
  req_ticket_key : string;
  jira_credentials : JiraCredentials;
  generation_options : GenerationOptions;
  user_context : UserContext;
  session_config : option (gmap string Z)
}.

Record ApprovalRequest : Type := {
  areq_session_id : string;
  feedback : UserFeedback
}.

Record JiraAgentResponse : Type := {
  resp_session_id : string;
  resp_current_state : WorkflowState;
  resp_success : bool;
  resp_message : string;
  resp_ticket_analysis : option JiraTicketAnalysis;
  resp_generated_code : list GeneratedFile;
  resp_approval_required : bool;
  resp_iteration_count : Z;
  resp_estimated_completion : option string;
  resp_processing_time_ms : Z;
  resp_tokens_used : Z;
  resp_warnings : list string
}.

(** Field assignment [session.f = v], one function for each field that is
    assigned somewhere. *)

Definition set_current_state (v : WorkflowState) (s : CodeGenerationSession)
    : CodeGenerationSession :=
  {| session_id := session_id s;
     ticket_key := ticket_key s;
     current_state := v;
     iteration_count := iteration_count s;
     max_iterations := max_iterations s;
     original_ticket := original_ticket s;
     ticket_analysis := ticket_analysis s;
     generated_code := generated_code s;
     user_feedback_history := user_feedback_history s;
     created_at := created_at s;
     updated_at := updated_at s;
     total_tokens_used := total_tokens_used s;
     error_messages := error_messages s |}.

Definition set_iteration_count (v : Z) (s : CodeGenerationSession)
    : CodeGenerationSession :=
  {| session_id := session_id s;
     ticket_key := ticket_key s;
     current_state := current_state s;
     iteration_count := v;
     max_iterations := max_iterations s;
     original_ticket := original_ticket s;
     ticket_analysis := ticket_analysis s;
     generated_code := generated_code s;
     user_feedback_history := user_feedback_history s;
     created_at := created_at s;
     updated_at := updated_at s;
     total_tokens_used := total_tokens_used s;
     error_messages := error_messages s |}.

Definition set_original_ticket (v : option JiraTicketData) (s : CodeGenerationSession)
    : CodeGenerationSession :=
  {| session_id := session_id s;
     ticket_key := ticket_key s;
     current_state := current_state s;
     iteration_count := iteration_count s;
     max_iterations := max_iterations s;
     original_ticket := v;
     ticket_analysis := ticket_analysis s;
     generated_code := generated_code s;
     user_feedback_history := user_feedback_history s;
     created_at := created_at s;
     updated_at := updated_at s;
     total_tokens_used := total_tokens_used s;
     error_messages := error_messages s |}.

Definition set_ticket_analysis (v : option JiraTicketAnalysis) (s : CodeGenerationSession)
    : CodeGenerationSession :=
  {| session_id := session_id s;
     ticket_key := ticket_key s;
     current_state := current_state s;
     iteration_count := iteration_count s;
     max_iterations := max_iterations s;
     original_ticket := original_ticket s;
     ticket_analysis := v;
     generated_code := generated_code s;
     user_feedback_history := user_feedback_history s;
     created_at := created_at s;
     updated_at := updated_at s;
     total_tokens_used := total_tokens_used s;
     error_messages := error_messages s |}.

Definition set_generated_code (v : list GeneratedFile) (s : CodeGenerationSession)
    : CodeGenerationSession :=
  {| session_id := session_id s;
     ticket_key := ticket_key s;
     current_state := current_state s;
     iteration_count := iteration_count s;
     max_iterations := max_iterations s;
     original_ticket := original_ticket s;
     ticket_analysis := ticket_analysis s;
     generated_code := v;
     user_feedback_history := user_feedback_history s;
     created_at := created_at s;
     updated_at := updated_at s;
     total_tokens_used := total_tokens_used s;
     error_messages := error_messages s |}.

Definition set_user_feedback_history (v : list UserFeedback) (s : CodeGenerationSession)
    : CodeGenerationSession :=
  {| session_id := session_id s;
     ticket_key := ticket_key s;
     current_state := current_state s;
     iteration_count := iteration_count s;
     max_iterations := max_iterations s;
     original_ticket := original_ticket s;
     ticket_analysis := ticket_analysis s;
     generated_code := generated_code s;
     user_feedback_history := v;
     created_at := created_at s;
     updated_at := updated_at s;
     total_tokens_used := total_tokens_used s;
     error_messages := error_messages s |}.

Definition set_updated_at (v : Z) (s : CodeGenerationSession)
    : CodeGenerationSession :=
  {| session_id := session_id s;
     ticket_key := ticket_key s;
     current_state := current_state s;
     iteration_count := iteration_count s;
     max_iterations := max_iterations s;
     original_ticket := original_ticket s;
     ticket_analysis := ticket_analysis s;
     generated_code := generated_code s;
     user_feedback_history := user_feedback_history s;
     created_at := created_at s;
     updated_at := v;
     total_tokens_used := total_tokens_used s;
     error_messages := error_messages s |}.

Definition set_total_tokens_used (v : Z) (s : CodeGenerationSession)
    : CodeGenerationSession :=
  {| session_id := session_id s;
     ticket_key := ticket_key s;
     current_state := current_state s;
     iteration_count := iteration_count s;
     max_iterations := max_iterations s;
     original_ticket := original_ticket s;
     ticket_analysis := ticket_analysis s;
     generated_code := generated_code s;
     user_feedback_history := user_feedback_history s;
     created_at := created_at s;
     updated_at := updated_at s;
     total_tokens_used := v;
     error_messages := error_messages s |}.

Definition set_error_messages (v : list string) (s : CodeGenerationSession)
    : CodeGenerationSession :=
  {| session_id := session_id s;
     ticket_key := ticket_key s;
     current_state := current_state s;
     iteration_count := iteration_count s;
     max_iterations := max_iterations s;
     original_ticket := original_ticket s;
     ticket_analysis := ticket_analysis s;
     generated_code := generated_code s;
     user_feedback_history := user_feedback_history s;
     created_at := created_at s;
     updated_at := updated_at s;
     total_tokens_used := total_tokens_used s;
     error_messages := v |}.

(** ** Floating point

    The doubles that the code computes with, as rationals. The exponent is
    not bounded: the values that arise from differences of [datetime] values
    (below [10 ** 18] microseconds) are far from both ends of the range of a
    double. *)

Module PyFloat.

(** [2 ** e] *)
Definition two_to (e : Z) : Q := Qpower (2 # 1) e.

(** The integer [k] with [2 ** k <= x < 2 ** (k + 1)], for a positive [x]. *)
Definition ilog2 (x : Q) : Z :=
  let k := Z.log2 (Qnum x) - Z.log2 (Zpos (Qden x)) in
  if Qle_bool (two_to k) x then k else k - 1.

(** Rounding to an integer, a tie going to the even one. *)
Definition rne (q : Q) : Z :=
  let f := Qfloor q in
  match Qcompare (q - inject_Z f) (1 # 2) with
  | Lt => f
  | Gt => f + 1
  | Eq => if Z.even f then f else f + 1
  end.

(** The double nearest to a positive rational: 53 bits are kept. *)
Definition round_pos (x : Q) : Q :=
  let e := ilog2 x - 52 in
  (inject_Z (rne (x / two_to e)) * two_to e)%Q.

(** The double nearest to a rational. *)
Definition round (x : Q) : Q :=
  match Qnum x with
  | Z0 => 0%Q
  | Zpos _ => round_pos x
  | Zneg _ => (- round_pos (- x))%Q
  end.

(** [a / b] for two [int], [b] not zero: the quotient, correctly rounded. *)
Definition truediv (a b : Z) : Q := round (inject_Z a / inject_Z b).

(** [x / n] and [x * n] for a [float] and an [int] that is a double. *)
Definition div_int (x : Q) (n : Z) : Q := round (x / inject_Z n).
Definition mul_int (x : Q) (n : Z) : Q := round (x * inject_Z n).

(** [int(x)]: the fraction is cut off. *)
Definition int_of (x : Q) : Z := Z.quot (Qnum x) (Zpos (Qden x)).

(** [timedelta.total_seconds()] for a difference of [us] microseconds. *)
Definition total_seconds (us : Z) : Q := truediv us 1000000.

End PyFloat.

(** ** [JiraAgentWorkflowService] *)

Module Workflow.
Import PyStr.

(** [self.sessions] *)
Abbreviation Store := (gmap string CodeGenerationSession).

(** The services the workflow calls: [self.jira_service],
    [self.code_generator] and [self.llm_service] ([None] until
    [initialize] has set it). Each call returns or raises. *)
Record Collaborators : Type := {
  jira_initialize : JiraCredentials -> outcome bool;
  fetch_ticket : string -> outcome (option JiraTicketData);
  analyze_ticket : JiraTicketData -> outcome (option JiraTicketAnalysis);
  generate_code_from_requirements :
    list string -> list string -> GenerationOptions -> outcome GenerationResult;
  llm_service : option (string -> string -> Z -> outcome LLMResponse)
}.

(** [int((now - created_at).total_seconds() * 1000)] *)
Definition elapsed_ms (now created : Z) : Z :=
  PyFloat.int_of
    (PyFloat.mul_int (PyFloat.total_seconds (now - created)) 1000).

(** What [_create_error_response] does to the session found under
    [session_id]. *)
Definition mark_failed (error_message : string) (s : CodeGenerationSession)
    : CodeGenerationSession :=
  set_error_messages (error_messages s ++ [error_message])
    (set_current_state FAILED s).

Definition _create_error_response (session_id error_message : string)
    (sessions : Store) : Store * JiraAgentResponse :=
  (alter (mark_failed error_message) session_id sessions,
   {| resp_session_id := session_id;
      resp_current_state := FAILED;
      resp_success := false;
      resp_message := error_message;
      resp_ticket_analysis := None;
      resp_generated_code := [];
      resp_approval_required := false;
      resp_iteration_count := 0;
      resp_estimated_completion := None;
      resp_processing_time_ms := 0;
      resp_tokens_used := 0;
      resp_warnings := [error_message] |}).

(** [_update_session]: stamps [updated_at]; the assignment
    [self.sessions[session.session_id] = session] binds the key to the
    object it is already bound to. *)
Definition _update_session (now : Z) (session : CodeGenerationSession)
    : CodeGenerationSession :=
  set_updated_at now session.

(** ["\n".join("- " + x for x in items)] *)
Definition bullet_list (items : list string) : string :=
  join NL (List.map (fun x => "- " +:+ x) items).

(** [str(b)] for a [bool] *)
Definition of_bool (b : bool) : string := if b then "True" else "False".

(** [_build_generation_prompt]. The attributes [suggested_technologies] and
    [dependencies] are read: an instance of the class in force has neither,
    and the first one read raises. *)
Definition _build_generation_prompt (analysis : JiraTicketAnalysis)
    (options : GenerationOptions) : outcome string :=
  match first_class_fields analysis with
  | None =>
      Raises "AttributeError"
        "'JiraTicketAnalysis' object has no attribute 'suggested_technologies'"
  | Some further =>
      let indent := "        " in
      Returns
        (join NL
           [EmptyString;
            indent +:+ "Generate code based on the following ticket analysis:";
            EmptyString;
            indent +:+ "**Requirements:**";
            indent +:+ bullet_list (requirements analysis);
            EmptyString;
            indent +:+ "**Technical Specifications:**";
            indent +:+ bullet_list (technical_specs analysis);
            EmptyString;
            indent +:+ "**Acceptance Criteria:**";
            indent +:+ bullet_list (acceptance_criteria analysis);
            EmptyString;
            indent +:+ "**Suggested Technologies:** "
              +:+ join ", " (suggested_technologies further);
            indent +:+ "**Dependencies:** " +:+ join ", " (dependencies further);
            EmptyString;
            indent +:+ "**Generation Options:**";
            indent +:+ "- Language/Style: " +:+ code_style options;
            indent +:+ "- Framework: " +:+ framework options;
            indent +:+ "- Generate Tests: " +:+ of_bool (generate_tests options);
            indent +:+ "- Include Documentation: "
              +:+ of_bool (include_documentation options);
            EmptyString;
            indent +:+ "Please generate complete, functional code that meets all requirements.";
            indent])
  end.

(** [_generate_code_from_analysis]: the prompt is built first, and is not
    passed on. Any exception gives the empty list. *)
Definition _generate_code_from_analysis (env : Collaborators)
    (analysis : JiraTicketAnalysis) (options : GenerationOptions)
    : list GeneratedFile :=
  match _build_generation_prompt analysis options with
  | Raises _ _ => []
  | Returns generation_prompt =>
      match generate_code_from_requirements env (requirements analysis)
              (technical_specs analysis) options with
      | Returns generation_result =>
          if success generation_result then generated_files generation_result
          else []
      | Raises _ _ => []
      end
  end.

(** The text of the [ValidationError] of pydantic 1 for an analysis object
    that lacks the required fields of the first class. *)
Definition missing_fields_message : string :=
  join NL
    ["3 validation errors for JiraAgentResponse";
     "ticket_analysis -> complexity_score";
     "  field required (type=value_error.missing)";
     "ticket_analysis -> estimated_files";
     "  field required (type=value_error.missing)";
     "ticket_analysis -> suggested_technologies";
     "  field required (type=value_error.missing)"].

(** [JiraAgentResponse(...)]: the arguments are validated. The one that can
    fail is [ticket_analysis], whose field is declared with the first class:
    an instance of another class is rebuilt from its fields, and an instance
    of the class in force lacks three required ones. *)
Definition new_JiraAgentResponse (response : JiraAgentResponse)
    : outcome JiraAgentResponse :=
  match resp_ticket_analysis response with
  | None => Returns response
  | Some analysis =>
      match first_class_fields analysis with
      | Some _ => Returns response
      | None => Raises "ValidationError" missing_fields_message
      end
  end.

(** [start_jira_agent_process]. [session_id] is the [uuid4] drawn. The
    clock is read for [created_at], then for [updated_at], then by each
    [_update_session], then for the processing time. The session object is
    in the dictionary from its creation on: [bound session] is the
    dictionary with the object as it stands. An exception raised inside the
    [try] block ends in the [except] branch. *)
Definition start_jira_agent_process (env : Collaborators) (clock : nat -> Z)
    (session_id : string) (request : JiraAgentRequest) (sessions : Store)
    : Store * JiraAgentResponse :=
  let process_failed (msg : string) (sessions : Store) :=
    _create_error_response session_id ("Process failed: " +:+ msg) sessions in
  match session_config request with
  | None =>
      process_failed "'NoneType' object has no attribute 'get'" sessions
  | Some config =>
    let session :=
      {| session_id := session_id;
         ticket_key := req_ticket_key request;
         current_state := FETCHING_TICKET;
         iteration_count := 1;
         max_iterations := default 5 (config !! "max_iterations");
         original_ticket := None;
         ticket_analysis := None;
         generated_code := [];
         user_feedback_history := [];
         created_at := clock 0%nat;
         updated_at := clock 1%nat;
         total_tokens_used := 0;
         error_messages := [] |} in
    let bound (session : CodeGenerationSession) : Store :=
      <[session_id := session]> sessions in
    (* Step 1: initialize the JIRA client and fetch the ticket *)
    match jira_initialize env (jira_credentials request) with
    | Raises _ msg => process_failed msg (bound session)
    | Returns false =>
        _create_error_response session_id "Failed to initialize JIRA client"
          (bound session)
    | Returns true =>
      let session := set_current_state FETCHING_TICKET session in
      match fetch_ticket env (req_ticket_key request) with
      | Raises _ msg => process_failed msg (bound session)
      | Returns None =>
          _create_error_response session_id
            ("Failed to fetch ticket: " +:+ req_ticket_key request)
            (bound session)
      | Returns (Some ticket_data) =>
        let session := set_original_ticket (Some ticket_data) session in
        (* Step 2: analyze the requirements *)
        let session := set_current_state ANALYZING_REQUIREMENTS session in
        let session := _update_session (clock 2%nat) session in
        match analyze_ticket env ticket_data with
        | Raises _ msg => process_failed msg (bound session)
        | Returns None =>
            _create_error_response session_id
              "Failed to analyze ticket requirements" (bound session)
        | Returns (Some ticket_analysis) =>
          let session := set_ticket_analysis (Some ticket_analysis) session in
          (* Step 3: generate the initial code *)
          let session := set_current_state GENERATING_CODE session in
          let session := _update_session (clock 3%nat) session in
          let generated_code :=
            _generate_code_from_analysis env ticket_analysis
              (generation_options request) in
          match generated_code with
          | [] =>
              _create_error_response session_id "Failed to generate code"
                (bound session)
          | _ =>
            let session := set_generated_code generated_code session in
            let session := set_current_state AWAITING_APPROVAL session in
            let session := _update_session (clock 4%nat) session in
            match
              new_JiraAgentResponse
                {| resp_session_id := session_id;
                   resp_current_state := AWAITING_APPROVAL;
                   resp_success := true;
                   resp_message := "Code generated successfully. Please review and approve or provide feedback.";
                   resp_ticket_analysis := Some ticket_analysis;
                   resp_generated_code := generated_code;
                   resp_approval_required := true;
                   resp_iteration_count := iteration_count session;
                   resp_estimated_completion := None;
                   resp_processing_time_ms :=
                     elapsed_ms (clock 5%nat) (created_at session);
                   resp_tokens_used := total_tokens_used session;
                   resp_warnings := [] |}
            with
            | Returns response => (bound session, response)
            | Raises _ msg => process_failed msg (bound session)
            end
          end
        end
      end
    end
  end.

Definition _build_improvement_prompt (session : CodeGenerationSession)
    (feedback : UserFeedback) : string :=
  let current_files :=
    join (NL +:+ NL)
      (List.map (fun file =>
           "**File: " +:+ path file +:+ "**" +:+ NL
           +:+ "```" +:+ language file +:+ NL
           +:+ content file +:+ NL +:+ "```")
         (generated_code session)) in
  let indent := "        " in
  join NL
    [EmptyString; indent +:+ "Improve the following code based on user feedback:";
     EmptyString; indent +:+ "**Current Code:**";
     indent +:+ current_files;
     EmptyString; indent +:+ "**User Feedback:**";
     indent +:+ feedback_text feedback;
     EmptyString; indent +:+ "**Specific Issues to Address:**";
     indent +:+ bullet_list (specific_issues feedback);
     EmptyString; indent +:+ "**Improvement Requests:**";
     indent +:+ bullet_list (improvement_requests feedback);
     EmptyString; indent +:+ "**Priority Changes:**";
     indent +:+ bullet_list (priority_changes feedback);
     EmptyString; indent +:+ "Please provide the improved code addressing all feedback points while maintaining the original functionality.";
     indent].

(** One turn of the loop of [_parse_improved_code_response]. *)
Definition improved_file (response : string) (original_file : GeneratedFile)
    : GeneratedFile :=
  {| path := path original_file;
     content := "// Improved based on user feedback" +:+ NL
                  +:+ content original_file +:+ NL +:+ NL
                  +:+ "// Additional improvements:" +:+ NL
                  +:+ "// " +:+ take 200 response +:+ "...";
     file_type := file_type original_file;
     language := language original_file;
     description := "Improved version: " +:+ description original_file;
     size_lines := size_lines original_file + 5 |}.

(** [_parse_improved_code_response]: the loop cannot raise, so the
    [except] branch, which returns [original_files], is never taken. *)
Definition _parse_improved_code_response (response : string)
    (original_files : list GeneratedFile) : list GeneratedFile :=
  List.map (improved_file response) original_files.

Definition improver_system_message : string :=
  "You are an expert code improver. Take user feedback and improve the existing code accordingly.".

(** [_regenerate_code_with_feedback]: returns the session object as the
    call leaves it, and the files. Any exception gives the empty list. *)
Definition _regenerate_code_with_feedback (env : Collaborators)
    (session : CodeGenerationSession) (feedback : UserFeedback)
    : CodeGenerationSession * list GeneratedFile :=
  match llm_service env with
  | None => (session, [])
  | Some generate_response =>
      let improvement_prompt := _build_improvement_prompt session feedback in
      match generate_response improvement_prompt improver_system_message 3000 with
      | Raises _ _ => (session, [])
      | Returns llm_response =>
          let session :=
            set_total_tokens_used
              (total_tokens_used session + tokens_used llm_response) session in
          let improved_files :=
            _parse_improved_code_response (llm_content llm_response)
              (generated_code session) in
          (session, improved_files)
      end
  end.

(** [handle_user_approval]. [session] is the object found under the key;
    [bound session] is the dictionary with the object as it stands. The
    clock is read by each [_update_session] and then for the processing
    time. No statement of the [try] block can raise: the responses are
    built without [ticket_analysis]. *)
Definition handle_user_approval (env : Collaborators) (clock : nat -> Z)
    (approval_request : ApprovalRequest) (sessions : Store)
    : Store * JiraAgentResponse :=
  let session_id := areq_session_id approval_request in
  match sessions !! session_id with
  | None => _create_error_response session_id "Session not found" sessions
  | Some session =>
    let feedback := feedback approval_request in
    let bound (session : CodeGenerationSession) : Store :=
      <[session_id := session]> sessions in
    (* Add feedback to history *)
    let session :=
      set_user_feedback_history (user_feedback_history session ++ [feedback])
        session in
    match approval_status feedback with
    | APPROVED =>
        let session := set_current_state COMPLETED session in
        let session := _update_session (clock 0%nat) session in
        (bound session,
         {| resp_session_id := session_id;
            resp_current_state := COMPLETED;
            resp_success := true;
            resp_message := "Code approved and finalized successfully!";
            resp_ticket_analysis := None;
            resp_generated_code := generated_code session;
            resp_approval_required := false;
            resp_iteration_count := iteration_count session;
            resp_estimated_completion := None;
            resp_processing_time_ms :=
              elapsed_ms (clock 1%nat) (created_at session);
            resp_tokens_used := total_tokens_used session;
            resp_warnings := [] |})
    | REJECTED =>
        if bool_decide (max_iterations session <= iteration_count session) then
          let session := set_current_state FAILED session in
          let session := _update_session (clock 0%nat) session in
          _create_error_response session_id
            ("Maximum iterations (" +:+ of_int (max_iterations session)
               +:+ ") reached without approval")
            (bound session)
        else
          let session := set_current_state INCORPORATING_FEEDBACK session in
          let session :=
            set_iteration_count (iteration_count session + 1) session in
          let session := _update_session (clock 0%nat) session in
          let '(session, improved_code) :=
            _regenerate_code_with_feedback env session feedback in
          match improved_code with
          | [] =>
              _create_error_response session_id
                "Failed to regenerate code with feedback" (bound session)
          | _ =>
            let session := set_generated_code improved_code session in
            let session := set_current_state AWAITING_APPROVAL session in
            let session := _update_session (clock 1%nat) session in
            (bound session,
             {| resp_session_id := session_id;
                resp_current_state := AWAITING_APPROVAL;
                resp_success := true;
                resp_message :=
                  "Code regenerated with your feedback (iteration "
                    +:+ of_int (iteration_count session)
                    +:+ "). Please review again.";
                resp_ticket_analysis := None;
                resp_generated_code := improved_code;
                resp_approval_required := true;
                resp_iteration_count := iteration_count session;
                resp_estimated_completion := None;
                resp_processing_time_ms :=
                  elapsed_ms (clock 2%nat) (created_at session);
                resp_tokens_used := total_tokens_used session;
                resp_warnings := [] |})
          end
    | PENDING =>
        _create_error_response session_id "Invalid approval status"
          (bound session)
    end
  end.

(** [WorkflowState.value] *)
Definition state_value (st : WorkflowState) : string :=
  match st with
  | FETCHING_TICKET => "fetching_ticket"
  | ANALYZING_REQUIREMENTS => "analyzing_requirements"
  | GENERATING_CODE => "generating_code"
  | AWAITING_APPROVAL => "awaiting_approval"
  | INCORPORATING_FEEDBACK => "incorporating_feedback"
  | COMPLETED => "completed"
  | FAILED => "failed"
  end.

(** [get_session_status]: there is no [try]; the exception of the
    validation leaves the method. *)
Definition get_session_status (now : Z) (session_id : string)
    (sessions : Store) : outcome (option JiraAgentResponse) :=
  match sessions !! session_id with
  | None => Returns None
  | Some session =>
      response ←
        new_JiraAgentResponse
          {| resp_session_id := session_id;
             resp_current_state := current_state session;
             resp_success := true;
             resp_message :=
               "Session status: " +:+ state_value (current_state session);
             resp_ticket_analysis := ticket_analysis session;
             resp_generated_code := generated_code session;
             resp_approval_required :=
               bool_decide (current_state session = AWAITING_APPROVAL);
             resp_iteration_count := iteration_count session;
             resp_estimated_completion := None;
             resp_processing_time_ms := elapsed_ms now (created_at session);
             resp_tokens_used := total_tokens_used session;
             resp_warnings := [] |};
      Returns (Some response)
  end.

(** [(current_time - stamp).total_seconds() / 3600], a float *)
Definition age_hours (current_time stamp : Z) : Q :=
  PyFloat.div_int (PyFloat.total_seconds (current_time - stamp)) 3600.

(** The test [age_hours > max_age_hours] of [cleanup_old_sessions]: a float
    and an [int] are compared by their values. *)
Definition older_than (max_age_hours : Z) (current_time stamp : Z) : Prop :=
  (inject_Z max_age_hours < age_hours current_time stamp)%Q.

#[global] Instance older_than_dec h t c : Decision (older_than h t c).
Proof.
  unfold older_than.
  destruct (Qlt_le_dec (inject_Z h) (age_hours t c)) as [Hlt|Hle];
    [left; exact Hlt | right; apply Qle_not_lt; exact Hle].
Defined.

(** [cleanup_old_sessions]: the first loop collects the keys, the second
    deletes them. *)
Definition cleanup_old_sessions (current_time : Z) (max_age_hours : Z)
    (sessions : Store) : Store :=
  filter (fun kv => ¬ older_than max_age_hours current_time (created_at kv.2))
         sessions.

(** The handler [DELETE /sessions/{session_id}] of [endpoints/jira_agent.py]:
    [None] stands for the 404 answer. *)
Definition delete_session (session_id : string) (sessions : Store)
    : option Store :=
  match sessions !! session_id with
  | None => None
  | Some _ => Some (delete session_id sessions)
  end.

End Workflow.

(** ** [JiraAgentService.cleanup_completed_workflows] *)

Module AgentService.

Inductive WorkflowStatus : Type :=
| INITIATED
| ANALYZING
| GENERATING
| PENDING_APPROVAL
| WS_APPROVED
| WS_REJECTED
| WS_COMPLETED
| WS_FAILED.

#[global] Instance WorkflowStatus_eq_dec : EqDecision WorkflowStatus.
Proof. solve_decision. Defined.

(** [CodeGenerationWorkflow], without the payload fields. *)
Record CodeGenerationWorkflow : Type := {
  workflow_id : string;
  wf_ticket_key : string;
  status : WorkflowStatus;
  user_feedback : option string;
  iterations : Z;
  wf_max_iterations : Z;
  wf_created_at : Z;
  wf_updated_at : Z
}.

(** [workflow.status in [COMPLETED, APPROVED, FAILED]] *)
Definition finished (st : WorkflowStatus) : Prop :=
  st = WS_COMPLETED \/ st = WS_APPROVED \/ st = WS_FAILED.

#[global] Instance finished_dec st : Decision (finished st).
Proof. unfold finished. apply _. Defined.

Definition cleanup_completed_workflows (current_time : Z) (max_age_hours : Z)
    (active_workflows : gmap string CodeGenerationWorkflow)
    : gmap string CodeGenerationWorkflow :=
  filter (fun kv =>
            ¬ (Workflow.older_than max_age_hours current_time (wf_updated_at kv.2)
               /\ finished (status kv.2)))
         active_workflows.

End AgentService.

(** ** Notions used to state the properties of the workflow *)

Module WorkflowSpec.
Import PyStr CodeGenerator Workflow.

(** [COMPLETED] and [FAILED] *)
Definition terminal (st : WorkflowState) : Prop :=
  st = COMPLETED \/ st = FAILED.

(** The dictionaries [self.sessions] can hold: empty when the service is
    built, then changed by the operations of the service only, whatever the
    collaborators answer. *)
Inductive reachable : Store -> Prop :=
| reach_empty : reachable ∅
| reach_start env clock session_id request sessions :
    reachable sessions ->
    reachable (start_jira_agent_process env clock session_id request sessions).1
| reach_approval env clock approval_request sessions :
    reachable sessions ->
    reachable (handle_user_approval env clock approval_request sessions).1
| reach_cleanup current_time max_age_hours sessions :
    reachable sessions ->
    reachable (cleanup_old_sessions current_time max_age_hours sessions)
| reach_delete session_id sessions :
    reachable sessions ->
    reachable (delete session_id sessions).

(** What holds of every session the service holds: it is stored under its
    own identifier (so that the assignment of [_update_session] does not
    add a second key), and it awaits approval only with files to approve. *)
Definition session_ok (sid : string) (s : CodeGenerationSession) : Prop :=
  session_id s = sid
  /\ (current_state s = AWAITING_APPROVAL -> generated_code s <> []).

Definition store_ok (sessions : Store) : Prop :=
  forall sid s, sessions !! sid = Some s -> session_ok sid s.

(** The generation step gives the workflow nothing to go on: the prompt
    cannot be built, or the code generator raises, reports failure, or
    returns no file. *)
Definition generation_failed (env : Collaborators)
    (analysis : JiraTicketAnalysis) (options : GenerationOptions) : Prop :=
  match _build_generation_prompt analysis options with
  | Raises _ _ => True
  | Returns _ =>
      match generate_code_from_requirements env (requirements analysis)
              (technical_specs analysis) options with
      | Raises _ _ => True
      | Returns r => success r = false \/ generated_files r = []
      end
  end.

(** [collaborator_fails env request t a]: some collaborator step of
    [start_jira_agent_process] fails; [t] and [a] are the ticket and the
    analysis that the steps before the failing one have produced. *)
Inductive collaborator_fails (env : Collaborators) (request : JiraAgentRequest)
    : option JiraTicketData -> option JiraTicketAnalysis -> Prop :=
| fails_at_initialize :
    jira_initialize env (jira_credentials request) <> Returns true ->
    collaborator_fails env request None None
| fails_at_fetch :
    jira_initialize env (jira_credentials request) = Returns true ->
    (forall t, fetch_ticket env (req_ticket_key request) <> Returns (Some t)) ->
    collaborator_fails env request None None
| fails_at_analysis t :
    jira_initialize env (jira_credentials request) = Returns true ->
    fetch_ticket env (req_ticket_key request) = Returns (Some t) ->
    (forall a, analyze_ticket env t <> Returns (Some a)) ->
    collaborator_fails env request (Some t) None
| fails_at_generation t a :
    jira_initialize env (jira_credentials request) = Returns true ->
    fetch_ticket env (req_ticket_key request) = Returns (Some t) ->
    analyze_ticket env t = Returns (Some a) ->
    generation_failed env a (generation_options request) ->
    collaborator_fails env request (Some t) (Some a).

(** C1 as stated: an approval submitted for a session that is not awaiting
    approval fails and changes nothing. *)
Definition approval_needs_awaiting_state : Prop :=
  forall env clock approval_request (sessions : Store) session,
    sessions !! areq_session_id approval_request = Some session ->
    current_state session <> AWAITING_APPROVAL ->
    let result := handle_user_approval env clock approval_request sessions in
    resp_success result.2 = false
    /\ exists session',
         result.1 !! areq_session_id approval_request = Some session'
         /\ current_state session' = current_state session
         /\ iteration_count session' = iteration_count session
         /\ generated_code session' = generated_code session
         /\ user_feedback_history session' = user_feedback_history session.

(** C4 as stated: the files of a regeneration are the parse of the text
    the generator returned, and its tokens are added to the session. *)
Definition regeneration_reparses_response : Prop :=
  forall env session feedback generate_response r,
    llm_service env = Some generate_response ->
    generate_response (_build_improvement_prompt session feedback)
      improver_system_message 3000 = Returns r ->
    let result := _regenerate_code_with_feedback env session feedback in
    (exists options,
        Returns result.2 = _parse_generated_content (llm_content r) options
        \/ result.2 = _parse_generated_code (llm_content r) options)
    /\ total_tokens_used result.1
       = total_tokens_used session + tokens_used r.

(** C5 as stated: the sweep removes exactly the terminal sessions older
    than the threshold. *)
Definition sweep_only_terminal : Prop :=
  forall current_time max_age_hours (sessions : Store) session_id session,
    sessions !! session_id = Some session ->
    (cleanup_old_sessions current_time max_age_hours sessions !! session_id
       = None
     <-> terminal (current_state session)
         /\ older_than max_age_hours current_time (created_at session)).

End WorkflowSpec.

(** ** Sample data *)

Module Samples.
Import PyStr Workflow.

(** The defaults of [GenerationOptions]. *)
Definition default_options : GenerationOptions :=
  {| generate_tests := true;
     code_style := "typescript";
     framework := "react";
     test_framework := "jest";
     include_documentation := true;
     max_file_size := 1000;
     architecture_pattern := None;
     database_type := None;
     api_style := None |}.

(** A path line followed by a body that is one fence line. *)
Definition fence_only_input : string := "a.py" +:+ NL +:+ "```".

Definition file_a : GeneratedFile :=
  {| path := "a.ts";
     content := "x";
     file_type := "source";
     language := "typescript";
     description := "Source code file: a.ts";
     size_lines := 1 |}.

Definition hour : Z := 3600000000.

(** A clock that stands still. *)
Definition still (t : Z) : nat -> Z := fun _ => t.

Definition session_1 (st : WorkflowState) (iteration limit : Z)
    : CodeGenerationSession :=
  {| session_id := "s1";
     ticket_key := "ABC-1";
     current_state := st;
     iteration_count := iteration;
     max_iterations := limit;
     original_ticket := None;
     ticket_analysis := None;
     generated_code := [file_a];
     user_feedback_history := [];
     created_at := 0;
     updated_at := 0;
     total_tokens_used := 0;
     error_messages := [] |}.

Definition feedback_with (decision : ApprovalStatus) : UserFeedback :=
  {| feedback_text := "please add error handling";
     specific_issues := ["no error handling"];
     improvement_requests := [];
     approval_status := decision;
     priority_changes := [] |}.

Definition approval_for_s1 (decision : ApprovalStatus) : ApprovalRequest :=
  {| areq_session_id := "s1"; feedback := feedback_with decision |}.

Definition ticket_1 : JiraTicketData :=
  {| tk_key := "ABC-1";
     tk_summary := "Create user authentication system";
     tk_description := None;
     tk_issue_type := STORY;
     tk_priority := HIGH;
     tk_status := TODO;
     tk_assignee := None;
     tk_reporter := None;
     tk_labels := [];
     tk_components := [] |}.

Definition analysis_1 : JiraTicketAnalysis :=
  {| an_ticket_key := "ABC-1";
     requirements := ["users can log in"];
     technical_specs := ["JWT"];
     acceptance_criteria := [];
     first_class_fields :=
       Some {| complexity_score := 3;
               estimated_files := 1;
               suggested_technologies := [];
               dependencies := [] |} |}.

Definition llm_ok : string -> string -> Z -> outcome LLMResponse :=
  fun _ _ _ =>
    Returns {| llm_content := "ok"; tokens_used := 7; model_used := "m" |}.

(** All collaborators answer. *)
Definition env_ok : Collaborators :=
  {| jira_initialize := fun _ => Returns true;
     fetch_ticket := fun _ => Returns (Some ticket_1);
     analyze_ticket := fun _ => Returns (Some analysis_1);
     generate_code_from_requirements := fun _ _ _ =>
       Returns {| success := true;
                  generated_files := [file_a];
                  gr_processing_time_ms := 0;
                  llm_tokens_used := 0;
                  error_message := None;
                  gr_warnings := [] |};
     llm_service := Some llm_ok |}.

(** The ticket is fetched, its analysis comes back empty-handed. *)
Definition env_no_analysis : Collaborators :=
  {| jira_initialize := jira_initialize env_ok;
     fetch_ticket := fetch_ticket env_ok;
     analyze_ticket := fun _ => Returns None;
     generate_code_from_requirements := generate_code_from_requirements env_ok;
     llm_service := llm_service env_ok |}.

Definition credentials_1 : JiraCredentials :=
  {| server_url := "https://jira.example.org";
     username := "dev";
     api_token := "t";
     project_key := None |}.

Definition start_request (limit : Z) : JiraAgentRequest :=
  {| req_ticket_key := "ABC-1";
     jira_credentials := credentials_1;
     generation_options := default_options;
     user_context :=
       {| user_id := "u"; uc_timestamp := 0; uc_session_id := None |};
     session_config := Some {[ "max_iterations" := limit ]} |}.

(** A workflow of [JiraAgentService] that waits for approval. *)
Definition pending_workflow : AgentService.CodeGenerationWorkflow :=
  {| AgentService.workflow_id := "w1";
     AgentService.wf_ticket_key := "ABC-1";
     AgentService.status := AgentService.PENDING_APPROVAL;
     AgentService.user_feedback := None;
     AgentService.iterations := 1;
     AgentService.wf_max_iterations := 3;
     AgentService.wf_created_at := 0;
     AgentService.wf_updated_at := 0 |}.

(** The session that a successful start leaves behind. *)
Definition started_session (limit : Z) : CodeGenerationSession :=
  {| session_id := "s1";
     ticket_key := "ABC-1";
     current_state := AWAITING_APPROVAL;
     iteration_count := 1;
     max_iterations := limit;
     original_ticket := Some ticket_1;
     ticket_analysis := Some analysis_1;
     generated_code := [file_a];
     user_feedback_history := [];
     created_at := 0;
     updated_at := 0;
     total_tokens_used := 0;
     error_messages := [] |}.

Definition llm_answer : LLMResponse :=
  {| llm_content := "ok"; tokens_used := 7; model_used := "m" |}.

End Samples.

(** * Further parts of the services *)

(** ** [pathlib]: stem and parent of a POSIX path *)

Module PathParts.
Import PyStr.

(** [PurePosixPath(p).stem] *)
Definition stem (p : string) : string :=
  let n := PyPath.name p in
  match PyPath.rfind "." n with
  | Some i =>
      if ((0 <? i) && (i <? String.length n - 1))%nat then take i n else n
  | None => n
  end.

(** [PurePosixPath(p).parent != Path(".")]: the path is absolute or has more
    than one component. *)
Definition has_parent (p : string) : bool :=
  startswith "/" p
  || (1 <? length (List.filter PyPath.is_part (split "/" p)))%nat.

End PathParts.

(** ** [CodeGeneratorService]: tests, syntax check, generation from
    requirements *)

Module Generation.
Import PyStr CodeGenerator.

(** [s.count(c)] for one character *)
Fixpoint count_char (c : ascii) (s : string) : nat :=
  match s with
  | EmptyString => O
  | String x s' => if Ascii.eqb x c then S (count_char c s') else count_char c s'
  end.

Definition _basic_js_syntax_check (content : string) : bool :=
  let open_braces := count_char "{" content in
  let close_braces := count_char "}" content in
  let open_parens := count_char "(" content in
  let close_parens := count_char ")" content in
  Nat.eqb open_braces close_braces && Nat.eqb open_parens close_parens.

Definition _get_test_extension (test_framework source_extension : string)
    : string :=
  if String.eqb test_framework "jest" || String.eqb test_framework "vitest"
  then source_extension
  else if String.eqb test_framework "pytest" then ".py"
  else source_extension.

(** [_parse_test_content]: one test file holding the whole answer. *)
Definition _parse_test_content (content : string) (source_file : GeneratedFile)
    (options : GenerationOptions) : list GeneratedFile :=
  let test_extension :=
    _get_test_extension (test_framework options)
      (PyPath.suffix (path source_file)) in
  let test_path :=
    PathParts.stem (path source_file) +:+ ".test" +:+ test_extension in
  let test_path :=
    if PathParts.has_parent (path source_file) then "tests/" +:+ test_path
    else test_path in
  [{| path := test_path;
      content := content;
      file_type := "test";
      language := code_style options;
      description := "Tests for " +:+ path source_file +:+ " using "
                       +:+ test_framework options;
      size_lines := line_count content |}].

(** [_generate_test_filename]; [_generate_test_filename_new] is the same
    text. *)
Definition _generate_test_filename (source_path : string)
    (options : GenerationOptions) : string :=
  let name := PathParts.stem source_path in
  let ext := PyPath.suffix source_path in
  let fw := lower (test_framework options) in
  if String.eqb fw "jest" then name +:+ ".test" +:+ ext
  else if String.eqb fw "pytest" then "test_" +:+ name +:+ ext
  else if String.eqb fw "junit" then name +:+ "Test" +:+ ext
  else name +:+ "_test" +:+ ext.

(** The prompt of [_generate_tests_for_files] for one source file. *)
Definition test_prompt (source_file : GeneratedFile)
    (options : GenerationOptions) : string :=
  let indent := "                    " in
  join NL
    [EmptyString;
     indent +:+ "Generate comprehensive unit tests for the following code:";
     EmptyString;
     indent +:+ "**File: " +:+ path source_file +:+ "**";
     indent +:+ "```" +:+ language source_file;
     indent +:+ content source_file;
     indent +:+ "```";
     EmptyString;
     indent +:+ "**Test Requirements:**";
     indent +:+ "- Use " +:+ test_framework options +:+ " testing framework";
     indent +:+ "- Test all public methods/functions";
     indent +:+ "- Include edge cases and error scenarios";
     indent +:+ "- Follow best practices for " +:+ code_style options
       +:+ " testing";
     indent +:+ "- Include setup and teardown if needed";
     EmptyString;
     indent +:+ "Generate only the test code:";
     indent].

Definition test_system_message : string :=
  "Generate comprehensive unit tests following best practices.".

(** One turn of the loop of [_generate_tests_for_files]: nothing for a file
    that is not of type [source], else the call of the text generator and the
    test file built from its answer. *)
Definition test_file_for
    (generate_response : string -> string -> Z -> outcome LLMResponse)
    (options : GenerationOptions) (source_file : GeneratedFile)
    : outcome (list GeneratedFile) :=
  if String.eqb (file_type source_file) "source" then
    test_response ←
      generate_response (test_prompt source_file options)
        test_system_message 1000;
    Returns
      [{| path := _generate_test_filename (path source_file) options;
          content := strip (llm_content test_response);
          file_type := "test";
          language := language source_file;
          description := "Unit tests for " +:+ path source_file;
          size_lines := line_count (llm_content test_response) |}]
  else Returns [].

(** [_generate_tests_for_files]: an exception anywhere in the loop gives the
    empty list. *)
Definition _generate_tests_for_files
    (generate_response : string -> string -> Z -> outcome LLMResponse)
    (source_files : list GeneratedFile) (options : GenerationOptions)
    : list GeneratedFile :=
  match mapM (test_file_for generate_response options) source_files with
  | Returns groups => List.concat groups
  | Raises _ _ => []
  end.

(** [TestResult] without [execution_time], which is a float constant. *)
Record TestResult : Type := {
  test_file : string;
  passed : bool;
  total_tests : Z;
  passed_tests : Z;
  failed_tests : Z;
  output : string;
  errors : list string
}.

(** [_execute_generated_tests]; nothing in it can raise. *)
Definition _execute_generated_tests (files : list GeneratedFile)
    : list TestResult :=
  List.map
    (fun f =>
       {| test_file := path f;
          passed := true;
          total_tests := 1;
          passed_tests := 1;
          failed_tests := 0;
          output := "Tests generated successfully";
          errors := [] |})
    (List.filter (fun f => String.eqb (file_type f) "test") files).

Definition generator_system_message : string :=
  "You are an expert software developer. Generate complete, production-ready code based on requirements.".

(** [generate_code_from_requirements] (the second definition of the class,
    which is the one in force). [_build_requirements_prompt] is a parameter:
    its text holds a character above 255. [processing_time] is what the clock
    gives for [processing_time_ms]. The record has no [test_results]; see
    [_execute_generated_tests]. *)
Definition generate_code_from_requirements
    (_build_requirements_prompt :
       list string -> list string -> GenerationOptions -> string)
    (generate_response : string -> string -> Z -> outcome LLMResponse)
    (processing_time : Z)
    (requirements technical_specs : list string)
    (generation_options : GenerationOptions) : GenerationResult :=
  let generation_prompt :=
    _build_requirements_prompt requirements technical_specs
      generation_options in
  match generate_response generation_prompt generator_system_message 2500 with
  | Raises _ msg =>
      {| success := false;
         generated_files := [];
         gr_processing_time_ms := processing_time;
         llm_tokens_used := 0;
         error_message := Some msg;
         gr_warnings := [] |}
  | Returns llm_response =>
      let total_tokens := 0 + tokens_used llm_response in
      let generated_files :=
        _parse_generated_code (llm_content llm_response) generation_options in
      let with_tests :=
        generate_tests generation_options
        && negb (bool_decide (generated_files = [])) in
      let test_files :=
        if with_tests
        then _generate_tests_for_files generate_response generated_files
               generation_options
        else [] in
      {| success := true;
         generated_files := generated_files ++ test_files;
         gr_processing_time_ms := processing_time;
         llm_tokens_used :=
           if with_tests then total_tokens + 200 else total_tokens;
         error_message := None;
         gr_warnings := [] |}
  end.

End Generation.

(** ** [JiraService]: the mappings and the manual analysis *)

Module JiraService.
Import PyStr.

(** [IssueType.value], [Priority.value], [Status.value] *)
Definition issue_type_value (t : IssueType) : string :=
  match t with
  | TASK => "Task" | STORY => "Story" | BUG => "Bug" | EPIC => "Epic"
  | SUBTASK => "Sub-task"
  end.

Definition priority_value (p : Priority) : string :=
  match p with
  | LOWEST => "Lowest" | LOW => "Low" | MEDIUM => "Medium" | HIGH => "High"
  | HIGHEST => "Highest"
  end.

Definition status_value (st : Status) : string :=
  match st with
  | TODO => "To Do" | IN_PROGRESS => "In Progress" | IN_REVIEW => "In Review"
  | DONE => "Done" | CLOSED => "Closed"
  end.

(** [d.get(k, default)] for a dictionary literal with values of any type *)
Fixpoint get_default {A : Type} (d : list (string * A)) (k : string)
    (default : A) : A :=
  match d with
  | [] => default
  | (k', v) :: d' => if String.eqb k' k then v else get_default d' k default
  end.

Definition _map_issue_type (jira_type : string) : IssueType :=
  get_default [("task", TASK); ("story", STORY); ("bug", BUG); ("epic", EPIC);
               ("sub-task", SUBTASK); ("subtask", SUBTASK)]
              (lower jira_type) TASK.

Definition _map_priority (jira_priority : string) : Priority :=
  get_default [("lowest", LOWEST); ("low", LOW); ("medium", MEDIUM);
               ("high", HIGH); ("highest", HIGHEST)]
              (lower jira_priority) MEDIUM.

Definition _map_status (jira_status : string) : Status :=
  get_default [("to do", TODO); ("todo", TODO); ("in progress", IN_PROGRESS);
               ("in review", IN_REVIEW); ("done", DONE); ("closed", CLOSED)]
              (lower jira_status) TODO.

(** [_create_fallback_analysis]: the class called is the one in force, so
    the keywords [complexity_score], [estimated_files],
    [suggested_technologies] and [dependencies] are dropped. *)
Definition _create_fallback_analysis (ticket_key : string)
    : JiraTicketAnalysis :=
  {| an_ticket_key := ticket_key;
     requirements := ["Implement functionality as described in ticket"];
     technical_specs := ["Follow project coding standards"];
     acceptance_criteria := ["Code should compile and run without errors"];
     first_class_fields := None |}.

(** [current_section] of [_manual_parse_analysis] *)
Inductive section_name : Type :=
| REQUIREMENTS
| TECHNICAL_SPECS
| ACCEPTANCE_CRITERIA.

(** The three lists that the loop of [_manual_parse_analysis] fills. *)
Record collected : Type := {
  c_requirements : list string;
  c_technical_specs : list string;
  c_acceptance_criteria : list string
}.

Definition collect (current_section : option section_name) (item : string)
    (acc : collected) : collected :=
  match current_section with
  | Some REQUIREMENTS =>
      {| c_requirements := c_requirements acc ++ [item];
         c_technical_specs := c_technical_specs acc;
         c_acceptance_criteria := c_acceptance_criteria acc |}
  | Some TECHNICAL_SPECS =>
      {| c_requirements := c_requirements acc;
         c_technical_specs := c_technical_specs acc ++ [item];
         c_acceptance_criteria := c_acceptance_criteria acc |}
  | Some ACCEPTANCE_CRITERIA =>
      {| c_requirements := c_requirements acc;
         c_technical_specs := c_technical_specs acc;
         c_acceptance_criteria := c_acceptance_criteria acc ++ [item] |}
  | None => acc
  end.

(** The loop [for line in lines]. *)
Fixpoint scan_lines (lines : list string)
    (current_section : option section_name) (acc : collected) : collected :=
  match lines with
  | [] => acc
  | line :: rest =>
      let line := strip line in
      if contains "requirement" line
      then scan_lines rest (Some REQUIREMENTS) acc
      else if contains "technical" line || contains "spec" line
      then scan_lines rest (Some TECHNICAL_SPECS) acc
      else if contains "acceptance" line || contains "criteria" line
      then scan_lines rest (Some ACCEPTANCE_CRITERIA) acc
      else if startswith "- " line || startswith "* " line
      then scan_lines rest current_section
             (collect current_section (strip (drop 2 line)) acc)
      else scan_lines rest current_section acc
  end.

(** [xs or default] *)
Definition or_default (xs default : list string) : list string :=
  match xs with
  | [] => default
  | _ => xs
  end.

(** The dictionary that [_manual_parse_analysis] returns, as a record. *)
Record manual_analysis : Type := {
  ma_requirements : list string;
  ma_technical_specs : list string;
  ma_acceptance_criteria : list string;
  ma_complexity_score : Z;
  ma_estimated_files : Z;
  ma_suggested_technologies : list string;
  ma_dependencies : list string
}.

Definition _manual_parse_analysis (response : string) : manual_analysis :=
  let lines := split nl (lower response) in
  let acc :=
    scan_lines lines None
      {| c_requirements := []; c_technical_specs := [];
         c_acceptance_criteria := [] |} in
  {| ma_requirements :=
       or_default (c_requirements acc) ["Implement functionality as described"];
     ma_technical_specs :=
       or_default (c_technical_specs acc) ["Follow standard coding practices"];
     ma_acceptance_criteria :=
       or_default (c_acceptance_criteria acc) ["Code should work as expected"];
     ma_complexity_score := 5;
     ma_estimated_files := 3;
     ma_suggested_technologies := ["javascript"; "typescript"];
     ma_dependencies := [] |}.

(** The words that switch the section. *)
Definition section_keywords : list string :=
  ["requirement"; "technical"; "spec"; "acceptance"; "criteria"].

End JiraService.

(** ** Further notions about the sessions of the workflow *)

Module WorkflowInvariants.
Import Workflow.

(** The states in which an operation of the service leaves a session. *)
Definition resting (st : WorkflowState) : Prop :=
  st = AWAITING_APPROVAL \/ st = COMPLETED \/ st = FAILED.

Definition session_inv (s : CodeGenerationSession) : Prop :=
  resting (current_state s)
  /\ 1 <= iteration_count s
  /\ (iteration_count s = 1 \/ iteration_count s <= max_iterations s)
  /\ iteration_count s - 1 <= Z.of_nat (length (user_feedback_history s))
  /\ (current_state s = FAILED -> error_messages s <> []).

Definition store_inv (sessions : Store) : Prop :=
  forall sid s, sessions !! sid = Some s -> session_inv s.



(** A collaborator record whose code generator is the one of
    [code_generator.py], run on a text generator. *)
Definition with_generator (env : Collaborators)
    (build_prompt : list string -> list string -> GenerationOptions -> string)
    (generate_response : string -> string -> Z -> outcome LLMResponse)
    (processing_time : Z) : Collaborators :=
  {| jira_initialize := jira_initialize env;
     fetch_ticket := fetch_ticket env;
     analyze_ticket := analyze_ticket env;
     generate_code_from_requirements := fun requirements technical_specs options =>
       Returns (Generation.generate_code_from_requirements build_prompt
                  generate_response processing_time requirements
                  technical_specs options);
     llm_service := llm_service env |}.

End WorkflowInvariants.

(** ** Groups that take part in every match *)

Module ReGroups.
Import Re.

(** The groups that every match of a pattern closes. *)
Fixpoint always_groups (r : regex) : list nat :=
  match r with
  | Grp i r1 => i :: always_groups r1
  | Seq r1 r2 => always_groups r1 ++ always_groups r2
  | Alt r1 r2 =>
      List.filter (fun i => existsb (Nat.eqb i) (always_groups r2))
                  (always_groups r1)
  | Eps | Chr _ | StarG _ | StarL _ | Ahead _ | Eos => []
  end.

End ReGroups.

(** ** Further sample data *)

Module MoreSamples.
Import PyStr Workflow Samples.

(** The text generator was never set. *)
Definition env_no_llm : Collaborators :=
  {| jira_initialize := jira_initialize env_ok;
     fetch_ticket := fetch_ticket env_ok;
     analyze_ticket := analyze_ticket env_ok;
     generate_code_from_requirements := generate_code_from_requirements env_ok;
     llm_service := None |}.

(** The analysis is what [jira_service.py] builds: an instance of the class
    in force. *)
Definition env_in_force : Collaborators :=
  {| jira_initialize := jira_initialize env_ok;
     fetch_ticket := fetch_ticket env_ok;
     analyze_ticket := fun _ =>
       Returns (Some (JiraService._create_fallback_analysis "ABC-1"));
     generate_code_from_requirements := generate_code_from_requirements env_ok;
     llm_service := llm_service env_ok |}.

(** A text generator that is out of reach. *)
Definition llm_down : string -> string -> Z -> outcome LLMResponse :=
  fun _ _ _ => Raises "TimeoutError" "timed out".

(** A text generator that answers with white space. *)
Definition llm_blank : string -> string -> Z -> outcome LLMResponse :=
  fun _ _ _ =>
    Returns {| llm_content := "  " +:+ NL; tokens_used := 3;
               model_used := "m" |}.

End MoreSamples.

(** * Properties *)

(** ** Strings *)

Section StringFacts.
Import PyStr.

Lemma append_nil (s : string) : EmptyString +:+ s = s.
Proof. reflexivity. Qed.

Lemma append_cons (a : ascii) (s t : string) :
  String a s +:+ t = String a (s +:+ t).
Proof. reflexivity. Qed.

Lemma startswith_app (p s : string) : startswith p (p +:+ s) = true.
Proof.
  induction p as [|a p IH]; [reflexivity|].
  rewrite append_cons. simpl. rewrite Ascii.eqb_refl. exact IH.
Qed.

Lemma contains_startswith (sub s : string) :
  startswith sub s = true -> contains sub s = true.
Proof. destruct s; simpl; intros ->; reflexivity. Qed.

Lemma contains_app (pre sub post : string) :
  contains sub (pre +:+ sub +:+ post) = true.
Proof.
  induction pre as [|a pre IH].
  - rewrite append_nil. apply contains_startswith, startswith_app.
  - rewrite append_cons. simpl.
    destruct (startswith sub (String a (pre +:+ sub +:+ post))); [reflexivity|].
    exact IH.
Qed.

Lemma split_length (s : string) : length (split nl s) = S (count_nl s).
Proof.
  induction s as [|c s IH]; simpl; [reflexivity|].
  destruct (Ascii.eqb c nl); simpl.
  - now rewrite IH.
  - destruct (split nl s); simpl in *; [discriminate|exact IH].
Qed.

Lemma split_nonempty (c : ascii) (s : string) : split c s <> [].
Proof.
  destruct s as [|a s]; simpl; [discriminate|].
  destruct (Ascii.eqb a c); [discriminate|].
  destruct (split c s); discriminate.
Qed.

Lemma count_nl_app (a b : string) :
  count_nl (a +:+ b) = (count_nl a + count_nl b)%nat.
Proof.
  induction a as [|c a IH]; [reflexivity|].
  rewrite append_cons. simpl.
  destruct (Ascii.eqb c nl); simpl; now rewrite IH.
Qed.

Lemma line_count_count_nl (s : string) :
  line_count s = Z.of_nat (count_nl s) + 1.
Proof. unfold line_count. rewrite split_length. lia. Qed.

End StringFacts.

(** ** The matcher *)

Section MatcherFacts.
Import PyStr Re.

Lemma starG_advances {A : Type} (p : ascii -> bool) (s : string) :
  forall (pos : nat) (k : nat -> string -> option A) (a : A),
    starG p pos s k = Some a ->
    exists pos' s', (pos <= pos')%nat /\ k pos' s' = Some a.
Proof.
  induction s as [|c s IH]; intros pos k a; simpl.
  - intros H. exists pos, EmptyString. split; [lia|exact H].
  - destruct (p c).
    + destruct (starG p (S pos) s k) as [a'|] eqn:E.
      * intros [= <-]. destruct (IH _ _ _ E) as (pos' & s' & Hle & Hk).
        exists pos', s'. split; [lia|exact Hk].
      * intros H. exists pos, (String c s). split; [lia|exact H].
    + intros H. exists pos, (String c s). split; [lia|exact H].
Qed.

Lemma starL_advances {A : Type} (p : ascii -> bool) (s : string) :
  forall (pos : nat) (k : nat -> string -> option A) (a : A),
    starL p pos s k = Some a ->
    exists pos' s', (pos <= pos')%nat /\ k pos' s' = Some a.
Proof.
  induction s as [|c s IH]; intros pos k a; simpl.
  - destruct (k pos EmptyString) as [a'|] eqn:E; [|discriminate].
    intros [= <-]. exists pos, EmptyString. split; [lia|exact E].
  - destruct (k pos (String c s)) as [a'|] eqn:E.
    + intros [= <-]. exists pos, (String c s). split; [lia|exact E].
    + destruct (p c); [|discriminate].
      intros H. destruct (IH _ _ _ H) as (pos' & s' & Hle & Hk).
      exists pos', s'. split; [lia|exact Hk].
Qed.

(** A successful match hands its continuation an offset that is at least
    [min_len] further. *)
Lemma mt_advances (r : regex) :
  forall (A : Type) (pos : nat) (s : string) (cs : caps)
         (k : nat -> string -> caps -> option A) (a : A),
    mt A r pos s cs k = Some a ->
    exists pos' s' cs', (pos + min_len r <= pos')%nat /\ k pos' s' cs' = Some a.
Proof.
  induction r as [|p|r1 IH1 r2 IH2|r1 IH1 r2 IH2|p|p|i r1 IH1|r1 IH1|];
    intros A pos s cs k a; simpl.
  - intros H. exists pos, s, cs. split; [lia|exact H].
  - destruct s as [|c s']; [discriminate|]. destruct (p c); [|discriminate].
    intros H. exists (S pos), s', cs. split; [lia|exact H].
  - intros H. destruct (IH1 _ _ _ _ _ _ H) as (p1 & s1 & c1 & Hle1 & H1).
    destruct (IH2 _ _ _ _ _ _ H1) as (p2 & s2 & c2 & Hle2 & H2).
    exists p2, s2, c2. split; [lia|exact H2].
  - destruct (mt A r1 pos s cs k) as [a'|] eqn:E.
    + intros [= <-]. destruct (IH1 _ _ _ _ _ _ E) as (p1 & s1 & c1 & Hle & H1).
      exists p1, s1, c1. split; [lia|exact H1].
    + intros H. destruct (IH2 _ _ _ _ _ _ H) as (p2 & s2 & c2 & Hle & H2).
      exists p2, s2, c2. split; [lia|exact H2].
  - intros H. destruct (starG_advances _ _ _ _ _ H) as (p1 & s1 & Hle & H1).
    exists p1, s1, cs. split; [lia|exact H1].
  - intros H. destruct (starL_advances _ _ _ _ _ H) as (p1 & s1 & Hle & H1).
    exists p1, s1, cs. split; [lia|exact H1].
  - intros H. destruct (IH1 _ _ _ _ _ _ H) as (p1 & s1 & c1 & Hle & H1).
    exists p1, s1, ((i, (pos, p1)) :: c1). split; [lia|exact H1].
  - destruct (mt unit r1 pos s cs _); [|discriminate].
    intros H. exists pos, s, cs. split; [lia|exact H].
  - destruct (at_end s); [|discriminate].
    intros H. exists pos, s, cs. split; [lia|exact H].
Qed.

Lemma match_here_length (r : regex) (s : string) (m : re_match) :
  match_here r s = Some m -> (min_len r <= m_len m)%nat.
Proof.
  unfold match_here. intros H.
  destruct (mt_advances _ _ _ _ _ _ _ H) as (pos & s' & cs & Hle & [= <-]).
  simpl. lia.
Qed.

(** No match of either pattern of [code_generator.py] is empty, so that
    [finditer] resumes strictly further each time. *)
Lemma file_pattern_match_length (s : string) (m : re_match) :
  match_here CodeGenerator.file_pattern s = Some m -> (5 <= m_len m)%nat.
Proof. apply match_here_length. Qed.

Lemma block_pattern_match_length (s : string) (m : re_match) :
  match_here CodeGenerator.block_pattern s = Some m -> (6 <= m_len m)%nat.
Proof. apply match_here_length. Qed.

End MatcherFacts.

(** ** Parsing generated text *)

Section ParserFacts.
Import PyStr Re CodeGenerator.

Lemma mapM_Returns {A B : Type} (f : A -> outcome B) (l : list A) (k : list B) :
  mapM f l = Returns k -> Forall2 (fun a b => f a = Returns b) l k.
Proof.
  revert k. induction l as [|a l IH]; intros k; simpl.
  - intros [= <-]. constructor.
  - destruct (f a) as [b|] eqn:Ea; simpl; [|discriminate].
    destruct (mapM f l) as [k'|] eqn:Ek; simpl; [|discriminate].
    intros [= <-]. constructor; [exact Ea|]. apply IH. reflexivity.
Qed.

Lemma file_of_match_size_lines (m : re_match) (f : GeneratedFile) :
  file_of_match m = Returns f -> size_lines f = line_count (content f).
Proof.
  unfold file_of_match.
  destruct (group_strip 1 m) as [p|]; simpl; [|discriminate].
  destruct (group_strip 3 m) as [c|]; simpl; [|discriminate].
  destruct (remove_code_block_markers c) as [c'|]; simpl; [|discriminate].
  intros [= <-]. reflexivity.
Qed.

(** Every file that [_parse_generated_content] returns carries the line
    count of its own content. *)
Lemma parsed_content_size_lines (text : string) (options : GenerationOptions)
    (files : list GeneratedFile) :
  _parse_generated_content text options = Returns files ->
  Forall (fun f => size_lines f = line_count (content f)) files.
Proof.
  unfold _parse_generated_content.
  destruct (mapM file_of_match (finditer file_pattern 0 text)) as [k|] eqn:E;
    simpl; [|discriminate].
  apply mapM_Returns in E.
  destruct k as [|f k]; intros [= <-].
  - repeat constructor.
  - clear -E. induction E as [|m f' ms fs Hm _ IH]; constructor.
    + eapply file_of_match_size_lines; eassumption.
    + exact IH.
Qed.

Lemma files_of_blocks_size_lines (i : nat) (matches : list (string * string))
    (options : GenerationOptions) :
  Forall (fun f => size_lines f = line_count (content f))
         (files_of_blocks i matches options).
Proof.
  revert i. induction matches as [|[filename body] rest IH]; intros i; simpl.
  - constructor.
  - apply Forall_app. split; [|apply IH].
    destruct (String.eqb (strip body) EmptyString); repeat constructor.
Qed.

End ParserFacts.

Section ExtractorClaims.
Import PyStr Re CodeGenerator Workflow Samples.

(** C6 (the code departs from the claim). The claim: the parse never raises,
    also when a detected file body is one fence line. On the text [a.py],
    newline, three backquotes, [_parse_generated_content] finds one file
    block whose body is exactly the fence; the first line is dropped and
    [lines[-1]] is then read from an empty list: [IndexError]. *)
Theorem fence_only_body_raises (options : GenerationOptions) :
  List.map (group_strip 3) (finditer file_pattern 0 fence_only_input)
    = [Returns fence]
  /\ _parse_generated_content fence_only_input options
     = Raises "IndexError" "list index out of range".
Proof. split; vm_compute; reflexivity. Qed.

(** C7, as stated, fails for the parser of [generate_code_from_requirements]:
    the empty response has no code block, and no file is returned. *)
Lemma blank_response_gives_no_file :
  findall2 block_pattern EmptyString = []
  /\ _parse_generated_code EmptyString default_options = [].
Proof. split; vm_compute; reflexivity. Qed.

(** C7 (amended). When [_parse_generated_content] finds no file block it
    returns exactly one file: the whole text, of type [source], named
    [generated_code.] followed by the extension of the requested style; it
    never returns the empty list, and the empty text gives that one file.
    When [_parse_generated_code] finds no code block it returns one file
    [main] with the style's extension holding the stripped response if the
    response is not blank, and no file if it is blank. *)
Theorem no_marker_fallback (text response : string)
    (options : GenerationOptions) :
  finditer file_pattern 0 text = [] ->
  findall2 block_pattern response = [] ->
  _parse_generated_content text options =
    Returns [{| path := "generated_code."
                          +:+ _get_default_extension (code_style options);
                content := text;
                file_type := "source";
                language := code_style options;
                description := "Generated " +:+ code_style options
                                 +:+ " code for " +:+ framework options;
                size_lines := line_count text |}]
  /\ (forall any_text, _parse_generated_content any_text options <> Returns [])
  /\ (exists f, _parse_generated_content EmptyString options = Returns [f]
                /\ content f = EmptyString /\ file_type f = "source")
  /\ _parse_generated_code response options =
       if String.eqb (strip response) EmptyString then []
       else [{| path := "main" +:+ _get_file_extension (code_style options);
                content := strip response;
                file_type := "source";
                language := code_style options;
                description := "Main generated file";
                size_lines := line_count response |}].
Proof.
  intros Htext Hresponse. repeat split.
  - unfold _parse_generated_content. rewrite Htext. reflexivity.
  - intros any_text. unfold _parse_generated_content.
    destruct (mapM file_of_match (finditer file_pattern 0 any_text)) as [k|];
      simpl; [|discriminate].
    destruct k; discriminate.
  - eexists. repeat split.
  - unfold _parse_generated_code. rewrite Hresponse. reflexivity.
Qed.

Lemma no_marker_fallback_witness :
  _parse_generated_content "hello" default_options =
    Returns [{| path := "generated_code.ts";
                content := "hello";
                file_type := "source";
                language := "typescript";
                description := "Generated typescript code for react";
                size_lines := 1 |}]
  /\ _parse_generated_code " hello " default_options =
       [{| path := "main.ts";
           content := "hello";
           file_type := "source";
           language := "typescript";
           description := "Main generated file";
           size_lines := 1 |}].
Proof.
  destruct (no_marker_fallback "hello" " hello " default_options)
    as (H1 & _ & _ & H4); [reflexivity | reflexivity |].
  split; [exact H1 | exact H4].
Defined.

(** The line count of the content that [improved_file] builds. *)
Lemma improved_file_line_count (response : string) (f : GeneratedFile) :
  line_count (content (improved_file response f))
  = line_count (content f) + 4 + Z.of_nat (count_nl (take 200 response)).
Proof.
  rewrite !line_count_count_nl. unfold improved_file; cbn [content].
  rewrite !count_nl_app.
  change (count_nl NL) with 1%nat.
  change (count_nl "// Improved based on user feedback") with O.
  change (count_nl "// Additional improvements:") with O.
  change (count_nl "// ") with O.
  change (count_nl "...") with O.
  lia.
Qed.

(** C8 (the code departs from the claim). The claim: [size_lines] is always
    the line count of the content. [_parse_improved_code_response] adds 5
    to the old [size_lines] while the new content has the old lines, 4 more,
    and one more for each newline among the first 200 characters of the
    response: unless there is exactly one such newline, a file that had the
    right count gets a wrong one. *)
Theorem improved_file_size_lines_off (response : string) (f : GeneratedFile) :
  size_lines f = line_count (content f) ->
  count_nl (take 200 response) <> 1%nat ->
  size_lines (improved_file response f)
    <> line_count (content (improved_file response f)).
Proof.
  intros Hf Hn. rewrite improved_file_line_count.
  unfold improved_file; cbn [size_lines]. lia.
Qed.

Lemma improved_file_size_lines_off_witness :
  size_lines (improved_file "ok" file_a) = 6
  /\ line_count (content (improved_file "ok" file_a)) = 5
  /\ size_lines (improved_file "ok" file_a)
       <> line_count (content (improved_file "ok" file_a)).
Proof.
  split; [reflexivity|]. split; [reflexivity|].
  apply (improved_file_size_lines_off "ok" file_a); [reflexivity|].
  vm_compute. discriminate.
Defined.

End ExtractorClaims.

(** ** Floating point *)

Section FloatFacts.
Import PyFloat Workflow.
Local Open Scope Q_scope.

Lemma two_to_pos (e : Z) : 0 < two_to e.
Proof. apply Qpower_0_lt. reflexivity. Qed.

Lemma two_to_plus (a b : Z) : two_to (a + b) == two_to a * two_to b.
Proof. apply Qpower_plus. discriminate. Qed.

Lemma two_to_le (a b : Z) : (a <= b)%Z -> two_to a <= two_to b.
Proof. intros H. apply Qpower_le_compat_l; [exact H | discriminate]. Qed.

Lemma two_to_lt (a b : Z) : (a < b)%Z -> two_to a < two_to b.
Proof. intros H. apply Qpower_lt_compat_l; [exact H | reflexivity]. Qed.

Lemma two_to_lt_inv (a b : Z) : two_to a < two_to b -> (a < b)%Z.
Proof. intros H. apply (Qpower_lt_compat_l_inv (2 # 1)); [exact H | reflexivity]. Qed.

Lemma two_to_nonneg (e : Z) :
  (0 <= e)%Z -> two_to e == inject_Z (2 ^ e).
Proof.
  intros H. unfold two_to. rewrite Zpower_Qpower by exact H. reflexivity.
Qed.


Lemma Q_as_quotient (x : Q) : x * inject_Z (Zpos (Qden x)) == inject_Z (Qnum x).
Proof.
  destruct x as [n d]. unfold Qeq, Qmult, inject_Z. simpl. lia.
Qed.

Lemma ilog2_bounds (x : Q) :
  0 < x ->
  let k := (Z.log2 (Qnum x) - Z.log2 (Zpos (Qden x)))%Z in
  two_to (k - 1) < x /\ x < two_to (k + 1).
Proof.
  intros Hx. cbv zeta.
  set (n := Qnum x). set (d := Zpos (Qden x)).
  set (a := Z.log2 n). set (b := Z.log2 d).
  assert (Hn : (0 < n)%Z).
  { unfold n. destruct x as [xn xd]. unfold Qlt in Hx. simpl in *. lia. }
  assert (Hd : (0 < d)%Z) by (unfold d; lia).
  destruct (Z.log2_spec n Hn) as [Ha1 Ha2]. fold a in Ha1, Ha2.
  destruct (Z.log2_spec d Hd) as [Hb1 Hb2]. fold b in Hb1, Hb2.
  assert (Ha0 : (0 <= a)%Z) by apply Z.log2_nonneg.
  assert (Hb0 : (0 <= b)%Z) by apply Z.log2_nonneg.
  pose proof (Q_as_quotient x) as Hq. fold n d in Hq.
  assert (Hdq : 0 < inject_Z d) by (unfold Qlt; simpl; lia).
  split.
  - apply (Qmult_lt_r _ _ (inject_Z d) Hdq). rewrite Hq.
    apply Qlt_le_trans with (two_to (a - b - 1) * two_to (b + 1)).
    + apply Qmult_lt_l; [apply two_to_pos|].
      rewrite two_to_nonneg by lia. rewrite <- Zlt_Qlt.
      replace (Z.succ b) with (b + 1)%Z in Hb2 by lia. exact Hb2.
    + rewrite <- two_to_plus. replace (a - b - 1 + (b + 1))%Z with a by lia.
      rewrite two_to_nonneg by lia. rewrite <- Zle_Qle. exact Ha1.
  - apply (Qmult_lt_r _ _ (inject_Z d) Hdq). rewrite Hq.
    apply Qlt_le_trans with (two_to (a - b + 1) * two_to b).
    + rewrite <- two_to_plus. replace (a - b + 1 + b)%Z with (a + 1)%Z by lia.
      rewrite two_to_nonneg by lia. rewrite <- Zlt_Qlt.
      replace (Z.succ a) with (a + 1)%Z in Ha2 by lia. exact Ha2.
    + apply Qmult_le_l; [apply two_to_pos|].
      rewrite two_to_nonneg by lia. rewrite <- Zle_Qle. exact Hb1.
Qed.

Lemma ilog2_spec (x : Q) :
  0 < x -> two_to (ilog2 x) <= x /\ x < two_to (ilog2 x + 1).
Proof.
  intros Hx. destruct (ilog2_bounds x Hx) as [H1 H2]. unfold ilog2.
  destruct (Qle_bool _ x) eqn:E.
  - apply Qle_bool_iff in E. split; [exact E | exact H2].
  - split; [apply Qlt_le_weak; exact H1|].
    match goal with |- _ < two_to ?z =>
      replace z with (Z.log2 (Qnum x) - Z.log2 (Z.pos (Qden x)))%Z by lia end.
    apply Qnot_le_lt. intros Hle. apply Qle_bool_iff in Hle. congruence.
Qed.

Lemma ilog2_unique (x : Q) (k : Z) :
  two_to k <= x -> x < two_to (k + 1) -> ilog2 x = k.
Proof.
  intros H1 H2.
  assert (Hx : 0 < x) by (apply Qlt_le_trans with (two_to k); [apply two_to_pos | exact H1]).
  destruct (ilog2_spec x Hx) as [S1 S2].
  assert (A : (ilog2 x < k + 1)%Z).
  { apply two_to_lt_inv. apply Qle_lt_trans with x; assumption. }
  assert (B : (k < ilog2 x + 1)%Z).
  { apply two_to_lt_inv. apply Qle_lt_trans with x; assumption. }
  lia.
Qed.

Lemma ilog2_le (x y : Q) : 0 < x -> x <= y -> (ilog2 x <= ilog2 y)%Z.
Proof.
  intros Hx Hxy.
  assert (Hy : 0 < y) by (apply Qlt_le_trans with x; assumption).
  destruct (ilog2_spec x Hx) as [S1 _]. destruct (ilog2_spec y Hy) as [_ S2].
  assert (A : (ilog2 x < ilog2 y + 1)%Z).
  { apply two_to_lt_inv. apply Qle_lt_trans with x; [exact S1|].
    apply Qle_lt_trans with y; assumption. }
  lia.
Qed.


Lemma rne_of_int (q : Q) (z : Z) : q == inject_Z z -> rne q = z.
Proof.
  intros H. unfold rne.
  assert (Hf : Qfloor q = z) by (rewrite H; apply Qfloor_Z).
  rewrite Hf.
  assert (Hc : (q - inject_Z z ?= 1 # 2) = Lt).
  { apply Qlt_alt. rewrite H. unfold Qminus. rewrite Qplus_opp_r. reflexivity. }
  rewrite Hc. reflexivity.
Qed.

Lemma rne_le (q1 q2 : Q) : q1 <= q2 -> (rne q1 <= rne q2)%Z.
Proof.
  intros Hle. pose proof (Qfloor_resp_le _ _ Hle) as Hf. unfold rne.
  set (f1 := Qfloor q1) in *. set (f2 := Qfloor q2) in *.
  destruct (Z.eq_dec f1 f2) as [E|Hne].
  - rewrite <- E.
    assert (Hr : q1 - inject_Z f1 <= q2 - inject_Z f1) by lra.
    destruct (q1 - inject_Z f1 ?= 1 # 2) eqn:C1;
      [apply Qeq_alt in C1 | apply Qlt_alt in C1 | apply Qgt_alt in C1];
      (destruct (q2 - inject_Z f1 ?= 1 # 2) eqn:C2;
       [apply Qeq_alt in C2 | apply Qlt_alt in C2 | apply Qgt_alt in C2]);
      try (destruct (Z.even f1)); try lia; exfalso; lra.
  - assert (Hlt : (f1 + 1 <= f2)%Z) by lia.
    destruct (q1 - inject_Z f1 ?= 1 # 2); destruct (q2 - inject_Z f2 ?= 1 # 2);
      try (destruct (Z.even f1)); try (destruct (Z.even f2)); lia.
Qed.

Lemma rne_ge_int (q : Q) (z : Z) : inject_Z z <= q -> (z <= rne q)%Z.
Proof.
  intros H. pose proof (rne_le _ _ H) as Hle.
  rewrite (rne_of_int (inject_Z z) z) in Hle by reflexivity. exact Hle.
Qed.

Lemma rne_le_int (q : Q) (z : Z) : q <= inject_Z z -> (rne q <= z)%Z.
Proof.
  intros H. pose proof (rne_le _ _ H) as Hle.
  rewrite (rne_of_int (inject_Z z) z) in Hle by reflexivity. exact Hle.
Qed.

(** The 53 bits of a positive rational. *)
Lemma scaled_bounds (x : Q) :
  0 < x ->
  two_to 52 <= x / two_to (ilog2 x - 52)
  /\ x / two_to (ilog2 x - 52) < two_to 53.
Proof.
  intros Hx. destruct (ilog2_spec x Hx) as [S1 S2].
  pose proof (two_to_pos (ilog2 x - 52)) as Hp.
  assert (E1 : two_to (ilog2 x) == two_to 52 * two_to (ilog2 x - 52)).
  { rewrite <- two_to_plus. f_equiv. lia. }
  assert (E2 : two_to (ilog2 x + 1) == two_to 53 * two_to (ilog2 x - 52)).
  { rewrite <- two_to_plus. f_equiv. lia. }
  split.
  - apply Qle_shift_div_l; [exact Hp|]. rewrite <- E1. exact S1.
  - apply Qlt_shift_div_r; [exact Hp|]. rewrite <- E2. exact S2.
Qed.

Lemma round_pos_bounds (x : Q) :
  0 < x ->
  two_to (ilog2 x) <= round_pos x /\ round_pos x <= two_to (ilog2 x + 1).
Proof.
  intros Hx. destruct (scaled_bounds x Hx) as [B1 B2]. unfold round_pos.
  set (e := (ilog2 x - 52)%Z) in *.
  pose proof (two_to_pos e) as Hp.
  assert (E52 : two_to 52 == inject_Z (2 ^ 52)) by (apply two_to_nonneg; lia).
  assert (E53 : two_to 53 == inject_Z (2 ^ 53)) by (apply two_to_nonneg; lia).
  assert (M1 : (2 ^ 52 <= rne (x / two_to e))%Z).
  { apply rne_ge_int. rewrite <- E52. exact B1. }
  assert (M2 : (rne (x / two_to e) <= 2 ^ 53)%Z).
  { apply rne_le_int. rewrite <- E53. apply Qlt_le_weak. exact B2. }
  split.
  - replace (ilog2 x) with (52 + e)%Z by (unfold e; lia).
    rewrite two_to_plus. apply Qmult_le_compat_r; [|apply Qlt_le_weak, Hp].
    rewrite E52. rewrite <- Zle_Qle. exact M1.
  - replace (ilog2 x + 1)%Z with (53 + e)%Z by (unfold e; lia).
    rewrite two_to_plus. apply Qmult_le_compat_r; [|apply Qlt_le_weak, Hp].
    rewrite E53. rewrite <- Zle_Qle. exact M2.
Qed.

Lemma round_pos_le (x y : Q) :
  0 < x -> x <= y -> round_pos x <= round_pos y.
Proof.
  intros Hx Hxy.
  assert (Hy : 0 < y) by (apply Qlt_le_trans with x; assumption).
  pose proof (ilog2_le x y Hx Hxy) as He.
  destruct (Z.eq_dec (ilog2 x) (ilog2 y)) as [E|Hne].
  - unfold round_pos. rewrite E.
    pose proof (two_to_pos (ilog2 y - 52)) as Hp.
    apply Qmult_le_compat_r; [|apply Qlt_le_weak, Hp].
    rewrite <- Zle_Qle. apply rne_le.
    apply Qmult_le_compat_r; [exact Hxy|].
    apply Qlt_le_weak, Qinv_lt_0_compat, Hp.
  - destruct (round_pos_bounds x Hx) as [_ U].
    destruct (round_pos_bounds y Hy) as [L _].
    apply Qle_trans with (two_to (ilog2 x + 1)); [exact U|].
    apply Qle_trans with (two_to (ilog2 y)); [|exact L].
    apply two_to_le. lia.
Qed.

Lemma round_pos_pos (x : Q) : 0 < x -> 0 < round_pos x.
Proof.
  intros Hx. destruct (round_pos_bounds x Hx) as [L _].
  apply Qlt_le_trans with (two_to (ilog2 x)); [apply two_to_pos | exact L].
Qed.

Lemma Qnum_sign (x : Q) :
  match Qnum x with
  | Z0 => x == 0
  | Zpos _ => 0 < x
  | Zneg _ => x < 0
  end.
Proof. destruct x as [[|p|p] d]; unfold Qeq, Qlt; simpl; lia. Qed.

(** Rounding keeps the order. *)
Lemma round_le (x y : Q) : x <= y -> round x <= round y.
Proof.
  intros Hxy. unfold round.
  pose proof (Qnum_sign x) as Sx. pose proof (Qnum_sign y) as Sy.
  destruct (Qnum x); destruct (Qnum y); try lra.
  - apply Qlt_le_weak, round_pos_pos, Sy.
  - apply round_pos_le; assumption.
  - assert (0 < round_pos (- x)) by (apply round_pos_pos; lra). lra.
  - assert (0 < round_pos (- x)) by (apply round_pos_pos; lra).
    assert (0 < round_pos y) by (apply round_pos_pos; lra). lra.
  - assert (round_pos (- y) <= round_pos (- x)) by (apply round_pos_le; lra).
    lra.
Qed.


(** A number with at most 53 bits is a double. *)
Lemma round_pos_exact (x : Q) (m e : Z) :
  x == inject_Z m * two_to e -> (0 < m < 2 ^ 53)%Z -> round_pos x == x.
Proof.
  intros Hx [Hm0 Hm].
  set (l := Z.log2 m).
  destruct (Z.log2_spec m Hm0) as [L1 L2]. fold l in L1, L2.
  assert (Hl0 : (0 <= l)%Z) by apply Z.log2_nonneg.
  assert (Hl : (l < 53)%Z) by (apply Z.log2_lt_pow2; [exact Hm0 | exact Hm]).
  pose proof (two_to_pos e) as Hp.
  assert (El : two_to l == inject_Z (2 ^ l)) by (apply two_to_nonneg; lia).
  assert (El1 : two_to (l + 1) == inject_Z (2 ^ (l + 1)))
    by (apply two_to_nonneg; lia).
  assert (Hlog : ilog2 x = (l + e)%Z).
  { apply ilog2_unique; rewrite Hx.
    - rewrite two_to_plus, El. apply Qmult_le_compat_r;
        [rewrite <- Zle_Qle; exact L1 | apply Qlt_le_weak, Hp].
    - replace (l + e + 1)%Z with (l + 1 + e)%Z by lia.
      rewrite two_to_plus, El1. apply Qmult_lt_r; [exact Hp|].
      rewrite <- Zlt_Qlt. replace (l + 1)%Z with (Z.succ l) by lia. exact L2. }
  unfold round_pos. rewrite Hlog.
  assert (Ek : two_to (52 - l) == inject_Z (2 ^ (52 - l)))
    by (apply two_to_nonneg; lia).
  assert (Hs : x / two_to (l + e - 52) == inject_Z (m * 2 ^ (52 - l))).
  { rewrite inject_Z_mult, <- Ek, Hx.
    assert (Esplit : two_to e == two_to (52 - l) * two_to (l + e - 52)).
    { rewrite <- two_to_plus. f_equiv. lia. }
    rewrite Esplit. field.
    pose proof (two_to_pos (l + e - 52)). lra. }
  rewrite (rne_of_int _ _ Hs). rewrite inject_Z_mult, <- Ek, Hx.
  assert (Esplit : two_to e == two_to (52 - l) * two_to (l + e - 52)).
  { rewrite <- two_to_plus. f_equiv. lia. }
  rewrite Esplit. ring.
Qed.

Lemma round_exact (x : Q) (m e : Z) :
  x == inject_Z m * two_to e -> (Z.abs m < 2 ^ 53)%Z -> round x == x.
Proof.
  intros Hx Hm. unfold round. pose proof (Qnum_sign x) as Sx.
  pose proof (two_to_pos e) as Hp.
  destruct (Qnum x).
  - symmetry. exact Sx.
  - apply (round_pos_exact x m e Hx). split; [|lia].
    destruct (Z.lt_trichotomy m 0) as [H|[H|H]]; [| |exact H]; exfalso.
    + assert (inject_Z m < 0) by (unfold Qlt; simpl; lia). nra.
    + subst m. assert (x == 0) by (rewrite Hx; change (inject_Z 0) with 0; ring).
      lra.
  - assert (Hneg : - x == inject_Z (- m) * two_to e)
      by (rewrite inject_Z_opp, Hx; ring).
    rewrite (round_pos_exact (- x) (- m) e Hneg); [ring|]. split; [|lia].
    destruct (Z.lt_trichotomy m 0) as [H|[H|H]]; [lia| |]; exfalso.
    + subst m. assert (x == 0) by (rewrite Hx; change (inject_Z 0) with 0; ring).
      lra.
    + assert (0 < inject_Z m) by (unfold Qlt; simpl; lia). nra.
Qed.

Lemma round_int (z : Z) :
  (Z.abs z < 2 ^ 53)%Z -> round (inject_Z z) == inject_Z z.
Proof.
  intros H. apply (round_exact _ z 0); [|exact H].
  change (two_to 0) with 1. ring.
Qed.


(** *** Ages *)

Lemma total_seconds_le (a b : Z) :
  (a <= b)%Z -> total_seconds a <= total_seconds b.
Proof.
  intros H. unfold total_seconds, truediv. apply round_le.
  apply Qmult_le_compat_r; [rewrite <- Zle_Qle; exact H | discriminate].
Qed.

Lemma div_int_le (x y : Q) (n : Z) :
  (0 < n)%Z -> x <= y -> div_int x n <= div_int y n.
Proof.
  intros Hn H. unfold div_int. apply round_le.
  apply Qmult_le_compat_r; [exact H|].
  apply Qlt_le_weak, Qinv_lt_0_compat. unfold Qlt. simpl. lia.
Qed.

(** The age in hours grows with the age. *)
Lemma age_hours_le (t1 c1 t2 c2 : Z) :
  (t1 - c1 <= t2 - c2)%Z -> age_hours t1 c1 <= age_hours t2 c2.
Proof.
  intros H. unfold age_hours. apply div_int_le; [lia|].
  apply total_seconds_le, H.
Qed.

(** An age of at most [h] hours is not above [h] as a float. *)
Lemma age_at_most (h t c : Z) :
  (Z.abs h < 2 ^ 40)%Z -> (t - c <= h * 3600000000)%Z ->
  age_hours t c <= inject_Z h.
Proof.
  intros Hh Hage.
  assert (Hs : total_seconds (t - c) <= inject_Z (h * 3600)).
  { rewrite <- (round_int (h * 3600)) by lia.
    unfold total_seconds, truediv. apply round_le.
    apply Qle_shift_div_r; [reflexivity|].
    rewrite <- inject_Z_mult, <- Zle_Qle. lia. }
  unfold age_hours, div_int. rewrite <- (round_int h) by lia.
  apply round_le. apply Qle_shift_div_r; [reflexivity|].
  rewrite <- inject_Z_mult. exact Hs.
Qed.

(** An age of [h] hours and a second is above [h] as a float. *)
Lemma age_over (h t c : Z) :
  (Z.abs h < 2 ^ 40)%Z -> (h * 3600000000 + 1000000 <= t - c)%Z ->
  inject_Z h < age_hours t c.
Proof.
  intros Hh Hage.
  assert (Hs : inject_Z (h * 3600 + 1) <= total_seconds (t - c)).
  { rewrite <- (round_int (h * 3600 + 1)) by lia.
    unfold total_seconds, truediv. apply round_le.
    apply Qle_shift_div_l; [reflexivity|].
    rewrite <- inject_Z_mult, <- Zle_Qle. lia. }
  set (r := inject_Z (h * 4096 + 1) * two_to (-12)).
  assert (Er : round r == r) by (apply (round_exact r (h * 4096 + 1) (-12));
                                  [reflexivity | lia]).
  assert (Hr : inject_Z h < r).
  { unfold r. rewrite inject_Z_plus, inject_Z_mult.
    change (two_to (-12)) with (1 # 4096). change (inject_Z 4096) with (4096 # 1).
    change (inject_Z 1) with 1. lra. }
  apply Qlt_le_trans with r; [exact Hr|]. rewrite <- Er.
  unfold age_hours, div_int. apply round_le.
  apply Qle_shift_div_l; [reflexivity|].
  apply Qle_trans with (inject_Z (h * 3600 + 1)); [|exact Hs].
  unfold r. rewrite !inject_Z_plus, !inject_Z_mult.
  change (two_to (-12)) with (1 # 4096). change (inject_Z 4096) with (4096 # 1).
  change (inject_Z 3600) with (3600 # 1). change (inject_Z 1) with 1. lra.
Qed.

(** Two values at which the rounding shows: an age of five million hours
    and a microsecond is five million hours as a float, and 1.001 seconds
    are 1000 milliseconds once multiplied and cut off. *)
Lemma rounding_shows :
  age_hours (5000000 * 3600000000 + 1) 0 == inject_Z 5000000
  /\ elapsed_ms 1001000 0 = 1000%Z.
Proof. split; vm_compute; reflexivity. Qed.

End FloatFacts.

(** ** The session workflow *)

Section WorkflowFacts.
Import PyStr CodeGenerator Workflow WorkflowSpec Samples.

Ltac session_simpl :=
  cbn [set_current_state set_iteration_count set_original_ticket
       set_ticket_analysis set_generated_code set_user_feedback_history
       set_updated_at set_total_tokens_used set_error_messages
       _update_session mark_failed
       session_id ticket_key current_state iteration_count max_iterations
       original_ticket ticket_analysis generated_code user_feedback_history
       created_at updated_at total_tokens_used error_messages] in *.

Lemma error_response_on_bound (session_id msg : string)
    (session : CodeGenerationSession) (sessions : Store) :
  (_create_error_response session_id msg (<[session_id := session]> sessions)).1
  = <[session_id := mark_failed msg session]> sessions.
Proof. unfold _create_error_response. simpl. apply alter_insert_eq. Qed.

(** An unknown identifier leaves the dictionary as it is. *)
Lemma error_response_unknown (session_id msg : string) (sessions : Store) :
  sessions !! session_id = None ->
  (_create_error_response session_id msg sessions).1 = sessions.
Proof.
  intros H. unfold _create_error_response. cbn [fst].
  apply map_eq. intros j. rewrite lookup_alter.
  case_decide; [subst; rewrite H|]; reflexivity.
Qed.

(** *** The generation step *)

(** Files come back only for an analysis object of the first class. *)
Lemma generated_needs_first_class (env : Collaborators)
    (a : JiraTicketAnalysis) (options : GenerationOptions) :
  _generate_code_from_analysis env a options <> [] ->
  exists further, first_class_fields a = Some further.
Proof.
  unfold _generate_code_from_analysis, _build_generation_prompt.
  destruct (first_class_fields a) as [further|]; [|intros H; contradiction].
  intros _. exists further. reflexivity.
Qed.

(** The response of a successful start passes the validation. *)
Lemma start_response_valid (env : Collaborators) (a : JiraTicketAnalysis)
    (options : GenerationOptions) (f : GeneratedFile) (fs : list GeneratedFile)
    (response : JiraAgentResponse) :
  _generate_code_from_analysis env a options = f :: fs ->
  resp_ticket_analysis response = Some a ->
  new_JiraAgentResponse response = Returns response.
Proof.
  intros Hg Ha.
  destruct (generated_needs_first_class env a options) as [further Hf];
    [rewrite Hg; discriminate|].
  unfold new_JiraAgentResponse. rewrite Ha, Hf. reflexivity.
Qed.

(** *** What every reachable dictionary satisfies *)

Lemma store_ok_insert (sid : string) (s : CodeGenerationSession)
    (sessions : Store) :
  session_ok sid s -> store_ok sessions -> store_ok (<[sid := s]> sessions).
Proof.
  intros Hs Hm i x. rewrite lookup_insert. case_decide.
  - intros [= <-]. subst. exact Hs.
  - apply Hm.
Qed.

Lemma session_ok_failed (sid msg : string) (s : CodeGenerationSession) :
  session_id s = sid -> session_ok sid (mark_failed msg s).
Proof. intros H. split; [exact H|]. session_simpl. discriminate. Qed.

Lemma store_ok_error_response (sid msg : string) (sessions : Store) :
  store_ok sessions -> store_ok (_create_error_response sid msg sessions).1.
Proof.
  intros Hm i x. unfold _create_error_response. cbn [fst].
  rewrite lookup_alter. case_decide.
  - subst. destruct (sessions !! i) as [s|] eqn:E; [|discriminate].
    intros [= <-]. apply session_ok_failed. apply (Hm i s E).
  - apply Hm.
Qed.

Ltac failed_branch Hm :=
  rewrite error_response_on_bound; apply store_ok_insert;
  [apply session_ok_failed; reflexivity | exact Hm].

Lemma start_ok (env : Collaborators) (clock : nat -> Z) (sid : string)
    (request : JiraAgentRequest) (sessions : Store) :
  store_ok sessions ->
  store_ok (start_jira_agent_process env clock sid request sessions).1.
Proof.
  intros Hm. unfold start_jira_agent_process.
  destruct (session_config request) as [config|];
    [|apply store_ok_error_response, Hm].
  destruct (jira_initialize env _) as [[|]|]; try failed_branch Hm.
  destruct (fetch_ticket env _) as [[t|]|]; try failed_branch Hm.
  destruct (analyze_ticket env t) as [[a|]|]; try failed_branch Hm.
  destruct (_generate_code_from_analysis env a _) as [|f fs] eqn:Eg;
    try failed_branch Hm.
  rewrite (start_response_valid _ _ _ _ _ _ Eg) by reflexivity.
  cbn [fst]. apply store_ok_insert; [|exact Hm].
  split; [reflexivity|]. session_simpl. discriminate.
Qed.

Lemma regenerate_keeps_id (env : Collaborators)
    (session : CodeGenerationSession) (fb : UserFeedback) :
  session_id (_regenerate_code_with_feedback env session fb).1
  = session_id session.
Proof.
  unfold _regenerate_code_with_feedback.
  destruct (llm_service env) as [g|]; [|reflexivity].
  destruct (g _ _ _); reflexivity.
Qed.

Lemma approval_ok (env : Collaborators) (clock : nat -> Z)
    (approval_request : ApprovalRequest) (sessions : Store) :
  store_ok sessions ->
  store_ok (handle_user_approval env clock approval_request sessions).1.
Proof.
  intros Hm. unfold handle_user_approval.
  destruct (sessions !! areq_session_id approval_request) as [s|] eqn:Es;
    [|apply store_ok_error_response, Hm].
  destruct (Hm _ _ Es) as [Hid _].
  destruct (approval_status (feedback approval_request)).
  - rewrite error_response_on_bound. apply store_ok_insert; [|exact Hm].
    apply session_ok_failed. exact Hid.
  - cbn [fst]. apply store_ok_insert; [|exact Hm].
    split; [exact Hid|]. session_simpl. discriminate.
  - case_bool_decide.
    + rewrite error_response_on_bound. apply store_ok_insert; [|exact Hm].
      apply session_ok_failed. exact Hid.
    + match goal with
      | |- context [_regenerate_code_with_feedback env ?x ?fb] =>
          pose proof (regenerate_keeps_id env x fb) as Hid';
          destruct (_regenerate_code_with_feedback env x fb) as [s' files]
      end.
      cbn [fst] in Hid'. session_simpl. rewrite Hid in Hid'.
      destruct files as [|f fs].
      * rewrite error_response_on_bound. apply store_ok_insert; [|exact Hm].
        apply session_ok_failed. exact Hid'.
      * cbn [fst]. apply store_ok_insert; [|exact Hm].
        split; [exact Hid'|]. session_simpl. discriminate.
Qed.

Lemma store_ok_cleanup (current_time max_age_hours : Z) (sessions : Store) :
  store_ok sessions ->
  store_ok (cleanup_old_sessions current_time max_age_hours sessions).
Proof.
  intros Hm i x. unfold cleanup_old_sessions.
  rewrite map_lookup_filter_Some. intros [Hx _]. apply (Hm i x Hx).
Qed.

Lemma store_ok_delete (sid : string) (sessions : Store) :
  store_ok sessions -> store_ok (delete sid sessions).
Proof.
  intros Hm i x. rewrite lookup_delete_Some. intros [_ Hx]. apply (Hm i x Hx).
Qed.

Lemma reachable_ok (sessions : Store) : reachable sessions -> store_ok sessions.
Proof.
  induction 1.
  - intros i x. rewrite lookup_empty. discriminate.
  - apply start_ok. assumption.
  - apply approval_ok. assumption.
  - apply store_ok_cleanup. assumption.
  - apply store_ok_delete. assumption.
Qed.

(** *** Approval and rejection *)

(** C1, as stated, fails: an approval submitted for a session that is
    already [COMPLETED] succeeds, and is added to the feedback history. *)
Lemma approval_on_completed_session_succeeds :
  (let sessions : Store := {[ "s1" := session_1 COMPLETED 1 5 ]} in
   let result :=
     handle_user_approval env_ok (still 0) (approval_for_s1 APPROVED) sessions in
   resp_success result.2 = true
   /\ (user_feedback_history <$> sessions !! "s1") = Some []
   /\ (user_feedback_history <$> result.1 !! "s1")
      = Some [feedback_with APPROVED])
  /\ ~ approval_needs_awaiting_state.
Proof.
  split; [repeat split|].
  intros H.
  destruct (H env_ok (still 0) (approval_for_s1 APPROVED)
              {[ "s1" := session_1 COMPLETED 1 5 ]} (session_1 COMPLETED 1 5))
    as [Hfail _]; [reflexivity | discriminate |].
  vm_compute in Hfail. discriminate.
Qed.

(** C1 (amended). [handle_user_approval] does not look at the state of the
    session: for an existing session the response and the resulting
    dictionary are the same whatever state the session was in. Whatever the
    decision and whatever the outcome, the feedback is appended to the
    history of the session. In particular an approval of a session in any
    state, [COMPLETED] and [FAILED] included, succeeds: the session becomes
    [COMPLETED], the feedback is appended to its history, and its iteration
    count and files stay as they were. *)
Theorem approval_ignores_current_state (env : Collaborators) (clock : nat -> Z)
    (approval_request : ApprovalRequest) (sessions : Store)
    (session : CodeGenerationSession) (st : WorkflowState) :
  sessions !! areq_session_id approval_request = Some session ->
  handle_user_approval env clock approval_request
      (<[areq_session_id approval_request := set_current_state st session]>
         sessions)
    = handle_user_approval env clock approval_request sessions
  /\ (exists session',
        (handle_user_approval env clock approval_request sessions).1
          !! areq_session_id approval_request = Some session'
        /\ user_feedback_history session'
           = user_feedback_history session ++ [feedback approval_request])
  /\ (approval_status (feedback approval_request) = APPROVED ->
      let result := handle_user_approval env clock approval_request sessions in
      resp_success result.2 = true
      /\ resp_current_state result.2 = COMPLETED
      /\ exists session',
           result.1 !! areq_session_id approval_request = Some session'
           /\ current_state session' = COMPLETED
           /\ iteration_count session' = iteration_count session
           /\ generated_code session' = generated_code session
           /\ user_feedback_history session'
              = user_feedback_history session ++ [feedback approval_request]).
Proof.
  intros Hs. split; [|split].
  - unfold handle_user_approval. rewrite lookup_insert_eq, Hs.
    destruct (approval_status (feedback approval_request)).
    + unfold _create_error_response. session_simpl.
      rewrite !alter_insert_eq, insert_insert_eq. reflexivity.
    + rewrite insert_insert_eq. reflexivity.
    + session_simpl. case_bool_decide.
      * unfold _create_error_response.
        rewrite !alter_insert_eq, insert_insert_eq. reflexivity.
      * match goal with
        | |- (let '(_, _) := ?a in _) = (let '(_, _) := ?b in _) =>
            change a with b; destruct b as [s' files]
        end.
        destruct files.
        -- unfold _create_error_response.
           rewrite !alter_insert_eq, insert_insert_eq. reflexivity.
        -- rewrite insert_insert_eq. reflexivity.
  - unfold handle_user_approval. rewrite Hs.
    destruct (approval_status (feedback approval_request)).
    + rewrite error_response_on_bound, lookup_insert_eq.
      eexists. split; reflexivity.
    + cbn [fst]. rewrite lookup_insert_eq. eexists. split; reflexivity.
    + case_bool_decide.
      * rewrite error_response_on_bound, lookup_insert_eq.
        eexists. split; reflexivity.
      * unfold _regenerate_code_with_feedback.
        destruct (llm_service env) as [g|].
        -- destruct (g _ _ _) as [r|]; session_simpl.
           ++ unfold _parse_improved_code_response.
              destruct (generated_code session) as [|f fs]; cbn [List.map].
              ** rewrite error_response_on_bound, lookup_insert_eq.
                 eexists. split; reflexivity.
              ** cbn [fst]. rewrite lookup_insert_eq.
                 eexists. split; reflexivity.
           ++ rewrite error_response_on_bound, lookup_insert_eq.
              eexists. split; reflexivity.
        -- rewrite error_response_on_bound, lookup_insert_eq.
           eexists. split; reflexivity.
  - intros Happ. cbv zeta. unfold handle_user_approval. rewrite Hs, Happ.
    cbn [fst snd resp_success resp_current_state]. rewrite lookup_insert_eq.
    split; [reflexivity|]. split; [reflexivity|].
    eexists. split; [reflexivity|]. repeat split.
Qed.

Lemma approval_ignores_current_state_witness :
  let sessions : Store := {[ "s1" := session_1 FAILED 1 5 ]} in
  let result :=
    handle_user_approval env_ok (still 9) (approval_for_s1 APPROVED) sessions in
  resp_success result.2 = true /\ resp_current_state result.2 = COMPLETED.
Proof.
  destruct (approval_ignores_current_state env_ok (still 9) (approval_for_s1 APPROVED)
              {[ "s1" := session_1 FAILED 1 5 ]} (session_1 FAILED 1 5)
              AWAITING_APPROVAL) as (_ & _ & H); [reflexivity|].
  destruct (H eq_refl) as (H1 & H2 & _). split; assumption.
Defined.

(** C2. For a session awaiting approval whose iteration count has reached
    [max_iterations], a rejection fails the session: the response reports
    failure with the message [Maximum iterations (N) reached without
    approval], where [N] is [max_iterations] in decimal; the session is
    [FAILED], holds that message, and its iteration count is unchanged. *)
Theorem rejection_at_iteration_limit (env : Collaborators) (clock : nat -> Z)
    (approval_request : ApprovalRequest) (sessions : Store)
    (session : CodeGenerationSession) :
  sessions !! areq_session_id approval_request = Some session ->
  current_state session = AWAITING_APPROVAL ->
  max_iterations session <= iteration_count session ->
  approval_status (feedback approval_request) = REJECTED ->
  let result := handle_user_approval env clock approval_request sessions in
  let ceiling := of_int (max_iterations session) in
  resp_success result.2 = false
  /\ resp_current_state result.2 = FAILED
  /\ resp_message result.2
     = "Maximum iterations (" +:+ ceiling +:+ ") reached without approval"
  /\ contains ceiling (resp_message result.2) = true
  /\ exists session',
       result.1 !! areq_session_id approval_request = Some session'
       /\ current_state session' = FAILED
       /\ iteration_count session' = iteration_count session
       /\ In (resp_message result.2) (error_messages session').
Proof.
  intros Hs _ Hlimit Hrej. cbv zeta.
  unfold handle_user_approval. rewrite Hs, Hrej.
  rewrite bool_decide_true by (session_simpl; exact Hlimit).
  session_simpl.
  split; [reflexivity|]. split; [reflexivity|]. split; [reflexivity|].
  split; [apply contains_app|].
  rewrite error_response_on_bound, lookup_insert_eq.
  eexists. split; [reflexivity|]. split; [reflexivity|]. split; [reflexivity|].
  session_simpl. apply in_or_app. right. left. reflexivity.
Qed.

Lemma rejection_at_iteration_limit_witness :
  let sessions : Store := {[ "s1" := session_1 AWAITING_APPROVAL 5 5 ]} in
  let result :=
    handle_user_approval env_ok (still 9) (approval_for_s1 REJECTED) sessions in
  resp_success result.2 = false
  /\ resp_message result.2 = "Maximum iterations (5) reached without approval"
  /\ (current_state <$> result.1 !! "s1") = Some FAILED
  /\ (iteration_count <$> result.1 !! "s1") = Some 5.
Proof.
  destruct (rejection_at_iteration_limit env_ok (still 9) (approval_for_s1 REJECTED)
              {[ "s1" := session_1 AWAITING_APPROVAL 5 5 ]}
              (session_1 AWAITING_APPROVAL 5 5))
    as (H1 & _ & H3 & _ & s' & Hs' & Hst & Hit & _);
    [reflexivity | reflexivity | reflexivity | reflexivity |].
  cbv zeta. split; [exact H1|]. split; [exact H3|].
  change (areq_session_id (approval_for_s1 REJECTED)) with "s1" in Hs'.
  rewrite Hs'. simpl. rewrite Hst, Hit. split; reflexivity.
Defined.

(** C3. For a session awaiting approval whose iteration count is below
    [max_iterations], held by the service, a rejection for which the text
    generator is set and answers regenerates: the response reports success
    with a non-empty file list; the session awaits approval again, its
    iteration count is one more, and it holds the files of the response. *)
Theorem rejection_below_limit_regenerates (env : Collaborators) (clock : nat -> Z)
    (approval_request : ApprovalRequest) (sessions : Store)
    (session : CodeGenerationSession)
    (generate_response : string -> string -> Z -> outcome LLMResponse)
    (r : LLMResponse) :
  reachable sessions ->
  sessions !! areq_session_id approval_request = Some session ->
  current_state session = AWAITING_APPROVAL ->
  iteration_count session < max_iterations session ->
  approval_status (feedback approval_request) = REJECTED ->
  llm_service env = Some generate_response ->
  generate_response
      (_build_improvement_prompt session (feedback approval_request))
      improver_system_message 3000 = Returns r ->
  let result := handle_user_approval env clock approval_request sessions in
  resp_success result.2 = true
  /\ resp_current_state result.2 = AWAITING_APPROVAL
  /\ resp_generated_code result.2 <> []
  /\ exists session',
       result.1 !! areq_session_id approval_request = Some session'
       /\ current_state session' = AWAITING_APPROVAL
       /\ iteration_count session' = iteration_count session + 1
       /\ generated_code session' <> []
       /\ resp_generated_code result.2 = generated_code session'.
Proof.
  intros Hreach Hs Hstate Hlt Hrej Hllm Hgen. cbv zeta.
  destruct (reachable_ok _ Hreach _ _ Hs) as [_ Hcode].
  specialize (Hcode Hstate).
  unfold handle_user_approval. rewrite Hs, Hrej.
  rewrite bool_decide_false by (session_simpl; lia).
  unfold _regenerate_code_with_feedback. rewrite Hllm.
  change (_build_improvement_prompt _ (feedback approval_request))
    with (_build_improvement_prompt session (feedback approval_request)).
  rewrite Hgen. session_simpl.
  unfold _parse_improved_code_response.
  destruct (generated_code session) as [|f fs]; [contradiction|].
  cbn [List.map fst snd resp_success resp_current_state resp_generated_code].
  rewrite lookup_insert_eq.
  split; [reflexivity|]. split; [reflexivity|]. split; [discriminate|].
  eexists. split; [reflexivity|]. session_simpl.
  repeat split. discriminate.
Qed.

Lemma rejection_below_limit_regenerates_witness :
  let sessions :=
    (start_jira_agent_process env_ok (still 0) "s1" (start_request 2) ∅).1 in
  let result :=
    handle_user_approval env_ok (still 9) (approval_for_s1 REJECTED) sessions in
  sessions !! "s1" = Some (started_session 2)
  /\ resp_success result.2 = true
  /\ (current_state <$> result.1 !! "s1") = Some AWAITING_APPROVAL
  /\ (iteration_count <$> result.1 !! "s1") = Some 2.
Proof.
  destruct (rejection_below_limit_regenerates env_ok (still 9)
              (approval_for_s1 REJECTED)
              (start_jira_agent_process env_ok (still 0) "s1" (start_request 2) ∅).1
              (started_session 2) llm_ok llm_answer)
    as (H1 & _ & _ & s' & Hs' & Hst & Hit & _);
    [apply reach_start, reach_empty | reflexivity | reflexivity | reflexivity
    | reflexivity | reflexivity | reflexivity |].
  cbv zeta. split; [reflexivity|]. split; [exact H1|].
  change (areq_session_id (approval_for_s1 REJECTED)) with "s1" in Hs'.
  rewrite Hs'. simpl. rewrite Hst, Hit. split; reflexivity.
Defined.

(** *** Failures during start *)

Lemma generation_failed_no_file (env : Collaborators)
    (a : JiraTicketAnalysis) (options : GenerationOptions) :
  generation_failed env a options ->
  _generate_code_from_analysis env a options = [].
Proof.
  unfold generation_failed, _generate_code_from_analysis.
  destruct (_build_generation_prompt a options); [|reflexivity].
  destruct (generate_code_from_requirements env _ _ _) as [g|]; [|reflexivity].
  intros [H|H]; rewrite H; [reflexivity|]. destruct (success g); reflexivity.
Qed.

Ltac failed_session :=
  rewrite error_response_on_bound, lookup_insert_eq;
  cbn [snd resp_success resp_current_state resp_message];
  split; [reflexivity|]; split; [reflexivity|];
  eexists; split; [reflexivity|]; repeat split.

(** C9. When a collaborator step of [start_jira_agent_process] fails (the
    JIRA client, the ticket fetch, the analysis or the code generation, by
    raising or by returning nothing), the call returns a response that
    reports failure in state [FAILED]; the session is in the dictionary in
    state [FAILED], its error list holds the message of the response, and
    it keeps the ticket and the analysis that the steps before the failing
    one produced. *)
Theorem start_failure_is_recorded (env : Collaborators) (clock : nat -> Z)
    (sid : string) (request : JiraAgentRequest) (sessions : Store)
    (config : gmap string Z)
    (t : option JiraTicketData) (a : option JiraTicketAnalysis) :
  session_config request = Some config ->
  collaborator_fails env request t a ->
  let result := start_jira_agent_process env clock sid request sessions in
  resp_success result.2 = false
  /\ resp_current_state result.2 = FAILED
  /\ exists session',
       result.1 !! sid = Some session'
       /\ current_state session' = FAILED
       /\ error_messages session' = [resp_message result.2]
       /\ original_ticket session' = t
       /\ ticket_analysis session' = a.
Proof.
  intros Hc Hfail. cbv zeta. unfold start_jira_agent_process. rewrite Hc.
  destruct Hfail as [Hi | Hi Hf | t Hi Hf Ha | t a Hi Hf Ha Hg].
  - destruct (jira_initialize env _) as [[|]|]; [congruence| |]; failed_session.
  - rewrite Hi.
    destruct (fetch_ticket env _) as [[t|]|];
      [exfalso; apply (Hf t); reflexivity| |]; failed_session.
  - rewrite Hi, Hf.
    destruct (analyze_ticket env t) as [[a|]|];
      [exfalso; apply (Ha a); reflexivity| |]; failed_session.
  - rewrite Hi, Hf, Ha, (generation_failed_no_file _ _ _ Hg). failed_session.
Qed.

Lemma start_failure_is_recorded_witness :
  let result :=
    start_jira_agent_process env_no_analysis (still 0) "s1" (start_request 5) ∅ in
  resp_success result.2 = false
  /\ resp_current_state result.2 = FAILED
  /\ exists session',
       result.1 !! "s1" = Some session'
       /\ current_state session' = FAILED
       /\ error_messages session' = [resp_message result.2]
       /\ original_ticket session' = Some ticket_1
       /\ ticket_analysis session' = None.
Proof.
  apply (start_failure_is_recorded env_no_analysis (still 0) "s1" (start_request 5) ∅
           {[ "max_iterations" := 5 ]} (Some ticket_1) None);
    [reflexivity|].
  apply fails_at_analysis; [reflexivity | reflexivity | discriminate].
Defined.

(** *** Regeneration from feedback *)

(** C4 (the code departs from the claim). The claim: the files of a
    regeneration are the parse of the text the generator returned.
    [_parse_improved_code_response], whose docstring reads [Parse LLM response
    containing improved code] and whose comments call it a simplified parser
    for now, does not parse. For one file [a.ts] and the answer [ok], the
    regenerated file is [a.ts] with the old content between two comments,
    while either parser turns [ok] into one default-named file holding [ok];
    no choice of options makes the two lists equal. *)
Lemma regeneration_does_not_reparse :
  (let result :=
     _regenerate_code_with_feedback env_ok (session_1 AWAITING_APPROVAL 1 5)
       (feedback_with REJECTED) in
   List.map path result.2 = ["a.ts"]
   /\ _parse_generated_content "ok" default_options
      = Returns [{| path := "generated_code.ts";
                    content := "ok";
                    file_type := "source";
                    language := "typescript";
                    description := "Generated typescript code for react";
                    size_lines := 1 |}]
   /\ List.map content (_parse_generated_code "ok" default_options) = ["ok"])
  /\ ~ regeneration_reparses_response.
Proof.
  split; [repeat split|].
  intros H.
  destruct (H env_ok (session_1 AWAITING_APPROVAL 1 5) (feedback_with REJECTED)
              llm_ok llm_answer)
    as [[options [Hp|Hp]] _]; [reflexivity | reflexivity | |].
  - vm_compute in Hp. injection Hp as _ Hcontent. discriminate Hcontent.
  - assert (Hr : List.map content (_parse_generated_code "ok" options) = ["ok"]).
    { unfold _parse_generated_code.
      replace (findall2 block_pattern "ok") with (@nil (string * string))
        by (vm_compute; reflexivity).
      reflexivity. }
    apply (f_equal (List.map content)) in Hp.
    change (llm_content llm_answer) with "ok" in Hp.
    rewrite Hr in Hp. vm_compute in Hp. discriminate Hp.
Qed.

(** What a regeneration does return when the text generator is set and
    answers: the current files of the session, one for one and in order, with
    the same path, type and language; as content the old content after a
    comment line and before a comment quoting the first 200 characters of the
    answer; the description prefixed; [size_lines] increased by 5. The tokens
    the generator reports are added to the total of the session. *)
Theorem regeneration_rewrites_current_files (env : Collaborators)
    (session : CodeGenerationSession) (feedback : UserFeedback)
    (generate_response : string -> string -> Z -> outcome LLMResponse)
    (r : LLMResponse) :
  llm_service env = Some generate_response ->
  generate_response (_build_improvement_prompt session feedback)
    improver_system_message 3000 = Returns r ->
  let result := _regenerate_code_with_feedback env session feedback in
  result.2
    = List.map
        (fun f =>
           {| path := path f;
              content := "// Improved based on user feedback" +:+ NL
                           +:+ content f +:+ NL +:+ NL
                           +:+ "// Additional improvements:" +:+ NL
                           +:+ "// " +:+ take 200 (llm_content r) +:+ "...";
              file_type := file_type f;
              language := language f;
              description := "Improved version: " +:+ description f;
              size_lines := size_lines f + 5 |})
        (generated_code session)
  /\ total_tokens_used result.1 = total_tokens_used session + tokens_used r.
Proof.
  intros Hllm Hgen. cbv zeta. unfold _regenerate_code_with_feedback.
  rewrite Hllm, Hgen. split; reflexivity.
Qed.

Lemma regeneration_rewrites_current_files_witness :
  let result :=
    _regenerate_code_with_feedback env_ok (session_1 AWAITING_APPROVAL 1 5)
      (feedback_with REJECTED) in
  List.map path result.2 = ["a.ts"]
  /\ List.map content result.2
     = ["// Improved based on user feedback" +:+ NL +:+ "x" +:+ NL +:+ NL
          +:+ "// Additional improvements:" +:+ NL +:+ "// ok..."]
  /\ total_tokens_used result.1 = 7.
Proof.
  destruct (regeneration_rewrites_current_files env_ok
              (session_1 AWAITING_APPROVAL 1 5) (feedback_with REJECTED) llm_ok
              llm_answer eq_refl eq_refl) as [Hfiles Htokens].
  cbv zeta. rewrite Hfiles, Htokens. repeat split.
Defined.

Lemma parse_improved_keeps_identity (response : string)
    (original_files : list GeneratedFile) :
  let files := _parse_improved_code_response response original_files in
  length files = length original_files
  /\ forall i f,
       original_files !! i = Some f ->
       exists f',
         files !! i = Some f'
         /\ path f' = path f /\ file_type f' = file_type f
         /\ language f' = language f.
Proof.
  cbv zeta. unfold _parse_improved_code_response. split.
  - apply length_map.
  - intros i f Hi. exists (improved_file response f).
    rewrite list_lookup_fmap, Hi. repeat split.
Qed.

(** C10. For a session with at least one file, when the text generator is
    set and answers, the regenerated list has the length of the current
    list, and its i-th file has the path, the type and the language of the
    i-th current file. *)
Theorem revision_keeps_file_identity (env : Collaborators)
    (session : CodeGenerationSession) (feedback : UserFeedback)
    (generate_response : string -> string -> Z -> outcome LLMResponse)
    (r : LLMResponse) :
  generated_code session <> [] ->
  llm_service env = Some generate_response ->
  generate_response (_build_improvement_prompt session feedback)
    improver_system_message 3000 = Returns r ->
  let files := (_regenerate_code_with_feedback env session feedback).2 in
  length files = length (generated_code session)
  /\ forall i f,
       generated_code session !! i = Some f ->
       exists f',
         files !! i = Some f'
         /\ path f' = path f /\ file_type f' = file_type f
         /\ language f' = language f.
Proof.
  intros _ Hllm Hgen. cbv zeta. unfold _regenerate_code_with_feedback.
  rewrite Hllm, Hgen. cbn [snd]. session_simpl.
  apply parse_improved_keeps_identity.
Qed.

Lemma revision_keeps_file_identity_witness :
  let files :=
    (_regenerate_code_with_feedback env_ok (session_1 AWAITING_APPROVAL 1 5)
       (feedback_with REJECTED)).2 in
  length files = 1%nat
  /\ exists f', files !! 0%nat = Some f' /\ path f' = "a.ts"
                /\ file_type f' = "source" /\ language f' = "typescript".
Proof.
  destruct (revision_keeps_file_identity env_ok
              (session_1 AWAITING_APPROVAL 1 5) (feedback_with REJECTED) llm_ok
              llm_answer) as [Hlen Hfiles];
    [discriminate | reflexivity | reflexivity |].
  split; [exact Hlen|]. apply (Hfiles 0%nat file_a). reflexivity.
Defined.

(** *** Cleaning up *)

(** C5, as stated, fails: a session that still awaits approval is removed
    once it is 25 hours old and the threshold is 24. *)
Lemma sweep_removes_awaiting_session :
  (let sessions : Store := {[ "s1" := session_1 AWAITING_APPROVAL 1 5 ]} in
   sessions !! "s1" = Some (session_1 AWAITING_APPROVAL 1 5)
   /\ cleanup_old_sessions (25 * hour) 24 sessions !! "s1" = None)
  /\ ~ sweep_only_terminal.
Proof.
  assert (Hgone : cleanup_old_sessions (25 * hour) 24
                    ({[ "s1" := session_1 AWAITING_APPROVAL 1 5 ]} : Store)
                    !! "s1" = None).
  { unfold cleanup_old_sessions. apply map_lookup_filter_None. right.
    intros x. rewrite lookup_singleton_eq. intros [= <-] Hkeep. apply Hkeep.
    unfold older_than. vm_compute. reflexivity. }
  split; [split; [apply lookup_singleton_eq | exact Hgone]|].
  intros H.
  destruct (H (25 * hour) 24 {[ "s1" := session_1 AWAITING_APPROVAL 1 5 ]}
              "s1" (session_1 AWAITING_APPROVAL 1 5)) as [Hremoved _];
    [apply lookup_singleton_eq|].
  destruct (Hremoved Hgone) as [[Hst|Hst] _]; discriminate Hst.
Qed.

(** C5 (amended). [cleanup_old_sessions] decides by the age since creation
    alone, whatever the state of the session: it removes a session exactly
    when the age in hours, the float [total_seconds() / 3600], is greater
    than [max_age_hours], and leaves every other session as it is. In exact
    terms, for a threshold below [2 ** 40] hours: a session whose age is at
    most the threshold is kept, and a session whose age is a second or more
    above the threshold is removed; in between, the rounding of the two
    divisions decides. The sweep of [JiraAgentService],
    [cleanup_completed_workflows], uses the same test on the time since the
    last update, and removes exactly the workflows that pass it and are
    [COMPLETED], [APPROVED] or [FAILED]. *)
Theorem sweep_is_by_age (current_time max_age_hours : Z) (sessions : Store)
    (sid : string) (session : CodeGenerationSession)
    (workflows : gmap string AgentService.CodeGenerationWorkflow)
    (wid : string) (w : AgentService.CodeGenerationWorkflow) :
  sessions !! sid = Some session ->
  workflows !! wid = Some w ->
  let swept := cleanup_old_sessions current_time max_age_hours sessions in
  let age := current_time - created_at session in
  (swept !! sid = None
   <-> older_than max_age_hours current_time (created_at session))
  /\ (swept !! sid = Some session
      <-> ~ older_than max_age_hours current_time (created_at session))
  /\ (Z.abs max_age_hours < 2 ^ 40 ->
      (age <= max_age_hours * 3600000000 -> swept !! sid = Some session)
      /\ (max_age_hours * 3600000000 + 1000000 <= age -> swept !! sid = None))
  /\ (AgentService.cleanup_completed_workflows current_time max_age_hours
        workflows !! wid = None
      <-> older_than max_age_hours current_time (AgentService.wf_updated_at w)
          /\ AgentService.finished (AgentService.status w))
  /\ (Z.abs max_age_hours < 2 ^ 40 ->
      max_age_hours * 3600000000 + 1000000
      <= current_time - AgentService.wf_updated_at w ->
      AgentService.finished (AgentService.status w) ->
      AgentService.cleanup_completed_workflows current_time max_age_hours
        workflows !! wid = None).
Proof.
  intros Hs Hw. cbv zeta.
  assert (Hgone :
            cleanup_old_sessions current_time max_age_hours sessions !! sid
            = None
            <-> older_than max_age_hours current_time (created_at session)).
  { unfold cleanup_old_sessions. split.
    - intros Hnone.
      destruct (decide (older_than max_age_hours current_time
                          (created_at session))) as [Hold|Hyoung];
        [exact Hold|].
      assert (Hkept : filter
                (fun kv : string * CodeGenerationSession =>
                   ~ older_than max_age_hours current_time (created_at kv.2))
                sessions !! sid = Some session)
        by (apply map_lookup_filter_Some; split; [exact Hs|exact Hyoung]).
      rewrite Hkept in Hnone. discriminate.
    - intros Hold. apply map_lookup_filter_None. right.
      intros x Hx Hkeep. rewrite Hs in Hx. injection Hx as <-.
      apply Hkeep. exact Hold. }
  assert (Hkept :
            cleanup_old_sessions current_time max_age_hours sessions !! sid
            = Some session
            <-> ~ older_than max_age_hours current_time (created_at session)).
  { unfold cleanup_old_sessions. split.
    - intros Hk. apply map_lookup_filter_Some in Hk. apply Hk.
    - intros Hyoung. apply map_lookup_filter_Some.
      split; [exact Hs|exact Hyoung]. }
  assert (Hwf :
            AgentService.cleanup_completed_workflows current_time
              max_age_hours workflows !! wid = None
            <-> older_than max_age_hours current_time
                  (AgentService.wf_updated_at w)
                /\ AgentService.finished (AgentService.status w)).
  { unfold AgentService.cleanup_completed_workflows. split.
    - intros Hnone.
      destruct (decide (older_than max_age_hours current_time
                          (AgentService.wf_updated_at w)
                        /\ AgentService.finished (AgentService.status w)))
        as [Hold|Hkeep]; [exact Hold|].
      assert (Hk : filter
                (fun kv : string * AgentService.CodeGenerationWorkflow =>
                   ~ (older_than max_age_hours current_time
                        (AgentService.wf_updated_at kv.2)
                      /\ AgentService.finished (AgentService.status kv.2)))
                workflows !! wid = Some w)
        by (apply map_lookup_filter_Some; split; [exact Hw|exact Hkeep]).
      rewrite Hk in Hnone. discriminate.
    - intros Hold. apply map_lookup_filter_None. right.
      intros x Hx Hkeep. rewrite Hw in Hx. injection Hx as <-.
      apply Hkeep. exact Hold. }
  split; [exact Hgone|]. split; [exact Hkept|]. split; [|split].
  - intros Hh. split.
    + intros Hage. apply Hkept. unfold older_than. apply Qle_not_lt.
      apply age_at_most; assumption.
    + intros Hage. apply Hgone. unfold older_than.
      apply age_over; assumption.
  - exact Hwf.
  - intros Hh Hage Hfin. apply Hwf. split; [|exact Hfin].
    unfold older_than. apply age_over; assumption.
Qed.

Lemma sweep_is_by_age_witness :
  let sessions : Store := {[ "s1" := session_1 AWAITING_APPROVAL 1 5 ]} in
  let workflows : gmap string AgentService.CodeGenerationWorkflow :=
    {[ "w1" := pending_workflow ]} in
  cleanup_old_sessions (25 * hour) 24 sessions !! "s1" = None
  /\ cleanup_old_sessions (24 * hour) 24 sessions !! "s1"
     = Some (session_1 AWAITING_APPROVAL 1 5)
  /\ AgentService.cleanup_completed_workflows (25 * hour) 24 workflows !! "w1"
     <> None.
Proof.
  cbv zeta.
  destruct (sweep_is_by_age (25 * hour) 24
              {[ "s1" := session_1 AWAITING_APPROVAL 1 5 ]} "s1"
              (session_1 AWAITING_APPROVAL 1 5)
              {[ "w1" := pending_workflow ]} "w1" pending_workflow
              (lookup_singleton_eq _ _) (lookup_singleton_eq _ _))
    as (_ & _ & Hold & Hwf & _).
  destruct (sweep_is_by_age (24 * hour) 24
              {[ "s1" := session_1 AWAITING_APPROVAL 1 5 ]} "s1"
              (session_1 AWAITING_APPROVAL 1 5)
              {[ "w1" := pending_workflow ]} "w1" pending_workflow
              (lookup_singleton_eq _ _) (lookup_singleton_eq _ _))
    as (_ & _ & Hyoung & _).
  split; [|split].
  - apply Hold; [reflexivity|]. vm_compute. discriminate.
  - apply Hyoung; [reflexivity|]. vm_compute. discriminate.
  - intros Hnone. apply Hwf in Hnone. destruct Hnone as [_ [Hf|[Hf|Hf]]];
      discriminate Hf.
Defined.

End WorkflowFacts.

(** ** More on the session workflow *)

Section MoreWorkflowFacts.
Import PyStr CodeGenerator Workflow WorkflowSpec WorkflowInvariants Samples MoreSamples.

Ltac fields_simpl :=
  cbn [set_current_state set_iteration_count set_original_ticket
       set_ticket_analysis set_generated_code set_user_feedback_history
       set_updated_at set_total_tokens_used set_error_messages
       _update_session mark_failed
       session_id ticket_key current_state iteration_count max_iterations
       original_ticket ticket_analysis generated_code user_feedback_history
       created_at updated_at total_tokens_used error_messages] in *.

(** X1. When the client initialises, the ticket is fetched, the analysis
    that comes back is an instance of the first class [JiraTicketAnalysis]
    (it has the attributes that the prompt reads) and the generator reports
    success with at least one file, [start_jira_agent_process] answers
    success in state [AWAITING_APPROVAL] with iteration 1 and the
    generator's files, and stores the session in that state, with the ticket
    and the analysis, with [max_iterations] taken from the request (5 when
    the key is missing) and with [total_tokens_used] still 0: the token
    count of the generator is not recorded. [created_at] is the first
    reading of the clock, [updated_at] the fifth, and the processing time
    is measured from the first to the sixth. *)
Theorem start_success (env : Collaborators) (clock : nat -> Z) (sid : string)
    (request : JiraAgentRequest) (sessions : Store) (config : gmap string Z)
    (t : JiraTicketData) (a : JiraTicketAnalysis)
    (further : FirstAnalysisFields) (r : GenerationResult) :
  session_config request = Some config ->
  jira_initialize env (jira_credentials request) = Returns true ->
  fetch_ticket env (req_ticket_key request) = Returns (Some t) ->
  analyze_ticket env t = Returns (Some a) ->
  first_class_fields a = Some further ->
  generate_code_from_requirements env (requirements a) (technical_specs a)
    (generation_options request) = Returns r ->
  success r = true ->
  generated_files r <> [] ->
  let result := start_jira_agent_process env clock sid request sessions in
  resp_success result.2 = true
  /\ resp_current_state result.2 = AWAITING_APPROVAL
  /\ resp_approval_required result.2 = true
  /\ resp_iteration_count result.2 = 1
  /\ resp_generated_code result.2 = generated_files r
  /\ resp_ticket_analysis result.2 = Some a
  /\ resp_tokens_used result.2 = 0
  /\ resp_processing_time_ms result.2 = elapsed_ms (clock 5%nat) (clock 0%nat)
  /\ result.1 !! sid
     = Some {| session_id := sid;
               ticket_key := req_ticket_key request;
               current_state := AWAITING_APPROVAL;
               iteration_count := 1;
               max_iterations := default 5 (config !! "max_iterations");
               original_ticket := Some t;
               ticket_analysis := Some a;
               generated_code := generated_files r;
               user_feedback_history := [];
               created_at := clock 0%nat;
               updated_at := clock 4%nat;
               total_tokens_used := 0;
               error_messages := [] |}.
Proof.
  intros Hc Hi Hf Ha Hfirst Hg Hok Hfiles. cbv zeta.
  unfold start_jira_agent_process, _generate_code_from_analysis,
    _build_generation_prompt, new_JiraAgentResponse.
  rewrite Hc, Hi, Hf, Ha, Hfirst, Hg, Hok.
  destruct (generated_files r) as [|f fs] eqn:E; [contradiction|].
  cbn [resp_ticket_analysis]. rewrite Hfirst.
  cbn [fst snd resp_success resp_current_state resp_approval_required
       resp_iteration_count resp_generated_code resp_ticket_analysis
       resp_tokens_used resp_processing_time_ms].
  fields_simpl. rewrite lookup_insert_eq. repeat split.
Qed.

Lemma start_success_witness :
  let result :=
    start_jira_agent_process env_ok (still 0) "s1" (start_request 3) ∅ in
  resp_success result.2 = true
  /\ result.1 !! "s1" = Some (started_session 3).
Proof.
  destruct (start_success env_ok (still 0) "s1" (start_request 3) ∅
              {[ "max_iterations" := 3 ]} ticket_1 analysis_1
              {| complexity_score := 3; estimated_files := 1;
                 suggested_technologies := []; dependencies := [] |}
              {| success := true; generated_files := [file_a];
                 gr_processing_time_ms := 0; llm_tokens_used := 0;
                 error_message := None; gr_warnings := [] |})
    as (H1 & _ & _ & _ & _ & _ & _ & _ & H9);
    [reflexivity | reflexivity | reflexivity | reflexivity | reflexivity
    | reflexivity | reflexivity | discriminate |].
  split; [exact H1 | exact H9].
Defined.

(** X24. With an analysis object of the class [JiraTicketAnalysis] in force,
    which is what [jira_service.py] builds, [start_jira_agent_process] never
    succeeds: the prompt cannot be built, the code generator is not asked,
    and the call answers [Failed to generate code]; the session is left
    [FAILED] with the ticket and the analysis and without files. *)
Theorem start_fails_on_class_in_force (env : Collaborators) (clock : nat -> Z)
    (sid : string) (request : JiraAgentRequest) (sessions : Store)
    (config : gmap string Z) (t : JiraTicketData) (a : JiraTicketAnalysis) :
  session_config request = Some config ->
  jira_initialize env (jira_credentials request) = Returns true ->
  fetch_ticket env (req_ticket_key request) = Returns (Some t) ->
  analyze_ticket env t = Returns (Some a) ->
  first_class_fields a = None ->
  let result := start_jira_agent_process env clock sid request sessions in
  resp_success result.2 = false
  /\ resp_current_state result.2 = FAILED
  /\ resp_message result.2 = "Failed to generate code"
  /\ result.1 !! sid
     = Some {| session_id := sid;
               ticket_key := req_ticket_key request;
               current_state := FAILED;
               iteration_count := 1;
               max_iterations := default 5 (config !! "max_iterations");
               original_ticket := Some t;
               ticket_analysis := Some a;
               generated_code := [];
               user_feedback_history := [];
               created_at := clock 0%nat;
               updated_at := clock 3%nat;
               total_tokens_used := 0;
               error_messages := ["Failed to generate code"] |}.
Proof.
  intros Hc Hi Hf Ha Hfirst. cbv zeta.
  unfold start_jira_agent_process, _generate_code_from_analysis,
    _build_generation_prompt.
  rewrite Hc, Hi, Hf, Ha, Hfirst.
  rewrite error_response_on_bound, lookup_insert_eq.
  cbn [snd resp_success resp_current_state resp_message]. fields_simpl.
  repeat split.
Qed.

Lemma start_fails_on_class_in_force_witness :
  let result :=
    start_jira_agent_process env_in_force (still 0) "s1" (start_request 3) ∅ in
  resp_success result.2 = false
  /\ resp_message result.2 = "Failed to generate code".
Proof.
  destruct (start_fails_on_class_in_force env_in_force (still 0) "s1"
              (start_request 3) ∅ {[ "max_iterations" := 3 ]} ticket_1
              (JiraService._create_fallback_analysis "ABC-1"))
    as (H1 & _ & H3 & _);
    [reflexivity | reflexivity | reflexivity | reflexivity | reflexivity |].
  split; [exact H1 | exact H3].
Defined.

(** The error response touches the session it names and no other. *)
Lemma error_response_other (sid msg : string) (sessions : Store) (other : string) :
  other <> sid ->
  (_create_error_response sid msg sessions).1 !! other = sessions !! other.
Proof.
  intros Hne. unfold _create_error_response. cbn [fst].
  apply lookup_alter_ne. congruence.
Qed.

(** X2. [start_jira_agent_process] and [handle_user_approval] leave every
    session other than the one they work on exactly as it was, on every
    path, the failing ones included. *)
Theorem operations_touch_one_session (env : Collaborators) (clock : nat -> Z)
    (sid : string) (request : JiraAgentRequest)
    (approval_request : ApprovalRequest) (sessions : Store) (other : string) :
  (other <> sid ->
   (start_jira_agent_process env clock sid request sessions).1 !! other
   = sessions !! other)
  /\ (other <> areq_session_id approval_request ->
      (handle_user_approval env clock approval_request sessions).1 !! other
      = sessions !! other).
Proof.
  split; intros Hne.
  - unfold start_jira_agent_process.
    destruct (session_config request) as [config|];
      [|apply error_response_other, Hne].
    repeat match goal with
    | |- context [match ?x with _ => _ end] => destruct x
    end;
    rewrite ?error_response_other by exact Hne;
    cbn [fst]; apply lookup_insert_ne; congruence.
  - unfold handle_user_approval.
    destruct (sessions !! areq_session_id approval_request) as [s|];
      [|apply error_response_other, Hne].
    destruct (approval_status (feedback approval_request)).
    + rewrite error_response_other by exact Hne.
      apply lookup_insert_ne. congruence.
    + cbn [fst]. apply lookup_insert_ne. congruence.
    + case_bool_decide.
      * rewrite error_response_other by exact Hne.
        apply lookup_insert_ne. congruence.
      * destruct (_regenerate_code_with_feedback env _ _) as [s' files].
        destruct files.
        -- rewrite error_response_other by exact Hne.
           apply lookup_insert_ne. congruence.
        -- cbn [fst]. apply lookup_insert_ne. congruence.
Qed.

Lemma operations_touch_one_session_witness :
  let sessions : Store :=
    {[ "s1" := session_1 AWAITING_APPROVAL 1 5 ]} in
  (start_jira_agent_process env_ok (still 0) "s2" (start_request 3) sessions).1 !! "s1"
    = Some (session_1 AWAITING_APPROVAL 1 5)
  /\ (handle_user_approval env_ok (still 0)
        {| areq_session_id := "s2"; feedback := feedback_with APPROVED |}
        sessions).1 !! "s1"
     = Some (session_1 AWAITING_APPROVAL 1 5).
Proof.
  cbv zeta.
  destruct (operations_touch_one_session env_ok (still 0) "s2" (start_request 3)
              {| areq_session_id := "s2"; feedback := feedback_with APPROVED |}
              {[ "s1" := session_1 AWAITING_APPROVAL 1 5 ]} "s1") as [H1 H2].
  split.
  - rewrite H1 by discriminate. apply lookup_singleton_eq.
  - rewrite H2 by discriminate. apply lookup_singleton_eq.
Defined.

(** X3. [handle_user_approval] for an identifier that is not in the
    dictionary answers [Session not found] with success false and state
    [FAILED], and changes nothing: no session is created and the feedback is
    recorded nowhere. *)
Theorem approval_of_unknown_session (env : Collaborators) (clock : nat -> Z)
    (approval_request : ApprovalRequest) (sessions : Store) :
  sessions !! areq_session_id approval_request = None ->
  let result := handle_user_approval env clock approval_request sessions in
  result.1 = sessions
  /\ resp_success result.2 = false
  /\ resp_current_state result.2 = FAILED
  /\ resp_message result.2 = "Session not found"
  /\ resp_generated_code result.2 = [].
Proof.
  intros Hnone. cbv zeta. unfold handle_user_approval. rewrite Hnone.
  split; [|repeat split].
  unfold _create_error_response. cbn [fst].
  apply map_eq. intros j. rewrite lookup_alter.
  case_decide; [subst; rewrite Hnone|]; reflexivity.
Qed.

Lemma approval_of_unknown_session_witness :
  let result :=
    handle_user_approval env_ok (still 0) (approval_for_s1 APPROVED) ∅ in
  result.1 = ∅ /\ resp_message result.2 = "Session not found".
Proof.
  destruct (approval_of_unknown_session env_ok (still 0) (approval_for_s1 APPROVED) ∅)
    as (H1 & _ & _ & H4 & _); [reflexivity|].
  split; [exact H1 | exact H4].
Defined.

(** X4. A rejection below the iteration limit whose regeneration fails (no
    text generator, or the generator raises) still uses up the iteration:
    the session ends [FAILED] with [iteration_count] one higher, the feedback
    in its history, its files and token count unchanged, and the message
    [Failed to regenerate code with feedback] in its error list. *)
Theorem failed_regeneration_uses_iteration (env : Collaborators) (clock : nat -> Z)
    (approval_request : ApprovalRequest) (sessions : Store)
    (session : CodeGenerationSession) :
  sessions !! areq_session_id approval_request = Some session ->
  iteration_count session < max_iterations session ->
  approval_status (feedback approval_request) = REJECTED ->
  (llm_service env = None
   \/ exists generate_response exc_type msg,
        llm_service env = Some generate_response
        /\ generate_response
             (_build_improvement_prompt session (feedback approval_request))
             improver_system_message 3000 = Raises exc_type msg) ->
  let result := handle_user_approval env clock approval_request sessions in
  resp_success result.2 = false
  /\ resp_message result.2 = "Failed to regenerate code with feedback"
  /\ exists session',
       result.1 !! areq_session_id approval_request = Some session'
       /\ current_state session' = FAILED
       /\ iteration_count session' = iteration_count session + 1
       /\ generated_code session' = generated_code session
       /\ total_tokens_used session' = total_tokens_used session
       /\ user_feedback_history session'
          = user_feedback_history session ++ [feedback approval_request]
       /\ error_messages session'
          = error_messages session ++ ["Failed to regenerate code with feedback"].
Proof.
  intros Hs Hlt Hrej Hllm. cbv zeta.
  unfold handle_user_approval. rewrite Hs, Hrej.
  rewrite bool_decide_false by (fields_simpl; lia).
  unfold _regenerate_code_with_feedback.
  destruct Hllm as [Hnone | (g & t & m & Hsome & Hraise)].
  - rewrite Hnone. unfold _create_error_response.
    cbn [fst snd resp_success resp_message].
    rewrite alter_insert_eq, lookup_insert_eq.
    split; [reflexivity|]. split; [reflexivity|].
    eexists. split; [reflexivity|]. repeat split.
  - rewrite Hsome.
    change (_build_improvement_prompt _ (feedback approval_request))
      with (_build_improvement_prompt session (feedback approval_request)).
    rewrite Hraise. unfold _create_error_response.
    cbn [fst snd resp_success resp_message].
    rewrite alter_insert_eq, lookup_insert_eq.
    split; [reflexivity|]. split; [reflexivity|].
    eexists. split; [reflexivity|]. repeat split.
Qed.

Lemma failed_regeneration_uses_iteration_witness :
  let sessions : Store := {[ "s1" := session_1 AWAITING_APPROVAL 1 5 ]} in
  let result :=
    handle_user_approval env_no_llm (still 9) (approval_for_s1 REJECTED) sessions in
  resp_success result.2 = false
  /\ (iteration_count <$> result.1 !! "s1") = Some 2
  /\ (current_state <$> result.1 !! "s1") = Some FAILED.
Proof.
  destruct (failed_regeneration_uses_iteration env_no_llm (still 9)
              (approval_for_s1 REJECTED)
              {[ "s1" := session_1 AWAITING_APPROVAL 1 5 ]}
              (session_1 AWAITING_APPROVAL 1 5))
    as (H1 & _ & s' & Hs' & Hst & Hit & _);
    [reflexivity | reflexivity | reflexivity | left; reflexivity |].
  cbv zeta. split; [exact H1|].
  change (areq_session_id (approval_for_s1 REJECTED)) with "s1" in Hs'.
  rewrite Hs'. simpl. rewrite Hst, Hit. split; reflexivity.
Defined.

(** *** What every reachable dictionary satisfies, continued *)

Lemma store_inv_insert (sid : string) (s : CodeGenerationSession)
    (sessions : Store) :
  session_inv s -> store_inv sessions -> store_inv (<[sid := s]> sessions).
Proof.
  intros Hs Hm i x. rewrite lookup_insert. case_decide.
  - intros [= <-]. exact Hs.
  - apply Hm.
Qed.

Lemma session_inv_failed (msg : string) (s : CodeGenerationSession) :
  1 <= iteration_count s ->
  (iteration_count s = 1 \/ iteration_count s <= max_iterations s) ->
  iteration_count s - 1 <= Z.of_nat (length (user_feedback_history s)) ->
  session_inv (mark_failed msg s).
Proof.
  intros H1 H2 H3. unfold session_inv. fields_simpl.
  split; [right; right; reflexivity|]. split; [exact H1|]. split; [exact H2|].
  split; [exact H3|]. intros _. destruct (error_messages s); discriminate.
Qed.

Lemma store_inv_error_response (sid msg : string) (sessions : Store) :
  store_inv sessions -> store_inv (_create_error_response sid msg sessions).1.
Proof.
  intros Hm i x. unfold _create_error_response. cbn [fst].
  rewrite lookup_alter. case_decide.
  - subst. destruct (sessions !! i) as [s|] eqn:E; [|discriminate].
    intros [= <-]. destruct (Hm i s E) as (_ & H1 & H2 & H3 & _).
    apply session_inv_failed; assumption.
  - apply Hm.
Qed.

Ltac fresh_failed Hm :=
  rewrite error_response_on_bound; apply store_inv_insert; [|exact Hm];
  apply session_inv_failed; fields_simpl; simpl; [lia | left; reflexivity | lia].

Lemma start_inv (env : Collaborators) (clock : nat -> Z) (sid : string)
    (request : JiraAgentRequest) (sessions : Store) :
  store_inv sessions ->
  store_inv (start_jira_agent_process env clock sid request sessions).1.
Proof.
  intros Hm. unfold start_jira_agent_process.
  destruct (session_config request) as [config|];
    [|apply store_inv_error_response, Hm].
  destruct (jira_initialize env _) as [[|]|]; try fresh_failed Hm.
  destruct (fetch_ticket env _) as [[t|]|]; try fresh_failed Hm.
  destruct (analyze_ticket env t) as [[a|]|]; try fresh_failed Hm.
  destruct (_generate_code_from_analysis env a _) as [|f fs] eqn:Eg;
    try fresh_failed Hm.
  rewrite (start_response_valid _ _ _ _ _ _ Eg) by reflexivity.
  cbn [fst]. apply store_inv_insert; [|exact Hm].
  unfold session_inv. fields_simpl. simpl.
  split; [left; reflexivity|]. split; [lia|]. split; [left; reflexivity|].
  split; [lia|discriminate].
Qed.

Lemma regenerate_keeps_fields (env : Collaborators)
    (session : CodeGenerationSession) (fb : UserFeedback) :
  let s' := (_regenerate_code_with_feedback env session fb).1 in
  current_state s' = current_state session
  /\ iteration_count s' = iteration_count session
  /\ max_iterations s' = max_iterations session
  /\ user_feedback_history s' = user_feedback_history session
  /\ error_messages s' = error_messages session.
Proof.
  cbv zeta. unfold _regenerate_code_with_feedback.
  destruct (llm_service env) as [g|]; [|repeat split].
  destruct (g _ _ _); repeat split.
Qed.

Lemma approval_inv (env : Collaborators) (clock : nat -> Z)
    (approval_request : ApprovalRequest) (sessions : Store) :
  store_inv sessions ->
  store_inv (handle_user_approval env clock approval_request sessions).1.
Proof.
  intros Hm. unfold handle_user_approval.
  destruct (sessions !! areq_session_id approval_request) as [s|] eqn:Es;
    [|apply store_inv_error_response, Hm].
  destruct (Hm _ _ Es) as (_ & H1 & H2 & H3 & _).
  assert (Hlen : forall fb : UserFeedback,
             Z.of_nat (length (user_feedback_history s ++ [fb]))
             = Z.of_nat (length (user_feedback_history s)) + 1)
    by (intros fb; rewrite length_app; simpl; lia).
  destruct (approval_status (feedback approval_request)).
  - rewrite error_response_on_bound. apply store_inv_insert; [|exact Hm].
    apply session_inv_failed; fields_simpl; [exact H1 | exact H2 |].
    rewrite Hlen. lia.
  - cbn [fst]. apply store_inv_insert; [|exact Hm].
    unfold session_inv. fields_simpl.
    split; [right; left; reflexivity|]. split; [exact H1|]. split; [exact H2|].
    split; [rewrite Hlen; lia | discriminate].
  - case_bool_decide as Hcmp; fields_simpl.
    + rewrite error_response_on_bound. apply store_inv_insert; [|exact Hm].
      apply session_inv_failed; fields_simpl; [exact H1 | exact H2 |].
      rewrite Hlen. lia.
    + match goal with
      | |- context [_regenerate_code_with_feedback env ?x ?fb] =>
          pose proof (regenerate_keeps_fields env x fb) as Hkeep;
          destruct (_regenerate_code_with_feedback env x fb) as [s' files]
      end.
      cbv zeta in Hkeep. cbn [fst] in Hkeep. fields_simpl.
      destruct Hkeep as (_ & Kit & Kmax & Khist & _).
      destruct files as [|f fs].
      * rewrite error_response_on_bound. apply store_inv_insert; [|exact Hm].
        apply session_inv_failed; rewrite ?Kit, ?Kmax, ?Khist, ?Hlen; lia.
      * cbn [fst]. apply store_inv_insert; [|exact Hm].
        unfold session_inv. fields_simpl.
        rewrite ?Kit, ?Kmax, ?Khist, ?Hlen.
        split; [left; reflexivity|]. split; [lia|]. split; [right; lia|].
        split; [lia | discriminate].
Qed.

Lemma reachable_inv (sessions : Store) : reachable sessions -> store_inv sessions.
Proof.
  induction 1 as [| | |t h m _ IH|sid m _ IH].
  - intros i x. rewrite lookup_empty. discriminate.
  - apply start_inv. assumption.
  - apply approval_inv. assumption.
  - intros i x. unfold cleanup_old_sessions.
    rewrite map_lookup_filter_Some. intros [Hx _]. apply (IH i x Hx).
  - intros i x. rewrite lookup_delete_Some. intros [_ Hx]. apply (IH i x Hx).
Qed.

(** X5. In every dictionary reached through start, approval, clean-up and
    deletion, whatever the collaborators do, a session's [iteration_count]
    is at least 1 and at most [max_iterations] (at most 1 when the limit is
    below 1), and never exceeds the number of feedbacks recorded plus one. *)
Theorem iteration_count_stays_bounded (sessions : Store) (sid : string)
    (session : CodeGenerationSession) :
  reachable sessions ->
  sessions !! sid = Some session ->
  1 <= iteration_count session <= Z.max 1 (max_iterations session)
  /\ iteration_count session - 1
     <= Z.of_nat (length (user_feedback_history session)).
Proof.
  intros Hr Hs. destruct (reachable_inv _ Hr _ _ Hs) as (_ & H1 & H2 & H3 & _).
  split; [lia | exact H3].
Qed.

(** X6. Between two operations every stored session is filed under its own
    [session_id] and is in one of the states [AWAITING_APPROVAL],
    [COMPLETED] and [FAILED]: the states in between are never left in the
    dictionary. A session in state [FAILED] has at least one error
    message. *)
Theorem sessions_rest_between_operations (sessions : Store) (sid : string)
    (session : CodeGenerationSession) :
  reachable sessions ->
  sessions !! sid = Some session ->
  session_id session = sid
  /\ (current_state session = AWAITING_APPROVAL
      \/ current_state session = COMPLETED
      \/ current_state session = FAILED)
  /\ (current_state session = FAILED -> error_messages session <> []).
Proof.
  intros Hr Hs. destruct (reachable_inv _ Hr _ _ Hs) as (H0 & _ & _ & _ & H4).
  destruct (reachable_ok _ Hr _ _ Hs) as [Hid _].
  split; [exact Hid|]. split; [exact H0 | exact H4].
Qed.


Lemma iteration_count_stays_bounded_witness :
  let sessions :=
    (handle_user_approval env_ok (still 9) (approval_for_s1 REJECTED)
       (start_jira_agent_process env_ok (still 0) "s1" (start_request 2) ∅).1).1 in
  exists session,
    sessions !! "s1" = Some session
    /\ 1 <= iteration_count session <= Z.max 1 (max_iterations session).
Proof.
  cbv zeta.
  destruct ((handle_user_approval env_ok (still 9) (approval_for_s1 REJECTED)
               (start_jira_agent_process env_ok (still 0) "s1" (start_request 2) ∅).1).1
              !! "s1") as [session|] eqn:E; [|vm_compute in E; discriminate].
  exists session. split; [reflexivity|].
  apply (iteration_count_stays_bounded _ "s1" session
           (reach_approval _ _ _ _ (reach_start _ _ _ _ _ reach_empty)) E).
Defined.

Lemma sessions_rest_between_operations_witness :
  let sessions :=
    (start_jira_agent_process env_no_analysis (still 0) "s1" (start_request 2) ∅).1 in
  exists session,
    sessions !! "s1" = Some session
    /\ (current_state session = AWAITING_APPROVAL
        \/ current_state session = COMPLETED
        \/ current_state session = FAILED).
Proof.
  cbv zeta.
  destruct ((start_jira_agent_process env_no_analysis (still 0) "s1" (start_request 2)
               ∅).1 !! "s1") as [session|] eqn:E;
    [|vm_compute in E; discriminate].
  exists session. split; [reflexivity|].
  apply (sessions_rest_between_operations _ "s1" session
           (reach_start _ _ _ _ _ reach_empty) E).
Defined.

(** X7. Deleting a session succeeds exactly once: after it, the status
    query for that identifier answers nothing and a second deletion is
    refused, while the status of every other session is unchanged. *)
Theorem deleted_session_is_unknown (now : Z) (sid : string)
    (sessions sessions' : Store) :
  delete_session sid sessions = Some sessions' ->
  get_session_status now sid sessions <> Returns None
  /\ get_session_status now sid sessions' = Returns None
  /\ delete_session sid sessions' = None
  /\ forall other,
       other <> sid ->
       get_session_status now other sessions'
       = get_session_status now other sessions.
Proof.
  unfold delete_session, get_session_status.
  destruct (sessions !! sid) as [s|] eqn:Es; [|discriminate].
  intros [= <-]. rewrite lookup_delete_eq.
  split; [destruct (new_JiraAgentResponse _); discriminate|].
  split; [reflexivity|]. split; [reflexivity|].
  intros other Hne. rewrite lookup_delete_ne by congruence. reflexivity.
Qed.

Lemma deleted_session_is_unknown_witness :
  let sessions : Store := {[ "s1" := session_1 COMPLETED 1 5 ]} in
  delete_session "s1" sessions = Some ∅
  /\ get_session_status 0 "s1" (∅ : Store) = Returns None.
Proof.
  cbv zeta.
  assert (Hdel : delete_session "s1"
                   ({[ "s1" := session_1 COMPLETED 1 5 ]} : Store) = Some ∅).
  { unfold delete_session. rewrite lookup_singleton_eq.
    rewrite delete_singleton_eq. reflexivity. }
  split; [exact Hdel|].
  apply (deleted_session_is_unknown 0 "s1" _ _ Hdel).
Defined.

(** X8. With [max_iterations] set to 1 or less, the first rejection after a
    successful start is refused at once with the message [Maximum iterations
    (n) reached without approval]: the session ends [FAILED] at iteration 1
    and no regeneration is tried, whatever the collaborators would do. *)
Theorem limit_of_one_allows_no_revision (env env' : Collaborators)
    (clock clock' : nat -> Z) (sid : string) (request : JiraAgentRequest)
    (sessions : Store) (config : gmap string Z) (n : Z) (fb : UserFeedback) :
  session_config request = Some config ->
  config !! "max_iterations" = Some n ->
  n <= 1 ->
  resp_success (start_jira_agent_process env clock sid request sessions).2 = true ->
  approval_status fb = REJECTED ->
  let started := (start_jira_agent_process env clock sid request sessions).1 in
  let result :=
    handle_user_approval env' clock'
      {| areq_session_id := sid; feedback := fb |} started in
  resp_success result.2 = false
  /\ resp_message result.2
     = "Maximum iterations (" +:+ of_int n +:+ ") reached without approval"
  /\ (current_state <$> result.1 !! sid) = Some FAILED
  /\ (iteration_count <$> result.1 !! sid) = Some 1.
Proof.
  intros Hc Hn Hle Hok Hrej. cbv zeta.
  unfold start_jira_agent_process in *. rewrite Hc in *. rewrite Hn in *.
  destruct (jira_initialize env _) as [[|]|]; try discriminate Hok.
  destruct (fetch_ticket env _) as [[t|]|]; try discriminate Hok.
  destruct (analyze_ticket env t) as [[a|]|]; try discriminate Hok.
  destruct (_generate_code_from_analysis env a _) as [|f fs] eqn:Eg;
    try discriminate Hok.
  rewrite (start_response_valid _ _ _ _ _ _ Eg) in * by reflexivity.
  cbn [fst]. unfold handle_user_approval.
  cbn [areq_session_id feedback]. rewrite lookup_insert_eq, Hrej.
  fields_simpl. cbn [default from_option id].
  rewrite bool_decide_true by exact Hle.
  unfold _create_error_response. cbn [fst snd resp_success resp_message].
  rewrite alter_insert_eq, lookup_insert_eq. repeat split.
Qed.

Lemma limit_of_one_allows_no_revision_witness :
  let started :=
    (start_jira_agent_process env_ok (still 0) "s1" (start_request 1) ∅).1 in
  let result :=
    handle_user_approval env_ok (still 9) (approval_for_s1 REJECTED) started in
  resp_message result.2 = "Maximum iterations (1) reached without approval"
  /\ (current_state <$> result.1 !! "s1") = Some FAILED.
Proof.
  destruct (limit_of_one_allows_no_revision env_ok env_ok (still 0) (still 9) "s1"
              (start_request 1) ∅ {[ "max_iterations" := 1 ]} 1
              (feedback_with REJECTED))
    as (_ & H2 & H3 & _);
    [reflexivity | reflexivity | lia | reflexivity | reflexivity |].
  split; [exact H2 | exact H3].
Defined.

(** *** The status query *)







(** *** Sweeps *)

(** X10. A sweep makes an earlier sweep with the same or a larger threshold
    superfluous: [cleanup_old_sessions] at a later time after one at an
    earlier time leaves the same dictionary as the later sweep alone. In
    particular a sweep repeated at the same time changes nothing more. *)
Theorem later_sweep_subsumes_earlier (t1 t2 h1 h2 : Z) (sessions : Store) :
  t1 <= t2 -> h2 <= h1 ->
  cleanup_old_sessions t2 h2 (cleanup_old_sessions t1 h1 sessions)
  = cleanup_old_sessions t2 h2 sessions.
Proof.
  intros Ht Hh. unfold cleanup_old_sessions. apply map_eq. intros sid.
  apply option_eq. intros s. rewrite !map_lookup_filter_Some.
  unfold older_than. cbn [snd]. split.
  - intros [[Hs _] Hk]. split; assumption.
  - intros [Hs Hk]. repeat split; try assumption.
    intros Hold. apply Hk.
    apply Qle_lt_trans with (inject_Z h1); [rewrite <- Zle_Qle; exact Hh|].
    apply Qlt_le_trans with (age_hours t1 (created_at s)); [exact Hold|].
    apply age_hours_le. lia.
Qed.

Lemma later_sweep_subsumes_earlier_witness :
  let sessions : Store := {[ "s1" := session_1 AWAITING_APPROVAL 1 5 ]} in
  cleanup_old_sessions (25 * hour) 24 (cleanup_old_sessions (2 * hour) 24 sessions)
  = cleanup_old_sessions (25 * hour) 24 sessions.
Proof.
  apply (later_sweep_subsumes_earlier (2 * hour) (25 * hour) 24 24);
    [vm_compute; discriminate | lia].
Defined.

End MoreWorkflowFacts.

(** ** More on parsing generated text *)

Section MoreParserFacts.
Import PyStr Re ReGroups CodeGenerator Samples.

(** *** The groups of a match *)

Lemma span_of_cons (i j : nat) (sp : nat * nat) (cs : caps) :
  is_Some (span_of i ((j, sp) :: cs)) <-> i = j \/ is_Some (span_of i cs).
Proof.
  simpl. destruct (Nat.eqb_spec i j) as [->|Hne].
  - split; [intros _; left; reflexivity | intros _; eexists; reflexivity].
  - split; [intros H; right; exact H | intros [H|H]; [contradiction|exact H]].
Qed.

(** A successful match hands its continuation all the groups it had and
    those of [always_groups]. *)
Lemma mt_groups (r : regex) :
  forall (A : Type) (pos : nat) (s : string) (cs : caps)
         (k : nat -> string -> caps -> option A) (a : A),
    mt A r pos s cs k = Some a ->
    exists pos' s' cs',
      k pos' s' cs' = Some a
      /\ forall i, In i (always_groups r) \/ is_Some (span_of i cs) ->
                   is_Some (span_of i cs').
Proof.
  induction r as [|p|r1 IH1 r2 IH2|r1 IH1 r2 IH2|p|p|j r1 IH1|r1 IH1|];
    intros A pos s cs k a; simpl.
  - intros H. exists pos, s, cs. split; [exact H|]. intros i [[]|Hi]; exact Hi.
  - destruct s as [|c s']; [discriminate|]. destruct (p c); [|discriminate].
    intros H. exists (S pos), s', cs. split; [exact H|].
    intros i [[]|Hi]; exact Hi.
  - intros H. destruct (IH1 _ _ _ _ _ _ H) as (p1 & s1 & c1 & H1 & G1).
    destruct (IH2 _ _ _ _ _ _ H1) as (p2 & s2 & c2 & H2 & G2).
    exists p2, s2, c2. split; [exact H2|].
    intros i [Hi|Hi].
    + apply in_app_or in Hi. destruct Hi as [Hi|Hi].
      * apply G2. right. apply G1. left. exact Hi.
      * apply G2. left. exact Hi.
    + apply G2. right. apply G1. right. exact Hi.
  - destruct (mt A r1 pos s cs k) as [a'|] eqn:E.
    + intros [= <-]. destruct (IH1 _ _ _ _ _ _ E) as (p1 & s1 & c1 & H1 & G1).
      exists p1, s1, c1. split; [exact H1|].
      intros i [Hi|Hi]; apply G1; [left|right; exact Hi].
      apply filter_In in Hi. apply Hi.
    + intros H. destruct (IH2 _ _ _ _ _ _ H) as (p2 & s2 & c2 & H2 & G2).
      exists p2, s2, c2. split; [exact H2|].
      intros i [Hi|Hi]; apply G2; [left|right; exact Hi].
      apply filter_In in Hi. destruct Hi as [_ Hi].
      apply existsb_exists in Hi. destruct Hi as (x & Hx & Heq).
      apply Nat.eqb_eq in Heq. subst. exact Hx.
  - intros H. destruct (starG_advances _ _ _ _ _ H) as (p1 & s1 & _ & H1).
    exists p1, s1, cs. split; [exact H1|]. intros i [[]|Hi]; exact Hi.
  - intros H. destruct (starL_advances _ _ _ _ _ H) as (p1 & s1 & _ & H1).
    exists p1, s1, cs. split; [exact H1|]. intros i [[]|Hi]; exact Hi.
  - intros H. destruct (IH1 _ _ _ _ _ _ H) as (p1 & s1 & c1 & H1 & G1).
    exists p1, s1, ((j, (pos, p1)) :: c1). split; [exact H1|].
    intros i Hi. apply span_of_cons. destruct Hi as [[Hi|Hi]|Hi].
    + left. symmetry. exact Hi.
    + right. apply G1. left. exact Hi.
    + right. apply G1. right. exact Hi.
  - destruct (mt unit r1 pos s cs _); [|discriminate].
    intros H. exists pos, s, cs. split; [exact H|]. intros i [[]|Hi]; exact Hi.
  - destruct (at_end s); [|discriminate].
    intros H. exists pos, s, cs. split; [exact H|]. intros i [[]|Hi]; exact Hi.
Qed.

Lemma match_here_groups (r : regex) (s : string) (m : re_match) (i : nat) :
  match_here r s = Some m -> In i (always_groups r) -> is_Some (group i m).
Proof.
  unfold match_here. intros H Hi.
  destruct (mt_groups _ _ _ _ _ _ _ H) as (pos & s' & cs & [= <-] & G).
  unfold group. cbn [m_caps m_subject].
  destruct (G i (or_introl Hi)) as [[a b] ->]. eexists. reflexivity.
Qed.

Lemma finditer_from_match (r : regex) (s : string) :
  forall (skip : nat) (m : re_match),
    In m (finditer r skip s) -> exists s', match_here r s' = Some m.
Proof.
  induction s as [|c s IH]; intros skip m; destruct skip as [|n]; simpl.
  - destruct (match_here r EmptyString) as [m0|] eqn:E; [|intros []].
    intros [<-|[]]. exists EmptyString. exact E.
  - intros [].
  - destruct (match_here r (String c s)) as [m0|] eqn:E.
    + intros [<-|Hin]; [exists (String c s); exact E | eapply IH; exact Hin].
    + apply IH.
  - apply IH.
Qed.


(** *** Fence removal *)

Lemma first_line_startswith (p : string) :
  forall s : string,
    startswith p s = true -> count_nl p = 0%nat ->
    exists l0 rest, split nl s = l0 :: rest /\ startswith p l0 = true.
Proof.
  induction p as [|a p IH]; intros s Hp Hnl.
  - destruct (split nl s) as [|l0 rest] eqn:E;
      [exfalso; exact (split_nonempty _ _ E)|].
    exists l0, rest. split; reflexivity.
  - destruct s as [|b s]; [discriminate|]. simpl in Hp, Hnl.
    destruct (Ascii.eqb_spec a b) as [->|]; [|discriminate].
    destruct (Ascii.eqb b nl) eqn:Eb; [discriminate|].
    destruct (IH s Hp Hnl) as (l0 & rest & Hsplit & Hl0).
    simpl. rewrite Eb, Hsplit. exists (String b l0), rest.
    split; [reflexivity|]. simpl. rewrite Ascii.eqb_refl. exact Hl0.
Qed.

Lemma split_one_line (s : string) :
  count_nl s = 0%nat -> split nl s = [s].
Proof.
  induction s as [|c s IH]; simpl; [reflexivity|].
  destruct (Ascii.eqb c nl); [discriminate|].
  intros H. rewrite (IH H). reflexivity.
Qed.

Lemma last_some_cons {A : Type} (x : A) (l : list A) :
  List.last (List.map Some (x :: l)) None <> None.
Proof.
  revert x. induction l as [|y l IH]; intros x; simpl; [discriminate|].
  apply (IH y).
Qed.

(** The fence removal raises exactly on a text that starts with the fence
    and has no second line. *)
Lemma fence_removal_raises (body : string) :
  (startswith fence body = true /\ count_nl body = 0%nat ->
   remove_code_block_markers body
   = Raises "IndexError" "list index out of range")
  /\ (forall t msg,
        remove_code_block_markers body = Raises t msg ->
        t = "IndexError" /\ startswith fence body = true
        /\ count_nl body = 0%nat).
Proof.
  unfold remove_code_block_markers. split.
  - intros [Hf Hz]. rewrite Hf, (split_one_line _ Hz), Hf. reflexivity.
  - intros t msg. destruct (startswith fence body) eqn:Hf; [|discriminate].
    destruct (first_line_startswith fence body Hf eq_refl)
      as (l0 & rest & Hsplit & Hl0).
    rewrite Hsplit, Hl0.
    destruct rest as [|l1 rest].
    + simpl. intros [= <- <-]. split; [reflexivity|]. split; [reflexivity|].
      destruct (count_nl body) eqn:Ec; [reflexivity|].
      pose proof (split_length body) as Hlen.
      rewrite Hsplit, Ec in Hlen. discriminate.
    + destruct (List.last (List.map Some (l1 :: rest)) None) eqn:El.
      * discriminate.
      * exfalso. exact (last_some_cons _ _ El).
Qed.

Lemma mapM_Raises {A B : Type} (f : A -> outcome B) (l : list A)
    (t msg : string) :
  mapM f l = Raises t msg -> Exists (fun a => f a = Raises t msg) l.
Proof.
  induction l as [|a l IH]; simpl; [discriminate|].
  destruct (f a) as [b|t' m'] eqn:Ea; simpl.
  - destruct (mapM f l) as [k|t' m'] eqn:Ek; simpl; [discriminate|].
    intros [= -> ->]. apply Exists_cons_tl. apply IH. reflexivity.
  - intros [= -> ->]. apply Exists_cons_hd. exact Ea.
Qed.

Lemma mapM_Exists_raises {A B : Type} (f : A -> outcome B) (l : list A) :
  Exists (fun a => exists t msg, f a = Raises t msg) l ->
  exists t msg, mapM f l = Raises t msg.
Proof.
  induction 1 as [a l (t & msg & Ha)|a l _ (t & msg & IH)]; simpl.
  - rewrite Ha. exists t, msg. reflexivity.
  - destruct (f a) as [b|t' m']; simpl.
    + rewrite IH. exists t, msg. reflexivity.
    + exists t', m'. reflexivity.
Qed.

Lemma file_pattern_groups (s : string) (m : re_match) :
  match_here file_pattern s = Some m ->
  exists g1 g3, group 1 m = Some g1 /\ group 3 m = Some g3.
Proof.
  intros H.
  destruct (match_here_groups _ _ _ 1%nat H) as [g1 H1];
    [vm_compute; tauto|].
  destruct (match_here_groups _ _ _ 3%nat H) as [g3 H3];
    [vm_compute; tauto|].
  exists g1, g3. split; assumption.
Qed.

Lemma file_of_match_raises (s : string) (m : re_match) :
  match_here file_pattern s = Some m ->
  (forall t msg,
      file_of_match m = Raises t msg ->
      t = "IndexError"
      /\ exists body, group_strip 3 m = Returns body
                      /\ startswith fence body = true
                      /\ count_nl body = 0%nat)
  /\ (forall body,
        group_strip 3 m = Returns body ->
        startswith fence body = true -> count_nl body = 0%nat ->
        file_of_match m = Raises "IndexError" "list index out of range").
Proof.
  intros H. destruct (file_pattern_groups _ _ H) as (g1 & g3 & H1 & H3).
  unfold file_of_match, group_strip. rewrite H1, H3. simpl. split.
  - intros t msg.
    destruct (remove_code_block_markers (strip g3)) as [c|t' m'] eqn:E;
      simpl; [discriminate|].
    intros [= -> ->].
    destruct (proj2 (fence_removal_raises (strip g3)) _ _ E) as (Ht & Hf & Hz).
    split; [exact Ht|]. exists (strip g3). repeat split; assumption.
  - intros body [= <-] Hf Hz.
    rewrite (proj1 (fence_removal_raises (strip g3)) (conj Hf Hz)). reflexivity.
Qed.

(** X11. [_parse_generated_content] raises in one situation only, and then
    it is an [IndexError]: some file block that the pattern finds has a body
    which, once stripped, starts with the fence and has no second line.
    Conversely every text with such a block makes it raise. *)
Theorem parse_raises_only_on_bare_fence (text : string)
    (options : GenerationOptions) :
  (forall t msg,
      _parse_generated_content text options = Raises t msg ->
      t = "IndexError"
      /\ Exists (fun m => exists body,
                     group_strip 3 m = Returns body
                     /\ startswith fence body = true
                     /\ count_nl body = 0%nat)
                (finditer file_pattern 0 text))
  /\ (Exists (fun m => exists body,
                  group_strip 3 m = Returns body
                  /\ startswith fence body = true
                  /\ count_nl body = 0%nat)
             (finditer file_pattern 0 text) ->
      exists msg,
        _parse_generated_content text options = Raises "IndexError" msg).
Proof.
  unfold _parse_generated_content. split.
  - intros t msg.
    destruct (mapM file_of_match (finditer file_pattern 0 text))
      as [k|t' m'] eqn:E; simpl.
    + destruct k; discriminate.
    + intros [= -> ->]. apply mapM_Raises in E.
      apply List.Exists_exists in E. destruct E as (m & Hin & Hm).
      destruct (finditer_from_match _ _ _ _ Hin) as (s' & Hs').
      destruct (proj1 (file_of_match_raises _ _ Hs') _ _ Hm) as [Ht Hbody].
      split; [exact Ht|]. apply List.Exists_exists. exists m. split; assumption.
  - intros Hex.
    assert (Hraise : exists t msg,
               mapM file_of_match (finditer file_pattern 0 text)
               = Raises t msg).
    { apply mapM_Exists_raises. apply List.Exists_exists.
      apply List.Exists_exists in Hex.
      destruct Hex as (m & Hin & body & Hb & Hf & Hz).
      exists m. split; [exact Hin|].
      destruct (finditer_from_match _ _ _ _ Hin) as (s' & Hs').
      exists "IndexError", "list index out of range".
      apply (proj2 (file_of_match_raises _ _ Hs') body Hb Hf Hz). }
    destruct Hraise as (t & msg & Hr).
    pose proof Hr as Hr'. apply mapM_Raises in Hr'.
    apply List.Exists_exists in Hr'. destruct Hr' as (m & Hin & Hm).
    destruct (finditer_from_match _ _ _ _ Hin) as (s' & Hs').
    destruct (proj1 (file_of_match_raises _ _ Hs') _ _ Hm) as [-> _].
    exists msg. rewrite Hr. reflexivity.
Qed.

Lemma parse_raises_only_on_bare_fence_witness :
  exists msg,
    _parse_generated_content fence_only_input default_options
    = Raises "IndexError" msg.
Proof.
  apply (parse_raises_only_on_bare_fence fence_only_input default_options).
  apply List.Exists_exists.
  destruct (finditer file_pattern 0 fence_only_input) as [|m ms] eqn:E;
    [vm_compute in E; discriminate|].
  exists m. split; [left; reflexivity|].
  vm_compute in E. injection E as <- _.
  exists fence. repeat split.
Defined.

(** *** One file for each file block *)

Lemma Forall2_length_eq {A B : Type} (P : A -> B -> Prop) (l : list A)
    (k : list B) :
  Forall2 P l k -> length l = length k.
Proof. induction 1; simpl; congruence. Qed.

(** X12. When [_parse_generated_content] returns, it returns one file for
    each file block that the pattern finds, and one file when it finds none;
    the [size_lines] of each is the number of lines of its content. *)
Theorem one_file_per_block (text : string) (options : GenerationOptions)
    (files : list GeneratedFile) :
  _parse_generated_content text options = Returns files ->
  length files = Nat.max 1 (length (finditer file_pattern 0 text))
  /\ Forall (fun f => size_lines f = line_count (content f)) files.
Proof.
  intros H. split; [|eapply parsed_content_size_lines; exact H].
  unfold _parse_generated_content in H.
  destruct (mapM file_of_match (finditer file_pattern 0 text)) as [k|] eqn:E;
    simpl in H; [|discriminate].
  apply mapM_Returns in E. apply Forall2_length_eq in E.
  destruct k as [|f k]; injection H as <-.
  - rewrite E. reflexivity.
  - rewrite E. simpl. lia.
Qed.


Lemma one_file_per_block_witness :
  exists files,
    _parse_generated_content ("a.py" +:+ NL +:+ "x = 1") default_options
    = Returns files
    /\ length files = 1%nat.
Proof.
  destruct (_parse_generated_content ("a.py" +:+ NL +:+ "x = 1")
              default_options) as [files|] eqn:E;
    [|vm_compute in E; discriminate].
  exists files. split; [reflexivity|].
  destruct (one_file_per_block _ _ _ E) as [Hlen _].
  rewrite Hlen. reflexivity.
Defined.

(** *** Lines *)

Lemma append_assoc (a b c : string) : (a +:+ b) +:+ c = a +:+ b +:+ c.
Proof.
  induction a as [|x a IH]; [reflexivity|].
  rewrite !append_cons, IH. reflexivity.
Qed.

Lemma split_app_nl (a b : string) :
  split nl (a +:+ NL +:+ b) = split nl a ++ split nl b.
Proof.
  induction a as [|c a IH].
  - rewrite append_nil. unfold NL. rewrite append_cons, append_nil.
    simpl. rewrite ?Ascii.eqb_refl. reflexivity.
  - rewrite append_cons. simpl. rewrite IH.
    destruct (Ascii.eqb c nl); [reflexivity|].
    destruct (split nl a) as [|w ws] eqn:E;
      [exfalso; exact (split_nonempty _ _ E)|].
    reflexivity.
Qed.

Lemma join_cons_char (c : ascii) (w : string) (ws : list string) :
  join NL (String c w :: ws) = String c (join NL (w :: ws)).
Proof. destruct ws; reflexivity. Qed.

(** Joining the lines of a text gives the text back. *)
Lemma join_split (s : string) : join NL (split nl s) = s.
Proof.
  induction s as [|c s IH]; [reflexivity|]. simpl.
  destruct (split nl s) as [|w ws] eqn:E;
    [exfalso; exact (split_nonempty _ _ E)|].
  destruct (Ascii.eqb_spec c nl) as [->|Hne].
  - change (join NL (EmptyString :: w :: ws))
      with (EmptyString +:+ NL +:+ join NL (w :: ws)).
    rewrite IH. reflexivity.
  - rewrite join_cons_char, IH. reflexivity.
Qed.

Lemma last_some_snoc {A : Type} (l : list A) (x : A) :
  List.last (List.map Some (l ++ [x])) None = Some x.
Proof. rewrite List.map_app. simpl. apply List.last_last. Qed.

(** X13. The fence removal of [_parse_generated_content] undoes the wrapping
    of a body in a code fence: from an opening fence line (with any language
    tag), the body and a closing fence line it returns the body, unchanged,
    whatever the body holds. *)
Theorem fenced_body_is_unwrapped (tag body : string) :
  count_nl tag = 0%nat ->
  remove_code_block_markers (fence +:+ tag +:+ NL +:+ body +:+ NL +:+ fence)
  = Returns body.
Proof.
  intros Htag. unfold remove_code_block_markers.
  rewrite startswith_app.
  rewrite <- (append_assoc fence tag), split_app_nl, split_app_nl.
  rewrite (split_one_line (fence +:+ tag))
    by (rewrite count_nl_app, Htag; reflexivity).
  change (split nl fence) with [fence].
  cbn [app]. rewrite startswith_app.
  rewrite last_some_snoc.
  change (String.eqb (strip fence) fence) with true. cbn iota.
  rewrite List.removelast_last, join_split. reflexivity.
Qed.

Lemma fenced_body_is_unwrapped_witness :
  remove_code_block_markers
    (fence +:+ "python" +:+ NL +:+ "x = 1" +:+ NL +:+ fence)
  = Returns "x = 1".
Proof. apply (fenced_body_is_unwrapped "python" "x = 1"). reflexivity. Defined.

(** *** Stripping and the line count *)

Lemma count_nl_lstrip (s : string) : (count_nl (lstrip s) <= count_nl s)%nat.
Proof.
  induction s as [|c s IH]; simpl; [lia|].
  destruct (isspace c); simpl; destruct (Ascii.eqb c nl); lia.
Qed.

Lemma count_nl_rstrip (s : string) : (count_nl (rstrip s) <= count_nl s)%nat.
Proof.
  induction s as [|c s IH]; simpl; [lia|].
  destruct (rstrip s) as [|x r].
  - destruct (isspace c); simpl; destruct (Ascii.eqb c nl); simpl in *; lia.
  - simpl in *. destruct (Ascii.eqb c nl); lia.
Qed.

Lemma count_nl_strip (s : string) : (count_nl (strip s) <= count_nl s)%nat.
Proof.
  unfold strip. pose proof (count_nl_rstrip (lstrip s)).
  pose proof (count_nl_lstrip s). lia.
Qed.

(** X14. The single file that [_parse_generated_code] builds when it finds no
    code block holds the stripped response, but its [size_lines] counts the
    lines of the response as it came: it exceeds the line count of the
    content by the number of newlines that stripping removed, and is never
    below it. *)
Theorem fallback_counts_unstripped_lines (response : string)
    (options : GenerationOptions) :
  findall2 block_pattern response = [] ->
  strip response <> EmptyString ->
  exists f,
    _parse_generated_code response options = [f]
    /\ content f = strip response
    /\ size_lines f
       = line_count (content f)
         + (Z.of_nat (count_nl response) - Z.of_nat (count_nl (strip response)))
    /\ line_count (content f) <= size_lines f.
Proof.
  intros Hblocks Hblank. unfold _parse_generated_code. rewrite Hblocks.
  cbn [files_of_blocks].
  destruct (String.eqb_spec (strip response) EmptyString) as [E|_];
    [contradiction|].
  eexists. split; [reflexivity|]. cbn [content size_lines].
  split; [reflexivity|]. rewrite !line_count_count_nl.
  pose proof (count_nl_strip response). split; lia.
Qed.

Lemma fallback_counts_unstripped_lines_witness :
  exists f,
    _parse_generated_code (NL +:+ "foo" +:+ NL) default_options = [f]
    /\ content f = "foo" /\ size_lines f = 3 /\ line_count (content f) = 1.
Proof.
  destruct (fallback_counts_unstripped_lines (NL +:+ "foo" +:+ NL)
              default_options) as (f & Hf & Hc & Hs & _);
    [reflexivity | discriminate |].
  exists f. split; [exact Hf|].
  change (strip (NL +:+ "foo" +:+ NL)) with "foo" in Hc.
  split; [exact Hc|]. rewrite Hs, Hc. split; reflexivity.
Defined.

End MoreParserFacts.

(** ** Generation from requirements *)

Section GenerationFacts.
Import PyStr Re CodeGenerator Generation Workflow WorkflowInvariants Samples
  MoreSamples.

Lemma lower_app (a b : string) : lower (a +:+ b) = lower a +:+ lower b.
Proof.
  induction a as [|c a IH]; [reflexivity|].
  rewrite append_cons. simpl. rewrite IH. reflexivity.
Qed.

Lemma contains_later (sub a b : string) :
  contains sub b = true -> contains sub (a +:+ b) = true.
Proof.
  intros H. induction a as [|c a IH]; [exact H|].
  rewrite append_cons. simpl.
  destruct (startswith sub (String c (a +:+ b))); [reflexivity|exact IH].
Qed.

Lemma startswith_app_r (p : string) :
  forall s t : string,
    startswith p s = true -> startswith p (s +:+ t) = true.
Proof.
  induction p as [|a p IH]; intros s t Hs; [reflexivity|].
  destruct s as [|b s]; [discriminate|]. rewrite append_cons. simpl in *.
  destruct (Ascii.eqb a b); [apply IH; exact Hs|discriminate].
Qed.

Lemma contains_earlier (sub a b : string) :
  contains sub a = true -> contains sub (a +:+ b) = true.
Proof.
  induction a as [|c a IH]; intros H.
  - apply contains_startswith. destruct sub; [reflexivity|discriminate].
  - rewrite append_cons. simpl in *.
    destruct (startswith sub (String c a)) eqn:Es.
    + rewrite <- append_cons, (startswith_app_r _ _ b Es). reflexivity.
    + destruct (startswith sub (String c (a +:+ b))); [reflexivity|].
      apply IH. exact H.
Qed.

(** A name with [test] in its middle part, whatever the case. *)
Lemma test_in_lower (a b c : string) :
  contains "test" (lower b) = true ->
  contains "test" (lower (a +:+ b +:+ c)) = true.
Proof.
  intros H. rewrite !lower_app. apply contains_later, contains_earlier, H.
Qed.

(** X15. The names given to generated tests are always recognised as tests
    again: the name that [_generate_test_filename] builds, for every source
    path and test framework, is classified [test] by [_determine_file_type],
    and the path that [_parse_test_content] builds is classified [test] by
    [_get_file_type]. *)
Theorem generated_test_paths_are_tests (source_path text : string)
    (source_file : GeneratedFile) (options : GenerationOptions) :
  _determine_file_type (_generate_test_filename source_path options) text
  = "test"
  /\ Forall (fun f => _get_file_type (path f) (content f) = "test"
                      /\ file_type f = "test")
            (_parse_test_content text source_file options).
Proof.
  split.
  - unfold _determine_file_type, _generate_test_filename.
    assert (H : contains "test"
                  (lower
                     (if String.eqb (lower (test_framework options)) "jest"
                      then PathParts.stem source_path +:+ ".test"
                             +:+ PyPath.suffix source_path
                      else if String.eqb (lower (test_framework options)) "pytest"
                      then "test_" +:+ PathParts.stem source_path
                             +:+ PyPath.suffix source_path
                      else if String.eqb (lower (test_framework options)) "junit"
                      then PathParts.stem source_path +:+ "Test"
                             +:+ PyPath.suffix source_path
                      else PathParts.stem source_path +:+ "_test"
                             +:+ PyPath.suffix source_path)) = true).
    { destruct (String.eqb (lower (test_framework options)) "jest");
        [apply test_in_lower; reflexivity|].
      destruct (String.eqb (lower (test_framework options)) "pytest").
      { apply (test_in_lower EmptyString "test_"). reflexivity. }
      destruct (String.eqb (lower (test_framework options)) "junit");
        apply test_in_lower; reflexivity. }
    rewrite H. reflexivity.
  - unfold _parse_test_content. repeat constructor. cbn [path].
    unfold _get_file_type.
    assert (H : contains "test"
                  (lower
                     (if PathParts.has_parent (path source_file)
                      then "tests/" +:+ PathParts.stem (path source_file)
                             +:+ ".test"
                             +:+ _get_test_extension (test_framework options)
                                   (PyPath.suffix (path source_file))
                      else PathParts.stem (path source_file) +:+ ".test"
                             +:+ _get_test_extension (test_framework options)
                                   (PyPath.suffix (path source_file))))
                = true).
    { destruct (PathParts.has_parent (path source_file)).
      - apply (test_in_lower EmptyString "tests/"). reflexivity.
      - apply test_in_lower. reflexivity. }
    rewrite H. reflexivity.
Qed.


(** *** Tests for the generated files *)

Lemma mapM_cons {A B : Type} (f : A -> outcome B) (a : A) (l : list A) :
  mapM f (a :: l) = (y ← f a; k ← mapM f l; Returns (y :: k)).
Proof. reflexivity. Qed.

Lemma tests_when_all_answer
    (generate_response : string -> string -> Z -> outcome LLMResponse)
    (options : GenerationOptions) (l : list GeneratedFile) :
  Forall (fun f => exists r,
              generate_response (test_prompt f options) test_system_message 1000
              = Returns r)
         (List.filter (fun f => String.eqb (file_type f) "source") l) ->
  exists groups,
    mapM (test_file_for generate_response options) l = Returns groups
    /\ Forall2 (fun f t =>
                  path t = _generate_test_filename (path f) options
                  /\ file_type t = "test"
                  /\ language t = language f
                  /\ exists r,
                       generate_response (test_prompt f options)
                         test_system_message 1000 = Returns r
                       /\ content t = strip (llm_content r)
                       /\ size_lines t = line_count (llm_content r))
               (List.filter (fun f => String.eqb (file_type f) "source") l)
               (List.concat groups).
Proof.
  induction l as [|f l IH]; intros Hall.
  - exists []. split; [reflexivity|constructor].
  - cbn [List.filter] in *. rewrite mapM_cons.
    destruct (String.eqb (file_type f) "source") eqn:Es.
    + inversion Hall as [|? ? [r Hr] Hrest]; subst.
      destruct (IH Hrest) as (groups & Hg & HF).
      assert (Hf : test_file_for generate_response options f
                   = Returns
                       [{| path := _generate_test_filename (path f) options;
                           content := strip (llm_content r);
                           file_type := "test";
                           language := language f;
                           description := "Unit tests for " +:+ path f;
                           size_lines := line_count (llm_content r) |}])
        by (unfold test_file_for; rewrite Es, Hr; reflexivity).
      rewrite Hf, Hg. eexists. split; [reflexivity|].
      cbn [List.concat app]. constructor; [|exact HF].
      cbn [path file_type language content size_lines].
      repeat split. exists r. repeat split. exact Hr.
    + destruct (IH Hall) as (groups & Hg & HF).
      assert (Hf : test_file_for generate_response options f = Returns [])
        by (unfold test_file_for; rewrite Es; reflexivity).
      rewrite Hf, Hg. eexists. split; [reflexivity|]. exact HF.
Qed.

Lemma tests_when_one_raises
    (generate_response : string -> string -> Z -> outcome LLMResponse)
    (options : GenerationOptions) (l : list GeneratedFile) :
  Exists (fun f => exists t msg,
              generate_response (test_prompt f options) test_system_message 1000
              = Raises t msg)
         (List.filter (fun f => String.eqb (file_type f) "source") l) ->
  exists t msg, mapM (test_file_for generate_response options) l = Raises t msg.
Proof.
  intros Hex. apply mapM_Exists_raises.
  apply List.Exists_exists in Hex. destruct Hex as (f & Hin & t & msg & Hr).
  apply filter_In in Hin. destruct Hin as [Hin Hsrc].
  apply List.Exists_exists. exists f. split; [exact Hin|].
  exists t, msg. unfold test_file_for. rewrite Hsrc, Hr. reflexivity.
Qed.

(** X16. [_generate_tests_for_files] is all or nothing. If the text generator
    answers for every file of type [source], the result has one test for
    each of them, in their order, named by [_generate_test_filename], of type
    [test], in the language of the source file, with the stripped answer as
    content and the line count of the unstripped answer as [size_lines];
    files of other types get no test. If the generator raises for one source
    file, the result is the empty list: the tests already built are
    dropped. *)
Theorem test_generation_is_all_or_nothing
    (generate_response : string -> string -> Z -> outcome LLMResponse)
    (source_files : list GeneratedFile) (options : GenerationOptions) :
  let sources :=
    List.filter (fun f => String.eqb (file_type f) "source") source_files in
  let asked f :=
    generate_response (test_prompt f options) test_system_message 1000 in
  let tests := _generate_tests_for_files generate_response source_files options in
  (Forall (fun f => exists r, asked f = Returns r) sources ->
   Forall2 (fun f t =>
              path t = _generate_test_filename (path f) options
              /\ file_type t = "test"
              /\ language t = language f
              /\ exists r, asked f = Returns r
                           /\ content t = strip (llm_content r)
                           /\ size_lines t = line_count (llm_content r))
           sources tests)
  /\ (Exists (fun f => exists t msg, asked f = Raises t msg) sources ->
      tests = []).
Proof.
  cbv zeta. unfold _generate_tests_for_files. split.
  - intros Hall.
    destruct (tests_when_all_answer _ _ _ Hall) as (groups & -> & HF).
    exact HF.
  - intros Hex.
    destruct (tests_when_one_raises _ _ _ Hex) as (t & msg & ->). reflexivity.
Qed.


Lemma test_generation_is_all_or_nothing_witness :
  Forall2 (fun f t =>
             path t = _generate_test_filename (path f) default_options
             /\ file_type t = "test"
             /\ language t = language f
             /\ exists r,
                  llm_ok (test_prompt f default_options) test_system_message
                    1000 = Returns r
                  /\ content t = strip (llm_content r)
                  /\ size_lines t = line_count (llm_content r))
          [file_a]
          (_generate_tests_for_files llm_ok [file_a] default_options)
  /\ _generate_tests_for_files llm_down [file_a; file_a] default_options = [].
Proof.
  split.
  - apply (test_generation_is_all_or_nothing llm_ok [file_a] default_options).
    repeat constructor. eexists. reflexivity.
  - apply (test_generation_is_all_or_nothing llm_down [file_a; file_a]
             default_options).
    apply Exists_cons_hd. eexists. eexists. reflexivity.
Defined.

(** *** Generation from requirements *)

Lemma tests_are_tests
    (generate_response : string -> string -> Z -> outcome LLMResponse)
    (source_files : list GeneratedFile) (options : GenerationOptions) :
  Forall (fun t => file_type t = "test")
         (_generate_tests_for_files generate_response source_files options)
  /\ (length (_generate_tests_for_files generate_response source_files options)
      <= length source_files)%nat.
Proof.
  unfold _generate_tests_for_files.
  destruct (mapM (test_file_for generate_response options) source_files)
    as [groups|] eqn:E; [|split; [constructor|simpl; lia]].
  apply mapM_Returns in E.
  induction E as [|f g l k Hfg _ IH]; [split; [constructor|reflexivity]|].
  cbn [List.concat]. destruct IH as [IH1 IH2].
  unfold test_file_for in Hfg.
  destruct (String.eqb (file_type f) "source").
  - destruct (generate_response _ _ _) as [r|]; [|discriminate].
    injection Hfg as <-. split.
    + constructor; [reflexivity|exact IH1].
    + simpl. lia.
  - injection Hfg as <-. split; [exact IH1|simpl; lia].
Qed.

Lemma generation_files_when_answered
    (build_prompt : list string -> list string -> GenerationOptions -> string)
    (generate_response : string -> string -> Z -> outcome LLMResponse)
    (processing_time : Z) (requirements technical_specs : list string)
    (options : GenerationOptions) (r : LLMResponse) :
  generate_response (build_prompt requirements technical_specs options)
    generator_system_message 2500 = Returns r ->
  let result :=
    Generation.generate_code_from_requirements build_prompt generate_response
      processing_time requirements technical_specs options in
  let parsed := _parse_generated_code (llm_content r) options in
  success result = true
  /\ exists tests,
       generated_files result = parsed ++ tests
       /\ Forall (fun t => file_type t = "test") tests
       /\ (length tests <= length parsed)%nat
       /\ (generate_tests options = false -> tests = []).
Proof.
  intros Hr. cbv zeta. unfold Generation.generate_code_from_requirements.
  rewrite Hr. cbn [success generated_files].
  split; [reflexivity|].
  destruct (generate_tests options && _) eqn:Ew.
  - eexists. split; [reflexivity|].
    destruct (tests_are_tests generate_response
                (_parse_generated_code (llm_content r) options) options)
      as [H1 H2].
    split; [exact H1|]. split; [exact H2|].
    intros Hno. rewrite Hno in Ew. discriminate.
  - exists []. split; [reflexivity|]. split; [constructor|].
    split; [simpl; lia|reflexivity].
Qed.

(** X17. Once the text generator has answered the first call,
    [generate_code_from_requirements] reports success with no error message,
    whatever happens later. Its files are the files parsed from the answer
    followed by tests only, at most one for each parsed file and none when
    tests are not requested. Its token count is the count of the first
    answer, plus a flat 200 when tests are requested and a file was parsed:
    the counts of the answers to the test calls are not added, and the 200
    are added even if the test generation failed. *)
Theorem generation_reports_success_once_answered
    (build_prompt : list string -> list string -> GenerationOptions -> string)
    (generate_response : string -> string -> Z -> outcome LLMResponse)
    (processing_time : Z) (requirements technical_specs : list string)
    (options : GenerationOptions) (r : LLMResponse) :
  generate_response (build_prompt requirements technical_specs options)
    generator_system_message 2500 = Returns r ->
  let result :=
    Generation.generate_code_from_requirements build_prompt generate_response
      processing_time requirements technical_specs options in
  let parsed := _parse_generated_code (llm_content r) options in
  success result = true
  /\ error_message result = None
  /\ (exists tests,
        generated_files result = parsed ++ tests
        /\ Forall (fun t => file_type t = "test") tests
        /\ (length tests <= length parsed)%nat
        /\ (generate_tests options = false -> tests = []))
  /\ llm_tokens_used result
     = tokens_used r
       + (if generate_tests options && negb (bool_decide (parsed = []))
          then 200 else 0).
Proof.
  intros Hr. cbv zeta.
  destruct (generation_files_when_answered build_prompt generate_response
              processing_time requirements technical_specs options r Hr)
    as [Hs Hfiles].
  split; [exact Hs|]. split; [|split; [exact Hfiles|]];
    unfold Generation.generate_code_from_requirements; rewrite Hr;
    cbn [error_message llm_tokens_used]; [reflexivity|].
  destruct (generate_tests options && _); lia.
Qed.

Lemma generation_reports_success_once_answered_witness :
  let result :=
    Generation.generate_code_from_requirements (fun _ _ _ => "write it") llm_ok
      12 ["users can log in"] ["JWT"] default_options in
  success result = true
  /\ List.map path (generated_files result) = ["main.ts"; "main.test.ts"]
  /\ llm_tokens_used result = 207.
Proof.
  destruct (generation_reports_success_once_answered (fun _ _ _ => "write it")
              llm_ok 12 ["users can log in"] ["JWT"] default_options llm_answer)
    as (H1 & _ & _ & H4); [reflexivity|].
  split; [exact H1|]. split; [reflexivity|exact H4].
Defined.

(** *** Answers without a code block *)

Lemma lstrip_empty (s : string) :
  lstrip s = EmptyString -> count_char "`" s = 0%nat.
Proof.
  induction s as [|c s IH]; [reflexivity|]. simpl.
  destruct (isspace c) eqn:Ec; [|discriminate].
  intros H. destruct (Ascii.eqb_spec c "`") as [->|_]; [discriminate|].
  apply IH, H.
Qed.

Lemma rstrip_empty (s : string) :
  rstrip s = EmptyString -> lstrip s = EmptyString.
Proof.
  induction s as [|c s IH]; [reflexivity|]. simpl.
  destruct (rstrip s); [|discriminate].
  destruct (isspace c); [|discriminate]. intros _. apply IH. reflexivity.
Qed.

Lemma lstrip_idem (s : string) : lstrip (lstrip s) = lstrip s.
Proof.
  induction s as [|c s IH]; [reflexivity|]. simpl.
  destruct (isspace c) eqn:Ec; [exact IH|]. simpl. rewrite Ec. reflexivity.
Qed.

Lemma blank_has_no_backquote (s : string) :
  strip s = EmptyString -> count_char "`" s = 0%nat.
Proof.
  unfold strip. intros H. apply rstrip_empty in H. rewrite lstrip_idem in H.
  apply lstrip_empty, H.
Qed.

Lemma block_needs_backquote (c : ascii) (s : string) :
  Ascii.eqb c "`" = false -> match_here block_pattern (String c s) = None.
Proof.
  intros Hc. unfold match_here, block_pattern, fence.
  cbn [seqs lit mt is_char]. rewrite Hc. reflexivity.
Qed.

Lemma no_backquote_no_block (s : string) :
  forall skip : nat,
    count_char "`" s = 0%nat -> finditer block_pattern skip s = [].
Proof.
  induction s as [|c s IH]; intros skip H.
  - destruct skip; reflexivity.
  - simpl in H. destruct (Ascii.eqb c "`") eqn:Ec; [discriminate|].
    destruct skip as [|n]; cbn [finditer].
    + rewrite (block_needs_backquote _ _ Ec). apply IH, H.
    + apply IH, H.
Qed.

Lemma blank_answer_parses_to_nothing (response : string)
    (options : GenerationOptions) :
  strip response = EmptyString -> _parse_generated_code response options = [].
Proof.
  intros H. unfold _parse_generated_code, findall2.
  rewrite (no_backquote_no_block _ _ (blank_has_no_backquote _ H)).
  cbn [List.map files_of_blocks]. rewrite H. reflexivity.
Qed.


Lemma empty_parse_of_blank_only (response : string)
    (options : GenerationOptions) :
  _parse_generated_code response options = [] -> strip response = EmptyString.
Proof.
  unfold _parse_generated_code.
  destruct (files_of_blocks 0 (findall2 block_pattern response) options);
    [|discriminate].
  destruct (String.eqb_spec (strip response) EmptyString) as [E|_];
    [intros _; exact E | discriminate].
Qed.

(** X18. [_parse_generated_code] returns the empty list exactly for the
    responses that are blank (empty or white space only): every other
    response gives at least one file. *)
Theorem parsed_list_empty_iff_blank (response : string)
    (options : GenerationOptions) :
  _parse_generated_code response options = [] <-> strip response = EmptyString.
Proof.
  split;
    [apply empty_parse_of_blank_only | apply blank_answer_parses_to_nothing].
Qed.

Ltac fields_simpl :=
  cbn [set_current_state set_iteration_count set_original_ticket
       set_ticket_analysis set_generated_code set_user_feedback_history
       set_updated_at set_total_tokens_used set_error_messages
       _update_session mark_failed
       session_id ticket_key current_state iteration_count max_iterations
       original_ticket ticket_analysis generated_code user_feedback_history
       created_at updated_at total_tokens_used error_messages] in *.

(** X19. With the code generator of [code_generator.py] behind the workflow:
    if the ticket is fetched and analysed, [start_jira_agent_process] fails
    with [Failed to generate code] when the analysis object is of the class
    in force (the prompt cannot be built), or the first call of the text
    generator raises or returns a blank answer; the session is left
    [FAILED], without files, with the analysis. It succeeds in state
    [AWAITING_APPROVAL] when the analysis object is of the first class and
    the answer is not blank; its files are then those parsed from the
    answer followed by tests, and the tokens it reports are 0. *)
Theorem start_depends_on_a_usable_answer (env : Collaborators)
    (build_prompt : list string -> list string -> GenerationOptions -> string)
    (generate_response : string -> string -> Z -> outcome LLMResponse)
    (processing_time : Z) (clock : nat -> Z) (sid : string)
    (request : JiraAgentRequest) (sessions : Store) (config : gmap string Z)
    (t : JiraTicketData) (a : JiraTicketAnalysis) :
  session_config request = Some config ->
  jira_initialize env (jira_credentials request) = Returns true ->
  fetch_ticket env (req_ticket_key request) = Returns (Some t) ->
  analyze_ticket env t = Returns (Some a) ->
  let answer :=
    generate_response
      (build_prompt (requirements a) (technical_specs a)
         (generation_options request))
      generator_system_message 2500 in
  let result :=
    start_jira_agent_process
      (with_generator env build_prompt generate_response processing_time)
      clock sid request sessions in
  (first_class_fields a = None
   \/ (forall r, answer = Returns r -> strip (llm_content r) = EmptyString) ->
   resp_success result.2 = false
   /\ resp_message result.2 = "Failed to generate code"
   /\ exists session,
        result.1 !! sid = Some session
        /\ current_state session = FAILED
        /\ generated_code session = []
        /\ ticket_analysis session = Some a
        /\ error_messages session = ["Failed to generate code"])
  /\ (forall further r,
        first_class_fields a = Some further ->
        answer = Returns r -> strip (llm_content r) <> EmptyString ->
        resp_success result.2 = true
        /\ resp_current_state result.2 = AWAITING_APPROVAL
        /\ resp_tokens_used result.2 = 0
        /\ exists tests,
             resp_generated_code result.2
             = _parse_generated_code (llm_content r) (generation_options request)
               ++ tests
             /\ Forall (fun f => file_type f = "test") tests).
Proof.
  intros Hc Hi Hf Ha. cbv zeta.
  unfold start_jira_agent_process, _generate_code_from_analysis.
  rewrite Hc.
  cbn [jira_initialize fetch_ticket analyze_ticket
       generate_code_from_requirements with_generator].
  rewrite Hi, Hf, Ha. split.
  - intros Hbad.
    assert (Hnone :
              match _build_generation_prompt a (generation_options request) with
              | Returns _ =>
                  if success
                       (Generation.generate_code_from_requirements build_prompt
                          generate_response processing_time (requirements a)
                          (technical_specs a) (generation_options request))
                  then generated_files
                         (Generation.generate_code_from_requirements
                            build_prompt generate_response processing_time
                            (requirements a) (technical_specs a)
                            (generation_options request))
                  else []
              | Raises _ _ => []
              end = []).
    { unfold _build_generation_prompt.
      destruct Hbad as [Hnone | Hblank]; [rewrite Hnone; reflexivity|].
      destruct (first_class_fields a); [|reflexivity].
      unfold Generation.generate_code_from_requirements.
      destruct (generate_response _ _ _) as [r|] eqn:Er; [|reflexivity].
      cbn [success generated_files].
      rewrite (blank_answer_parses_to_nothing _ _ (Hblank r eq_refl)).
      rewrite bool_decide_true by reflexivity.
      rewrite andb_false_r. reflexivity. }
    rewrite Hnone. unfold _create_error_response.
    cbn [fst snd resp_success resp_message].
    rewrite alter_insert_eq, lookup_insert_eq.
    split; [reflexivity|]. split; [reflexivity|].
    eexists. split; [reflexivity|]. fields_simpl. repeat split.
  - intros further r Hfirst Hr Hnb.
    destruct (generation_files_when_answered build_prompt
                generate_response processing_time (requirements a)
                (technical_specs a) (generation_options request) r Hr)
      as (Hs & tests & Hfiles & Htests & _).
    unfold _build_generation_prompt, new_JiraAgentResponse.
    rewrite Hfirst, Hs, Hfiles.
    destruct (_parse_generated_code (llm_content r) (generation_options request))
      as [|f fs] eqn:Ep.
    + exfalso. apply Hnb. exact (empty_parse_of_blank_only _ _ Ep).
    + cbn [app resp_ticket_analysis]. rewrite Hfirst.
      cbn [snd resp_success resp_current_state resp_tokens_used
           resp_generated_code].
      fields_simpl. split; [reflexivity|]. split; [reflexivity|].
      split; [reflexivity|]. exists tests. split; [reflexivity|exact Htests].
Qed.

Lemma start_depends_on_a_usable_answer_witness :
  resp_message
    (start_jira_agent_process
       (with_generator env_ok (fun _ _ _ => "write it") llm_blank 12)
       (still 0) "s1" (start_request 3) ∅).2
  = "Failed to generate code"
  /\ resp_message
       (start_jira_agent_process
          (with_generator env_in_force (fun _ _ _ => "write it") llm_ok 12)
          (still 0) "s1" (start_request 3) ∅).2
     = "Failed to generate code"
  /\ resp_success
       (start_jira_agent_process
          (with_generator env_ok (fun _ _ _ => "write it") llm_ok 12)
          (still 0) "s1" (start_request 3) ∅).2
     = true.
Proof.
  split; [|split].
  - destruct (start_depends_on_a_usable_answer env_ok (fun _ _ _ => "write it")
                llm_blank 12 (still 0) "s1" (start_request 3) ∅
                {[ "max_iterations" := 3 ]} ticket_1 analysis_1)
      as [H _]; [reflexivity | reflexivity | reflexivity | reflexivity |].
    destruct H as (_ & Hm & _); [right; intros r [= <-]; reflexivity|].
    exact Hm.
  - destruct (start_depends_on_a_usable_answer env_in_force
                (fun _ _ _ => "write it") llm_ok 12 (still 0) "s1"
                (start_request 3) ∅ {[ "max_iterations" := 3 ]} ticket_1
                (JiraService._create_fallback_analysis "ABC-1"))
      as [H _]; [reflexivity | reflexivity | reflexivity | reflexivity |].
    destruct H as (_ & Hm & _); [left; reflexivity|]. exact Hm.
  - destruct (start_depends_on_a_usable_answer env_ok (fun _ _ _ => "write it")
                llm_ok 12 (still 0) "s1" (start_request 3) ∅
                {[ "max_iterations" := 3 ]} ticket_1 analysis_1)
      as [_ H]; [reflexivity | reflexivity | reflexivity | reflexivity |].
    destruct (H {| complexity_score := 3; estimated_files := 1;
                   suggested_technologies := []; dependencies := [] |}
                llm_answer) as (Hs & _);
      [reflexivity | reflexivity | discriminate |].
    exact Hs.
Defined.

(** *** The bracket count *)

Lemma count_char_app (c : ascii) (a b : string) :
  count_char c (a +:+ b) = (count_char c a + count_char c b)%nat.
Proof.
  induction a as [|x a IH]; [reflexivity|].
  rewrite append_cons. simpl. rewrite IH. destruct (Ascii.eqb x c); reflexivity.
Qed.

(** X20. [_basic_js_syntax_check] looks at counts only: it gives the same
    verdict for two texts joined in either order, so a closing bracket
    before its opening one is accepted; and two accepted texts joined are
    accepted. *)
Theorem js_check_counts_only (a b : string) :
  _basic_js_syntax_check (a +:+ b) = _basic_js_syntax_check (b +:+ a)
  /\ (_basic_js_syntax_check a = true -> _basic_js_syntax_check b = true ->
      _basic_js_syntax_check (a +:+ b) = true).
Proof.
  unfold _basic_js_syntax_check. rewrite !count_char_app. split.
  - rewrite !(Nat.add_comm (count_char _ a)). reflexivity.
  - rewrite !andb_true_iff, !Nat.eqb_eq. lia.
Qed.

Lemma js_check_counts_only_witness :
  _basic_js_syntax_check ("}" +:+ "{") = _basic_js_syntax_check ("{" +:+ "}")
  /\ _basic_js_syntax_check (")(" +:+ "}{") = true.
Proof.
  split.
  - exact (proj1 (js_check_counts_only "}" "{")).
  - apply (proj2 (js_check_counts_only ")(" "}{")); reflexivity.
Defined.

End GenerationFacts.

(** ** The JIRA service *)

Section JiraFacts.
Import PyStr JiraService.

(** X21. The three mappings of the JIRA service invert the enumerations:
    the value of every member of [IssueType], [Priority] and [Status],
    written in any mix of upper and lower case, is mapped back to that
    member. *)
Theorem enum_values_map_back :
  (forall (t : IssueType) (s : string),
      lower s = lower (issue_type_value t) -> _map_issue_type s = t)
  /\ (forall (p : Priority) (s : string),
        lower s = lower (priority_value p) -> _map_priority s = p)
  /\ (forall (st : Status) (s : string),
        lower s = lower (status_value st) -> _map_status s = st).
Proof.
  unfold _map_issue_type, _map_priority, _map_status.
  repeat split; intros x s ->; destruct x; reflexivity.
Qed.

Lemma enum_values_map_back_witness :
  _map_issue_type "SUB-TASK" = SUBTASK
  /\ _map_priority "highest" = HIGHEST
  /\ _map_status "In Review" = IN_REVIEW.
Proof.
  destruct enum_values_map_back as (H1 & H2 & H3).
  split; [apply (H1 SUBTASK); reflexivity|].
  split; [apply (H2 HIGHEST); reflexivity | apply (H3 IN_REVIEW); reflexivity].
Defined.

(** *** The manual analysis *)

Lemma contains_step (sub : string) (c : ascii) (s : string) :
  contains sub s = true -> contains sub (String c s) = true.
Proof.
  intros H. simpl. destruct (startswith sub (String c s)); [reflexivity|exact H].
Qed.

Lemma contains_drop (sub : string) (n : nat) :
  forall s : string, contains sub (drop n s) = true -> contains sub s = true.
Proof.
  induction n as [|n IH]; intros s H; [destruct s; exact H|].
  destruct s as [|c s]; [exact H|]. apply contains_step, IH, H.
Qed.

Lemma contains_lstrip (sub s : string) :
  contains sub (lstrip s) = true -> contains sub s = true.
Proof.
  induction s as [|c s IH]; intros H; [exact H|].
  simpl in H. destruct (isspace c); [apply contains_step, IH, H|exact H].
Qed.

Lemma rstrip_prefix (s : string) : exists t, s = rstrip s +:+ t.
Proof.
  induction s as [|c s [t IH]]; [exists EmptyString; reflexivity|].
  simpl. destruct (rstrip s) as [|x r] eqn:E.
  - destruct (isspace c).
    + exists (String c s). reflexivity.
    + exists t. rewrite append_cons, <- IH. reflexivity.
  - exists t. rewrite append_cons, <- IH. reflexivity.
Qed.

Lemma contains_rstrip (sub s : string) :
  contains sub (rstrip s) = true -> contains sub s = true.
Proof.
  intros H. destruct (rstrip_prefix s) as [t Ht]. rewrite Ht.
  apply contains_earlier, H.
Qed.

Lemma contains_strip (sub s : string) :
  contains sub (strip s) = true -> contains sub s = true.
Proof. intros H. apply contains_lstrip, contains_rstrip, H. Qed.

(** An item holds none of the words that switch the section. *)
Lemma item_without_keyword (kw line : string) :
  contains kw line = false -> contains kw (strip (drop 2 line)) = false.
Proof.
  intros H. destruct (contains kw (strip (drop 2 line))) eqn:E; [|reflexivity].
  apply contains_strip, contains_drop in E. congruence.
Qed.

Lemma collect_keeps (P : string -> Prop) (cur : option section_name)
    (item : string) (acc : collected) :
  P item ->
  Forall P (c_requirements acc) /\ Forall P (c_technical_specs acc)
  /\ Forall P (c_acceptance_criteria acc) ->
  Forall P (c_requirements (collect cur item acc))
  /\ Forall P (c_technical_specs (collect cur item acc))
  /\ Forall P (c_acceptance_criteria (collect cur item acc)).
Proof.
  intros Hi (H1 & H2 & H3). destruct cur as [[]|]; simpl;
    repeat split; try assumption; apply Forall_app; split;
    try assumption; repeat constructor; exact Hi.
Qed.

Lemma scan_lines_items (lines : list string) :
  forall (cur : option section_name) (acc : collected),
    let P item := Forall (fun kw => contains kw item = false) section_keywords in
    Forall P (c_requirements acc) /\ Forall P (c_technical_specs acc)
    /\ Forall P (c_acceptance_criteria acc) ->
    Forall P (c_requirements (scan_lines lines cur acc))
    /\ Forall P (c_technical_specs (scan_lines lines cur acc))
    /\ Forall P (c_acceptance_criteria (scan_lines lines cur acc)).
Proof.
  cbv zeta. induction lines as [|line rest IH]; intros cur acc Hacc;
    [exact Hacc|].
  cbn [scan_lines].
  destruct (contains "requirement" (strip line)) eqn:E1; [apply IH, Hacc|].
  destruct (contains "technical" (strip line)) eqn:E2; [apply IH, Hacc|].
  destruct (contains "spec" (strip line)) eqn:E3; [apply IH, Hacc|].
  destruct (contains "acceptance" (strip line)) eqn:E4; [apply IH, Hacc|].
  destruct (contains "criteria" (strip line)) eqn:E5; [apply IH, Hacc|].
  cbn [orb].
  destruct (startswith "- " (strip line) || startswith "* " (strip line));
    [|apply IH, Hacc].
  apply IH. apply collect_keeps; [|exact Hacc].
  unfold section_keywords.
  repeat constructor; apply item_without_keyword; assumption.
Qed.

(** X22. In the result of [_manual_parse_analysis] the lists of
    requirements, technical specifications and acceptance criteria are never
    empty, and no item of them contains one of the words [requirement],
    [technical], [spec], [acceptance] and [criteria]: a bullet line with
    such a word switches the section and is not recorded. *)
Theorem manual_items_hold_no_keyword (response : string) :
  let m := _manual_parse_analysis response in
  ma_requirements m <> [] /\ ma_technical_specs m <> []
  /\ ma_acceptance_criteria m <> []
  /\ Forall (fun item =>
               Forall (fun kw => contains kw item = false) section_keywords)
            (ma_requirements m ++ ma_technical_specs m
               ++ ma_acceptance_criteria m).
Proof.
  cbv zeta. unfold _manual_parse_analysis.
  cbn [ma_requirements ma_technical_specs ma_acceptance_criteria].
  destruct (scan_lines_items (split nl (lower response)) None
              {| c_requirements := []; c_technical_specs := [];
                 c_acceptance_criteria := [] |})
    as (H1 & H2 & H3); [repeat split; constructor|].
  set (acc := scan_lines _ _ _) in *.
  split; [destruct (c_requirements acc); discriminate|].
  split; [destruct (c_technical_specs acc); discriminate|].
  split; [destruct (c_acceptance_criteria acc); discriminate|].
  rewrite !Forall_app. repeat split.
  - destruct (c_requirements acc); [|exact H1]. vm_compute. repeat constructor.
  - destruct (c_technical_specs acc); [|exact H2]. vm_compute. repeat constructor.
  - destruct (c_acceptance_criteria acc); [|exact H3].
    vm_compute. repeat constructor.
Qed.


Lemma first_line_prefix (s : string) :
  forall (w : string) (ws : list string),
    split nl s = w :: ws -> exists rest, s = w +:+ rest.
Proof.
  induction s as [|c s IH]; intros w ws; simpl.
  - intros [= <- <-]. exists EmptyString. reflexivity.
  - destruct (Ascii.eqb c nl).
    + intros [= <- <-]. exists (String c s). reflexivity.
    + destruct (split nl s) as [|w' ws'] eqn:E;
        [exfalso; exact (split_nonempty _ _ E)|].
      intros [= <- <-]. destruct (IH w' ws' eq_refl) as [rest Hrest].
      exists rest. rewrite append_cons, <- Hrest. reflexivity.
Qed.

Lemma contains_in_line (sub s : string) :
  forall l : string,
    In l (split nl s) -> contains sub l = true -> contains sub s = true.
Proof.
  induction s as [|c s IH]; intros l; simpl split.
  - intros [<-|[]] H. exact H.
  - destruct (Ascii.eqb c nl).
    + intros [<-|Hin] H.
      * apply contains_startswith. destruct sub; [reflexivity|discriminate].
      * apply contains_step. apply (IH l Hin H).
    + destruct (split nl s) as [|w ws] eqn:E;
        [exfalso; exact (split_nonempty _ _ E)|].
      intros [<-|Hin] H.
      * destruct (first_line_prefix s w ws E) as [rest Hrest].
        rewrite Hrest, <- append_cons. apply contains_earlier, H.
      * apply contains_step. apply (IH l (or_intror Hin) H).
Qed.

Lemma scan_lines_without_header (lines : list string) (acc : collected) :
  Forall (fun line =>
            Forall (fun kw => contains kw (strip line) = false)
                   section_keywords) lines ->
  scan_lines lines None acc = acc.
Proof.
  induction 1 as [|line rest Hline _ IH]; [reflexivity|].
  cbn [scan_lines]. unfold section_keywords in Hline.
  inversion Hline as [|? ? E1 H1]; subst.
  inversion H1 as [|? ? E2 H2]; subst.
  inversion H2 as [|? ? E3 H3]; subst.
  inversion H3 as [|? ? E4 H4]; subst.
  inversion H4 as [|? ? E5 _]; subst.
  rewrite E1, E2, E3, E4, E5. cbn [orb collect].
  destruct (startswith "- " (strip line) || startswith "* " (strip line));
    exact IH.
Qed.

(** X23. A response that, in lower case, contains none of the five section
    words gives the default analysis, whatever bullets it holds: bullets
    that come before any section line are dropped. *)
Theorem bullets_without_header_are_dropped (response : string) :
  Forall (fun kw => contains kw (lower response) = false) section_keywords ->
  _manual_parse_analysis response
  = {| ma_requirements := ["Implement functionality as described"];
       ma_technical_specs := ["Follow standard coding practices"];
       ma_acceptance_criteria := ["Code should work as expected"];
       ma_complexity_score := 5;
       ma_estimated_files := 3;
       ma_suggested_technologies := ["javascript"; "typescript"];
       ma_dependencies := [] |}.
Proof.
  intros Hno. unfold _manual_parse_analysis.
  rewrite scan_lines_without_header; [reflexivity|].
  apply List.Forall_forall. intros line Hin.
  apply List.Forall_forall. intros kw Hkw.
  destruct (contains kw (strip line)) eqn:E; [|reflexivity].
  apply contains_strip in E. apply (contains_in_line _ _ _ Hin) in E.
  rewrite List.Forall_forall in Hno. rewrite (Hno kw Hkw) in E. discriminate.
Qed.

Lemma bullets_without_header_are_dropped_witness :
  ma_requirements
    (_manual_parse_analysis ("- Add a login form" +:+ NL +:+ "* hash passwords"))
  = ["Implement functionality as described"].
Proof.
  rewrite (bullets_without_header_are_dropped
             ("- Add a login form" +:+ NL +:+ "* hash passwords"));
    [reflexivity|].
  repeat constructor.
Defined.

End JiraFacts.
